(** * EcoPaste: the clipboard capture pipeline

    A shallow embedding of
      - [readClipboardWithRetry] and [getClipboardTextSubtype]
        (src/plugins/clipboard.ts, the revision with the Windows image
        fallback),
      - [useClipboard] and [processClipboard]
        (src/hooks/useClipboard.ts, the revision with the debounce timer,
        the processing lock and the zero-byte image guard),
    followed by the properties the specification states about them.

    Conventions.  A JavaScript value that may be [undefined] is an [option];
    a call that may throw (or a promise that may reject) yields a [Res];
    every observable effect (a call into the native clipboard layer, a log
    line, a toast, a timer delay, a mutation of [state.list], a store
    operation) is recorded, in program order, in a trace of [Event]s. *)

From Stdlib Require Import ZArith List String Bool Lia.
Import ListNotations.

Local Open Scope string_scope.
Local Open Scope Z_scope.
Local Open Scope list_scope.

(* ===================================================================== *)
(** ** Data model *)
(* ===================================================================== *)

(** A thrown value.  [lastError] of the retry loop starts out [undefined]. *)
Inductive Err : Type :=
| ErrUndefined
| Error (msg : string).

Inductive Res (A : Type) : Type :=
| Ok (a : A)
| Throw (e : Err).
Arguments Ok {A} a.
Arguments Throw {A} e.

(** The [type] column: ["text" | "rtf" | "html" | "image" | "files"]. *)
Inductive ClipType : Type := Ttext | Trtf | Thtml | Timage | Tfiles.

Definition ClipType_eqb (a b : ClipType) : bool :=
  match a, b with
  | Ttext, Ttext | Trtf, Trtf | Thtml, Thtml
  | Timage, Timage | Tfiles, Tfiles => true
  | _, _ => false
  end.

(** The [subtype] column: ["url" | "email" | "color" | "path"]. *)
Inductive Subtype : Type := Surl | Semail | Scolor | Spath.

(** [value] is a string (text, rtf, html, an image path, or the JSON text
    stored for files) or an array of paths (files, before it is stored). *)
Inductive Value : Type :=
| VStr (s : string)
| VPaths (paths : list string).

Definition Value_eqb (a b : Value) : bool :=
  match a, b with
  | VStr x, VStr y => String.eqb x y
  | VPaths x, VPaths y =>
      if list_eq_dec string_dec x y then true else false
  | _, _ => false
  end.

(** [text], [rtf] and [html] slots of [ReadClipboard]. *)
Record StrEntry : Type := mkStr {
  s_count : Z;
  s_type : ClipType;
  s_value : string;
}.

(** The [image] slot: [{ count, type, value, ...rest }] with
    [rest = { width, height }]. *)
Record ImageEntry : Type := mkImage {
  i_count : Z;
  i_height : Z;
  i_type : ClipType;
  i_value : string;
  i_width : Z;
}.

(** The [files] slot. *)
Record FilesEntry : Type := mkFiles {
  f_count : Z;
  f_type : ClipType;
  f_value : list string;
}.

(** [ReadClipboard]: every slot is optional; [{}] is [emptyResult]. *)
Record ReadClipboard : Type := mkRead {
  text : option StrEntry;
  rtf : option StrEntry;
  html : option StrEntry;
  image : option ImageEntry;
  files : option FilesEntry;
}.

Definition emptyResult : ReadClipboard := mkRead None None None None None.

Definition set_text (r : ReadClipboard) (e : StrEntry) : ReadClipboard :=
  mkRead (Some e) (rtf r) (html r) (image r) (files r).
Definition set_rtf (r : ReadClipboard) (e : StrEntry) : ReadClipboard :=
  mkRead (text r) (Some e) (html r) (image r) (files r).
Definition set_html (r : ReadClipboard) (e : StrEntry) : ReadClipboard :=
  mkRead (text r) (rtf r) (Some e) (image r) (files r).
Definition set_image (r : ReadClipboard) (e : ImageEntry) : ReadClipboard :=
  mkRead (text r) (rtf r) (html r) (Some e) (files r).
Definition set_files (r : ReadClipboard) (e : FilesEntry) : ReadClipboard :=
  mkRead (text r) (rtf r) (html r) (image r) (Some e).

(** [DatabaseSchemaHistory].  [data] is built field by field, so the
    columns that [Object.assign] fills in later are optional. *)
Record History : Type := mkHistory {
  h_id : string;
  h_type : option ClipType;
  h_group : string;
  h_value : option Value;
  h_search : option string;
  h_count : option Z;
  h_width : option Z;
  h_height : option Z;
  h_subtype : option Subtype;
  h_favorite : bool;
  h_createTime : string;
}.

(** JavaScript objects have identity: [data], its [cloneDeep] and the
    entries of [state.list] are references into an object store, here a
    list indexed by reference. *)
Definition Ref : Type := nat.
Definition Heap : Type := list History.

(** [State] of the main page: the active group filter and the visible
    list (references to its entries, front first). *)
Record State : Type := mkState {
  st_group : string;
  st_list : list Ref;
}.

(** What one pipeline pass can change: objects, the page state, and the
    rows of the persistent store. *)
Record World : Type := mkWorld {
  w_heap : Heap;
  w_state : State;
  w_db : list History;
}.

(* ===================================================================== *)
(** ** Effects *)
(* ===================================================================== *)

(** Calls into the native clipboard layer. *)
Inductive Call : Type :=
| CHasText | CReadText
| CHasRTF | CReadRTF
| CHasHTML | CReadHTML
| CHasImage | CReadImage
| CHasClipboardImageWin | CReadClipboardImageWin
| CHasFiles | CReadFiles.

(** Log lines, by template. *)
Inductive LogMsg : Type :=
| FailedToRead (what : string) (attempt : Z) (err : Err)
| AllAttemptsFailed (n : Z) (lastError : option Err)
| ReadFailedAfterRetries (err : Err)
| NoRecognizedType
| ZeroByteImage
| ProcessingFailed (err : Err).

(** A partial record passed to [updateHistory]: the fields it sets. *)
Inductive FieldSet : Type :=
| SetCreateTime (t : string)
| SetFavorite (b : bool)
| SetValue (v : option Value)
| SetSearch (s : option string)
| SetSubtype (s : option Subtype).

Inductive Event : Type :=
| EvCall (c : Call)
| EvLogWarn (m : LogMsg)
| EvLogError (m : LogMsg)
| EvDelay (ms : Z)
| EvMessageWarning (key : string)
| EvListRemove (id : string)
| EvListUnshift (entry : Ref)
| EvSelect
| EvInsert (row : History)
| EvUpdate (id : string) (patch : list FieldSet).

Definition Trace : Type := list Event.

(** *** The reader's monad: a trace and a result or a thrown value *)

Definition IO (A : Type) : Type := (Trace * Res A)%type.

Definition ret {A} (a : A) : IO A := ([], Ok a).

Definition throw {A} (e : Err) : IO A := ([], Throw e).

Definition bind {A B} (m : IO A) (k : A -> IO B) : IO B :=
  match m with
  | (tr, Ok a) => let (tr', r) := k a in (tr ++ tr', r)
  | (tr, Throw e) => (tr, Throw e)
  end.

(** [try { m } catch (err) { h err }] *)
Definition catch {A} (m : IO A) (h : Err -> IO A) : IO A :=
  match m with
  | (tr, Ok a) => (tr, Ok a)
  | (tr, Throw e) => let (tr', r) := h e in (tr ++ tr', r)
  end.

Declare Scope io_scope.
Delimit Scope io_scope with io.
Notation "x <- m ;; k" := (bind m (fun x => k))
  (at level 61, m at next level, right associativity) : io_scope.
Notation "m ;; k" := (bind m (fun _ => k))
  (at level 61, right associativity) : io_scope.

Definition emit (e : Event) : IO unit := ([e], Ok tt).
Definition logWarn (m : LogMsg) : IO unit := emit (EvLogWarn m).
Definition logError (m : LogMsg) : IO unit := emit (EvLogError m).
Definition delay (ms : Z) : IO unit := emit (EvDelay ms).

(** [await f()] for a capability [f] of the native layer whose answer,
    at this point of this attempt, is [r]. *)
Definition call {A} (c : Call) (r : Res A) : IO A := ([EvCall c], r).

(** [s.length] *)
Definition strlen (s : string) : Z := Z.of_nat (String.length s).

(* ===================================================================== *)
(** ** src/plugins/clipboard.ts: the multi-format reader *)
(* ===================================================================== *)

(** [readImage()] resolves to [{ path, size, width, height }]. *)
Record ReadImage : Type := mkReadImage {
  ri_path : string;
  ri_size : Z;
  ri_width : Z;
  ri_height : Z;
}.

(** [interface WinReadImageResult] *)
Record WinReadImageResult : Type := mkWinImage {
  win_path : string;
  win_size : Z;
  win_width : Z;
  win_height : Z;
}.

(** [readFiles()] resolves to [{ paths, size }]. *)
Record ReadFiles : Type := mkReadFiles {
  rf_paths : list string;
  rf_size : Z;
}.

(** The native clipboard layer as one attempt sees it: what each
    capability answers when it is called (each is called at most once per
    attempt).  The two [invoke] commands are the Windows fallback. *)
Record Native : Type := mkNative {
  hasText : Res bool;
  readText : Res string;
  hasRTF : Res bool;
  readRTF : Res string;
  hasHTML : Res bool;
  readHTML : Res string;
  hasImage : Res bool;
  readImage : Res ReadImage;
  invoke_has_clipboard_image_win : Res bool;
  invoke_read_clipboard_image_win : Res (option WinReadImageResult);
  hasFiles : Res bool;
  readFiles : Res ReadFiles;
}.

(** [invoke<boolean>("has_clipboard_image_win").catch(() => false)] *)
Definition hasClipboardImageWin (n : Native) : IO bool :=
  catch (call CHasClipboardImageWin (invoke_has_clipboard_image_win n))
        (fun _ => ret false).

(** [invoke(...)("read_clipboard_image_win").catch(() => null)] *)
Definition readClipboardImageWin (n : Native)
  : IO (option WinReadImageResult) :=
  catch (call CReadClipboardImageWin (invoke_read_clipboard_image_win n))
        (fun _ => ret None).

Definition RETRY_COUNT : Z := 3.
Definition RETRY_DELAY_MS : Z := 200.

Definition isSome {A} (o : option A) : bool :=
  match o with Some _ => true | None => false end.

(** [result.text?.count ?? own] *)
Definition textCountOr (result : ReadClipboard) (own : Z) : Z :=
  match text result with
  | Some t => s_count t
  | None => own
  end.

Section ReadAttempt.
Local Open Scope io_scope.

Variable attempt : Z.
Variable n : Native.

(** The five [try] blocks of one attempt, each from the snapshot built
    so far to the snapshot after it (or a throw out of the attempt). *)

Definition readTextBlock (result : ReadClipboard) : IO ReadClipboard :=
  catch
    (present <- call CHasText (hasText n) ;;
     if (present : bool) then
       t <- call CReadText (readText n) ;;
       ret (set_text result (mkStr (strlen t) Ttext t))
     else ret result)
    (fun err =>
       logWarn (FailedToRead "text" attempt err) ;;
       throw err).

Definition readRTFBlock (result : ReadClipboard) : IO ReadClipboard :=
  catch
    (present <- call CHasRTF (hasRTF n) ;;
     if (present : bool) then
       r <- call CReadRTF (readRTF n) ;;
       ret (set_rtf result (mkStr (textCountOr result (strlen r)) Trtf r))
     else ret result)
    (fun err =>
       logWarn (FailedToRead "RTF" attempt err) ;;
       if negb (isSome (text result)) then throw err else ret result).

Definition readHTMLBlock (result : ReadClipboard) : IO ReadClipboard :=
  catch
    (present <- call CHasHTML (hasHTML n) ;;
     if (present : bool) then
       h <- call CReadHTML (readHTML n) ;;
       ret (set_html result
              (mkStr (textCountOr result (strlen h)) Thtml h))
     else ret result)
    (fun err =>
       logWarn (FailedToRead "HTML" attempt err) ;;
       if negb (isSome (text result)) then throw err else ret result).

Definition readImageBlock (result : ReadClipboard) : IO ReadClipboard :=
  catch
    (present <- call CHasImage (hasImage n) ;;
     if (present : bool) then
       img <- call CReadImage (readImage n) ;;
       ret (set_image result
              (mkImage (ri_size img) (ri_height img) Timage
                       (ri_path img) (ri_width img)))
     else
       win <- hasClipboardImageWin n ;;
       if (win : bool) then
         winImage <- readClipboardImageWin n ;;
         match winImage with
         | Some wi =>
             if 0 <? win_size wi then
               ret (set_image result
                      (mkImage (win_size wi) (win_height wi) Timage
                               (win_path wi) (win_width wi)))
             else ret result
         | None => ret result
         end
       else ret result)
    (fun err =>
       logWarn (FailedToRead "image" attempt err) ;;
       if negb (isSome (text result)) && negb (isSome (html result))
          && negb (isSome (rtf result))
       then throw err else ret result).

Definition readFilesBlock (result : ReadClipboard) : IO ReadClipboard :=
  catch
    (present <- call CHasFiles (hasFiles n) ;;
     if (present : bool) then
       fl <- call CReadFiles (readFiles n) ;;
       ret (set_files result (mkFiles (rf_size fl) Tfiles (rf_paths fl)))
     else ret result)
    (fun err =>
       logWarn (FailedToRead "files" attempt err) ;;
       if negb (isSome (text result)) && negb (isSome (html result))
          && negb (isSome (rtf result)) && negb (isSome (image result))
       then throw err else ret result).

(** The body of the outer [try] of one loop iteration. *)
Definition readAttempt : IO ReadClipboard :=
  r1 <- readTextBlock emptyResult ;;
  r2 <- readRTFBlock r1 ;;
  r3 <- readHTMLBlock r2 ;;
  r4 <- readImageBlock r3 ;;
  readFilesBlock r4.

End ReadAttempt.

(** The [for] loop, by the number of iterations still to run: iteration
    [attempt] reads with the native layer as it answers then, [clip
    attempt]; a throw is remembered in [lastError] and followed, except
    after the last iteration, by the delay. *)
Fixpoint retryLoop (remaining : nat) (attempt : Z) (lastError : option Err)
    (clip : Z -> Native) : IO ReadClipboard :=
  match remaining with
  | O =>
      bind (logError (AllAttemptsFailed RETRY_COUNT lastError))
        (fun _ => throw (match lastError with
                         | Some e => e
                         | None => ErrUndefined
                         end))
  | S remaining' =>
      catch (readAttempt attempt (clip attempt))
        (fun err =>
           bind (if attempt <? RETRY_COUNT then delay RETRY_DELAY_MS
                 else ret tt)
             (fun _ => retryLoop remaining' (attempt + 1) (Some err) clip))
  end.

Definition readClipboardWithRetry (clip : Z -> Native) : IO ReadClipboard :=
  retryLoop (Z.to_nat RETRY_COUNT) 1 None clip.

(* ===================================================================== *)
(** ** src/hooks/useClipboard.ts: one pipeline pass *)
(* ===================================================================== *)

(** Everything a pass consults outside the page state and the store.
    [isURL], [isEmail], [isColor] (utils/is), [exists] (plugin-fs),
    [fullName] (fs-pro), [formatDate], [nanoid] and [JSON.stringify] are
    taken as they answer; [clip] is the native clipboard layer, by read
    attempt; the three faults say whether a store operation rejects. *)
Record Env : Type := mkEnv {
  clip : Z -> Native;
  copyPlain : bool;
  formatDate : string;
  nanoid : string;
  isURL : string -> bool;
  isEmail : string -> bool;
  isColor : string -> bool;
  fs_exists : string -> Res bool;
  fullName : string -> Res string;
  JSON_stringify : Value -> string;
  selectFault : option Err;
  insertFault : option Err;
  updateFault : option Err;
}.

(** [getClipboardTextSubtype]: the [try] returns at the first test that
    holds; a throw of [exists], or no test holding, gives [undefined]. *)
Definition getClipboardTextSubtype (env : Env) (value : string)
  : option Subtype :=
  if isURL env value then Some Surl
  else if isEmail env value then Some Semail
  else if isColor env value then Some Scolor
  else match fs_exists env value with
       | Ok true => Some Spath
       | Ok false => None
       | Throw _ => None
       end.

(** [Object.assign(data, entry)] for the three kinds of slot: it copies
    the slot's own properties over [data]. *)
Definition assignStr (data : History) (e : StrEntry) : History :=
  mkHistory (h_id data) (Some (s_type e)) (h_group data)
    (Some (VStr (s_value e))) (h_search data) (Some (s_count e))
    (h_width data) (h_height data) (h_subtype data)
    (h_favorite data) (h_createTime data).

Definition assignImage (data : History) (e : ImageEntry) : History :=
  mkHistory (h_id data) (Some (i_type e)) (h_group data)
    (Some (VStr (i_value e))) (h_search data) (Some (i_count e))
    (Some (i_width e)) (Some (i_height e)) (h_subtype data)
    (h_favorite data) (h_createTime data).

Definition assignFiles (data : History) (e : FilesEntry) : History :=
  mkHistory (h_id data) (Some (f_type e)) (h_group data)
    (Some (VPaths (f_value e))) (h_search data) (Some (f_count e))
    (h_width data) (h_height data) (h_subtype data)
    (h_favorite data) (h_createTime data).

Definition with_group (data : History) (g : string) : History :=
  mkHistory (h_id data) (h_type data) g (h_value data) (h_search data)
    (h_count data) (h_width data) (h_height data) (h_subtype data)
    (h_favorite data) (h_createTime data).

Definition with_search (data : History) (s : option string) : History :=
  mkHistory (h_id data) (h_type data) (h_group data) (h_value data) s
    (h_count data) (h_width data) (h_height data) (h_subtype data)
    (h_favorite data) (h_createTime data).

Definition with_subtype (data : History) (s : option Subtype) : History :=
  mkHistory (h_id data) (h_type data) (h_group data) (h_value data)
    (h_search data) (h_count data) (h_width data) (h_height data) s
    (h_favorite data) (h_createTime data).

Definition with_value (data : History) (v : option Value) : History :=
  mkHistory (h_id data) (h_type data) (h_group data) v (h_search data)
    (h_count data) (h_width data) (h_height data) (h_subtype data)
    (h_favorite data) (h_createTime data).

Definition with_id (data : History) (id : string) : History :=
  mkHistory id (h_type data) (h_group data) (h_value data) (h_search data)
    (h_count data) (h_width data) (h_height data) (h_subtype data)
    (h_favorite data) (h_createTime data).

Definition with_createTime (data : History) (t : string) : History :=
  mkHistory (h_id data) (h_type data) (h_group data) (h_value data)
    (h_search data) (h_count data) (h_width data) (h_height data)
    (h_subtype data) (h_favorite data) t.

Definition with_favorite (data : History) (b : bool) : History :=
  mkHistory (h_id data) (h_type data) (h_group data) (h_value data)
    (h_search data) (h_count data) (h_width data) (h_height data)
    (h_subtype data) b (h_createTime data).

(** [a || b] on possibly-undefined strings: [a] when it is a non-empty
    string, else [b]. *)
Definition orStr (a b : option string) : option string :=
  match a with
  | Some EmptyString => b
  | Some s => Some s
  | None => b
  end.

(** [data.search || html?.value || rtf?.value || ""] *)
Definition fallbackValue (data : History) (result : ReadClipboard)
  : string :=
  match orStr (h_search data)
          (orStr (option_map s_value (html result))
             (orStr (option_map s_value (rtf result)) (Some "")))
  with
  | Some s => s
  | None => ""
  end.

(** [Object.values(result).map(isEmpty)]: a slot that is set holds an
    object with own properties, which [isEmpty] rejects. *)
Definition valuesIsEmpty (result : ReadClipboard) : list bool :=
  (if isSome (text result) then [false] else [])
  ++ (if isSome (rtf result) then [false] else [])
  ++ (if isSome (html result) then [false] else [])
  ++ (if isSome (image result) then [false] else [])
  ++ (if isSome (files result) then [false] else []).

(** [isEmpty(result) || Object.values(result).every(isEmpty)] *)
Definition nothingRead (result : ReadClipboard) : bool :=
  (List.length (valuesIsEmpty result) =? 0)%nat
  || forallb (fun empty => empty) (valuesIsEmpty result).

(** The initial [data] object. *)
Definition initialData (env : Env) (result : ReadClipboard) : History :=
  mkHistory (nanoid env) None "text" None
    (option_map s_value (text result)) None None None None false
    (formatDate env).

(** The [if / else if] chain that fills [data] in, last branch first. *)
Definition branchPlainFallback (env : Env) (result : ReadClipboard)
    (data : History) : History :=
  if copyPlain env && (isSome (html result) || isSome (rtf result)) then
    let fv := fallbackValue data result in
    let subtype := getClipboardTextSubtype env fv in
    mkHistory (h_id data) (Some Ttext) (h_group data) (Some (VStr fv))
      (h_search data) (Some (strlen fv)) (h_width data) (h_height data)
      subtype (h_favorite data) (h_createTime data)
  else data.

Definition branchImage (env : Env) (result : ReadClipboard)
    (data : History) : History :=
  match image result with
  | Some img => with_group (assignImage data img) "image"
  | None => branchPlainFallback env result data
  end.

Definition branchText (env : Env) (result : ReadClipboard)
    (data : History) : History :=
  match text result with
  | Some t =>
      let subtype := getClipboardTextSubtype env (s_value t) in
      with_subtype (assignStr data t) subtype
  | None => branchImage env result data
  end.

Definition branchRTF (env : Env) (result : ReadClipboard)
    (data : History) : History :=
  match rtf result with
  | Some r =>
      if negb (copyPlain env) then assignStr data r
      else branchText env result data
  | None => branchText env result data
  end.

Definition branchHTML (env : Env) (result : ReadClipboard)
    (data : History) : History :=
  match html result with
  | Some h =>
      if negb (copyPlain env) then assignStr data h
      else branchRTF env result data
  | None => branchRTF env result data
  end.

Definition branchFiles (env : Env) (result : ReadClipboard)
    (data : History) : History :=
  match files result with
  | Some f =>
      with_search (with_group (assignFiles data f) "files")
        (Some (String.concat " " (f_value f)))
  | None => branchHTML env result data
  end.

(** [data] as it stands after the chain. *)
Definition buildRecord (env : Env) (result : ReadClipboard) : History :=
  branchFiles env result (initialData env result).

(** *** The pass's monad: the world, a trace, a result or a thrown value *)

Definition M (A : Type) : Type := World -> (Trace * World * Res A)%type.

Definition retM {A} (a : A) : M A := fun w => ([], w, Ok a).

Definition throwM {A} (e : Err) : M A := fun w => ([], w, Throw e).

Definition bindM {A B} (m : M A) (k : A -> M B) : M B :=
  fun w =>
    match m w with
    | (tr, w1, Ok a) =>
        match k a w1 with
        | (tr', w2, r) => (tr ++ tr', w2, r)
        end
    | (tr, w1, Throw e) => (tr, w1, Throw e)
    end.

(** [try { m } catch (err) { h err }]: what [m] did before it threw
    stays done. *)
Definition catchM {A} (m : M A) (h : Err -> M A) : M A :=
  fun w =>
    match m w with
    | (tr, w1, Ok a) => (tr, w1, Ok a)
    | (tr, w1, Throw e) =>
        match h e w1 with
        | (tr', w2, r) => (tr ++ tr', w2, r)
        end
    end.

Definition liftIO {A} (m : IO A) : M A := fun w => (fst m, w, snd m).

(** [await p] for a promise that settles as [r], without a trace. *)
Definition await {A} (r : Res A) : M A := fun w => ([], w, r).

Declare Scope pass_scope.
Delimit Scope pass_scope with pass.
Notation "x <- m ;; k" := (bindM m (fun x => k))
  (at level 61, m at next level, right associativity) : pass_scope.
Notation "m ;; k" := (bindM m (fun _ => k))
  (at level 61, right associativity) : pass_scope.

Definition emitM (e : Event) : M unit := fun w => ([e], w, Ok tt).

(** [message.warning(i18n.t(key))] *)
Definition message_warning (key : string) : M unit :=
  emitM (EvMessageWarning key).

(** *** Objects *)

(** A new object: its reference is the next free index. *)
Definition alloc (o : History) : M Ref :=
  fun w =>
    ([], mkWorld (w_heap w ++ [o]) (w_state w) (w_db w),
     Ok (List.length (w_heap w))).

Fixpoint update_nth (l : Heap) (r : Ref) (f : History -> History) : Heap :=
  match l, r with
  | [], _ => []
  | o :: l', O => f o :: l'
  | o :: l', S r' => o :: update_nth l' r' f
  end.

(** Reading through a reference. *)
Definition deref (r : Ref) : M History :=
  fun w =>
    match nth_error (w_heap w) r with
    | Some o => ([], w, Ok o)
    | None => ([], w, Throw (Error "TypeError"))
    end.

(** [o.value = v] *)
Definition assign_value (r : Ref) (v : option Value) : M unit :=
  fun w =>
    ([], mkWorld (update_nth (w_heap w) r (fun o => with_value o v))
           (w_state w) (w_db w), Ok tt).

(** [cloneDeep(o)]: a new object with the same contents. *)
Definition cloneDeep (r : Ref) : M Ref :=
  bindM (deref r) alloc.

(** *** The visible list *)

Definition id_is (heap : Heap) (id : string) (r : Ref) : bool :=
  match nth_error heap r with
  | Some o => String.eqb (h_id o) id
  | None => false
  end.

(** [remove(state.list, { id })]: every entry whose [id] matches goes. *)
Definition list_remove (id : string) : M unit :=
  fun w =>
    ([EvListRemove id],
     mkWorld (w_heap w)
       (mkState (st_group (w_state w))
          (filter (fun r => negb (id_is (w_heap w) id r))
             (st_list (w_state w))))
       (w_db w),
     Ok tt).

(** [state.list.unshift(entry)] *)
Definition list_unshift (entry : Ref) : M unit :=
  fun w =>
    ([EvListUnshift entry],
     mkWorld (w_heap w)
       (mkState (st_group (w_state w)) (entry :: st_list (w_state w)))
       (w_db w),
     Ok tt).

(** *** The persistent store (database/history) *)

Definition applyField (row : History) (f : FieldSet) : History :=
  match f with
  | SetCreateTime t => with_createTime row t
  | SetFavorite b => with_favorite row b
  | SetValue v => with_value row v
  | SetSearch s => with_search row s
  | SetSubtype s => with_subtype row s
  end.

Definition applyPatch (patch : list FieldSet) (row : History) : History :=
  fold_left applyField patch row.

(** Modelled from the spec: [selectHistory] of database/history, which
    is not among the sources.  Section 6: "select one record matching a
    predicate over (type, value, width, height, count)"; the rows that
    satisfy the predicate, in store order.  A failing query changes
    nothing. *)
Definition selectHistory (env : Env) (where_ : History -> bool)
  : M (list History) :=
  fun w =>
    match selectFault env with
    | Some e => ([EvSelect], w, Throw e)
    | None => ([EvSelect], w, Ok (filter where_ (w_db w)))
    end.

(** Modelled from the spec: [insertHistory] of database/history, which
    is not among the sources.  Section 6: "insert record"; section 4.4:
    "a single atomic insert".  The row is the object's contents at the
    time of the call. *)
Definition insertHistory (env : Env) (r : Ref) : M unit :=
  bindM (deref r)
    (fun row w =>
       match insertFault env with
       | Some e => ([EvInsert row], w, Throw e)
       | None =>
           ([EvInsert row],
            mkWorld (w_heap w) (w_state w) (w_db w ++ [row]), Ok tt)
       end).

(** Modelled from the spec: [updateHistory] of database/history, which
    is not among the sources.  Section 6: "update record fields by id";
    section 4.4: "a single atomic timestamp update".  The call returns a
    promise; its settlement is the value here, so that the caller decides
    whether it awaits it. *)
Definition updateHistory (env : Env) (id : string) (patch : list FieldSet)
  : M (Res unit) :=
  fun w =>
    match updateFault env with
    | Some e => ([EvUpdate id patch], w, Ok (Throw e))
    | None =>
        ([EvUpdate id patch],
         mkWorld (w_heap w) (w_state w)
           (map (fun row =>
                   if String.eqb (h_id row) id then applyPatch patch row
                   else row)
              (w_db w)),
         Ok (Ok tt))
    end.

(** *** processClipboard *)

(** SQL [column = ?]: a NULL column or an undefined parameter compares
    equal to nothing. *)
Definition sql_eq {A} (eqb : A -> A -> bool) (column param : option A)
  : bool :=
  match column, param with
  | Some a, Some b => eqb a b
  | _, _ => false
  end.

(** The query that [selectHistory] is given: [sqlData] and [data] are the
    two objects as they are when the query is built. *)
Definition dedupWhere (sqlData data : History) (row : History) : bool :=
  match h_type sqlData with
  | Some Timage =>
      sql_eq ClipType_eqb (h_type row) (Some Timage)
      && (sql_eq Value_eqb (h_value row) (h_value sqlData)
          || (sql_eq Z.eqb (h_width row) (h_width data)
              && sql_eq Z.eqb (h_height row) (h_height data)
              && sql_eq Z.eqb (h_count row) (h_count data)))
  | ty =>
      sql_eq ClipType_eqb (h_type row) ty
      && sql_eq Value_eqb (h_value row) (h_value sqlData)
  end.

(** [fullName(value)] *)
Definition fullNameOf (env : Env) (value : option Value) : Res string :=
  match value with
  | Some (VStr path) => fullName env path
  | _ => Throw (Error "TypeError")
  end.

(** [JSON.stringify(value)] *)
Definition stringifyOf (env : Env) (value : option Value) : option Value :=
  option_map (fun v => VStr (JSON_stringify env v)) value.

(** [data.count === 0] *)
Definition count_is_zero (count : option Z) : bool :=
  match count with
  | Some c => c =? 0
  | None => false
  end.

Definition get_group : M string :=
  fun w => ([], w, Ok (st_group (w_state w))).

Section ProcessClipboard.
Local Open Scope pass_scope.

Variable env : Env.

(** From [cloneDeep] to the end of the second [try] block.  [data],
    built locally so far, enters the object store here, where a second
    reference to it first matters; [sqlData] is its clone.  The value is
    the settlement of what the block returns: [updateHistory]'s promise
    on a match (returned, not awaited), otherwise a plain completion. *)
Definition upsert (data : History) (type : ClipType) : M (Res unit) :=
  dataRef <- alloc data ;;
  sqlData <- cloneDeep dataRef ;;
  let value := h_value data in
  let group := h_group data in
  let createTime := h_createTime data in
  (if ClipType_eqb type Timage then
     durable <- await (fullNameOf env value) ;;
     assign_value sqlData (Some (VStr durable))
   else retM tt) ;;
  (if ClipType_eqb type Tfiles then
     assign_value sqlData (stringifyOf env value)
   else retM tt) ;;
  sqlNow <- deref sqlData ;;
  dataNow <- deref dataRef ;;
  rows <- selectHistory env (dedupWhere sqlNow dataNow) ;;
  stateGroup <- get_group ;;
  let visible := String.eqb stateGroup "all" || String.eqb stateGroup group in
  match rows with
  | matched :: _ =>
      let id := h_id matched in
      (if visible then
         list_remove id ;;
         spread <- deref dataRef ;;
         entry <- alloc (with_id spread id) ;;
         list_unshift entry
       else retM tt) ;;
      updateHistory env id [SetCreateTime createTime]
  | [] =>
      (if visible then list_unshift dataRef else retM tt) ;;
      insertHistory env sqlData ;;
      retM (Ok tt)
  end.

(** The body of the second [try] block. *)
Definition processBody (result : ReadClipboard) : M (Res unit) :=
  if nothingRead result then retM (Ok tt)
  else
    let data := buildRecord env result in
    match h_type data with
    | None =>
        emitM (EvLogWarn NoRecognizedType) ;;
        retM (Ok tt)
    | Some type =>
        if ClipType_eqb type Timage && count_is_zero (h_count data) then
          emitM (EvLogWarn ZeroByteImage) ;;
          retM (Ok tt)
        else upsert data type
    end.

(** The second [try] of [processClipboard].  A throw inside it is caught
    there; the promise it returns settles after the function has left
    the [try], so its rejection is the function's. *)
Definition processResult (result : ReadClipboard) : M unit :=
  settled <- catchM (processBody result)
               (fun err =>
                  emitM (EvLogError (ProcessingFailed err)) ;;
                  message_warning "clipboard.hints.clipboard_process_failed" ;;
                  retM (Ok tt)) ;;
  match settled with
  | Ok _ => retM tt
  | Throw e => throwM e
  end.

(** [processClipboard(state)]: the first [try] reads, and returns on a
    throw; the second does the rest. *)
Definition processClipboard : M unit :=
  read <- catchM
            (result <- liftIO (readClipboardWithRetry (clip env)) ;;
             retM (Some result))
            (fun err =>
               emitM (EvLogError (ReadFailedAfterRetries err)) ;;
               message_warning "clipboard.hints.clipboard_read_failed" ;;
               retM None) ;;
  match read with
  | None => retM tt
  | Some result => processResult result
  end.

End ProcessClipboard.

(* ===================================================================== *)
(** ** src/hooks/useClipboard.ts: the debounce timer and the lock *)
(* ===================================================================== *)

Definition DEBOUNCE_MS : Z := 300.

(** What the listener lets the rest of the program see. *)
Inductive Signal : Type :=
| BeforeRead        (* options.beforeRead() was called *)
| ProcessClipboard. (* processClipboard(state) was called *)

(** The two variables of the [useMount] closure, and what the runtime
    holds for it: the timeouts that are set and not yet fired or cleared
    (handle and due time, oldest first), the next handle [setTimeout]
    hands out, and the passes that were started and have not settled. *)
Record Loop : Type := mkLoop {
  debounceTimer : option nat;
  isProcessing : bool;
  timers : list (nat * Z);
  nextHandle : nat;
  inFlight : nat;
}.

(** After [useMount]: no timer, not processing; handles are positive. *)
Definition mounted : Loop := mkLoop None false [] 1 0.

(** [clearTimeout(handle)] *)
Definition clearTimeout (handle : nat) (l : Loop) : Loop :=
  mkLoop (debounceTimer l) (isProcessing l)
    (filter (fun t => negb (Nat.eqb (fst t) handle)) (timers l))
    (nextHandle l) (inFlight l).

(** [setTimeout(callback, ms)] at time [now]; the callback is always the
    one of [useClipboard], so it is not stored. *)
Definition setTimeout (now ms : Z) (l : Loop) : nat * Loop :=
  (nextHandle l,
   mkLoop (debounceTimer l) (isProcessing l)
     (timers l ++ [(nextHandle l, now + ms)])
     (S (nextHandle l)) (inFlight l)).

(** The listener of [COMMAND.CLIPBOARD_CHANGED], run at time [now];
    [hook] says whether [options.beforeRead] is there.  A handle is a
    positive number, so [if (debounceTimer)] asks whether one is kept. *)
Definition onClipboardChanged (hook : bool) (now : Z) (l : Loop)
  : list Signal * Loop :=
  let l1 := match debounceTimer l with
            | Some handle => clearTimeout handle l
            | None => l
            end in
  let (handle, l2) := setTimeout now DEBOUNCE_MS l1 in
  ((if hook then [BeforeRead] else []),
   mkLoop (Some handle) (isProcessing l2) (timers l2) (nextHandle l2)
     (inFlight l2)).

(** The timeout's callback, up to the [await]. *)
Definition onTimeout (l : Loop) : list Signal * Loop :=
  if isProcessing l then
    ([], mkLoop None (isProcessing l) (timers l) (nextHandle l) (inFlight l))
  else
    ([ProcessClipboard],
     mkLoop None true (timers l) (nextHandle l) (S (inFlight l))).

(** The callback's [finally], once [processClipboard] has settled. *)
Definition onSettled (l : Loop) : Loop :=
  mkLoop (debounceTimer l) false (timers l) (nextHandle l)
    (pred (inFlight l)).

(** The runtime fires the timeouts in [due], oldest first: each leaves
    the table, then its callback runs. *)
Fixpoint fire (due : list (nat * Z)) (l : Loop) : list Signal * Loop :=
  match due with
  | [] => ([], l)
  | (handle, _) :: rest =>
      let (s1, l1) := onTimeout (clearTimeout handle l) in
      let (s2, l2) := fire rest l1 in
      (s1 ++ s2, l2)
  end.

(** Time passes up to [now]: every timeout due by then fires.  (All
    timeouts have the same delay, so oldest first is earliest first.) *)
Definition advance (now : Z) (l : Loop) : list Signal * Loop :=
  fire (filter (fun t => snd t <=? now) (timers l)) l.

(** What happens to the listener from outside: a clipboard-changed
    notification, or the pass in flight settling. *)
Inductive Input : Type :=
| Changed (at_ : Z)
| Settled (at_ : Z).

Definition step (hook : bool) (l : Loop) (i : Input)
  : list Signal * Loop :=
  match i with
  | Changed now =>
      let (s1, l1) := advance now l in
      let (s2, l2) := onClipboardChanged hook now l1 in
      (s1 ++ s2, l2)
  | Settled now =>
      let (s1, l1) := advance now l in
      (s1, match inFlight l1 with
           | O => l1
           | S _ => onSettled l1
           end)
  end.

Fixpoint run (hook : bool) (l : Loop) (inputs : list Input)
  : list Signal * Loop :=
  match inputs with
  | [] => ([], l)
  | i :: rest =>
      let (s1, l1) := step hook l i in
      let (s2, l2) := run hook l1 rest in
      (s1 ++ s2, l2)
  end.

(** The inputs, then time passing until no timeout is left. *)
Definition runToQuiescence (hook : bool) (inputs : list Input)
  : list Signal * Loop :=
  let (s1, l1) := run hook mounted inputs in
  let (s2, l2) := fire (timers l1) l1 in
  (s1 ++ s2, l2).

Definition isProcessClipboard (s : Signal) : bool :=
  match s with ProcessClipboard => true | BeforeRead => false end.

Definition isBeforeRead (s : Signal) : bool :=
  match s with BeforeRead => true | ProcessClipboard => false end.

(** How often the pipeline was invoked. *)
Definition invocations (ss : list Signal) : nat :=
  List.length (filter isProcessClipboard ss).

(** Notifications at the given times, nothing else. *)
Definition notifications (times : list Z) : list Input :=
  map Changed times.

(** Consecutive times less than [gap] apart (and in order). *)
Fixpoint withinWindow (gap : Z) (times : list Z) : Prop :=
  match times with
  | t1 :: ((t2 :: _) as rest) =>
      t1 <= t2 /\ t2 - t1 < gap /\ withinWindow gap rest
  | _ => True
  end.

(** Consecutive times more than [gap] apart. *)
Fixpoint beyondWindow (gap : Z) (times : list Z) : Prop :=
  match times with
  | t1 :: ((t2 :: _) as rest) =>
      gap < t2 - t1 /\ beyondWindow gap rest
  | _ => True
  end.

(** The only timeout pending, if any, is the one [debounceTimer]
    keeps. *)
Definition singleTimer (l : Loop) : Prop :=
  match debounceTimer l with
  | Some handle => exists due, timers l = [(handle, due)]
  | None => timers l = []
  end.

(** [isProcessing] is set exactly while a pass is in flight, and then
    there is one. *)
Definition lockHeld (l : Loop) : Prop :=
  inFlight l = if isProcessing l then 1%nat else 0%nat.

(** Notifications, each followed by the settling of the pass it leads
    to: the pass starts when the timeout fires and has settled by the
    next notification. *)
Fixpoint settledInTime (gap : Z) (rounds : list (Z * Z)) : Prop :=
  match rounds with
  | [] => True
  | (t, s) :: rest =>
      t + gap <= s
      /\ match rest with
         | (t', _) :: _ => s <= t'
         | [] => True
         end
      /\ settledInTime gap rest
  end.

Definition rounds_inputs (rounds : list (Z * Z)) : list Input :=
  flat_map (fun r => [Changed (fst r); Settled (snd r)]) rounds.

(** Notifications more than [gap] apart, each with the time at which
    the pass it leads to settles: the pass starts when the timeout
    fires, and has settled before the timeout of the next notification
    fires (it may still be running when that notification arrives). *)
Fixpoint settledBeforeNextFires (gap : Z) (rounds : list (Z * Z)) : Prop :=
  match rounds with
  | [] => True
  | (t, s) :: rest =>
      t + gap <= s
      /\ match rest with
         | (t', _) :: _ => gap < t' - t /\ s < t' + gap
         | [] => True
         end
      /\ settledBeforeNextFires gap rest
  end.

(** The inputs of such rounds in the order of their times: the settling
    [pending] of the pass before comes ahead of the next notification
    when it is not later than it, and right after it otherwise. *)
Fixpoint timeline (pending : option Z) (rounds : list (Z * Z))
  : list Input :=
  match rounds with
  | [] => match pending with
          | Some s => [Settled s]
          | None => []
          end
  | (t, s) :: rest =>
      match pending with
      | Some s0 =>
          if s0 <=? t then Settled s0 :: Changed t :: timeline (Some s) rest
          else Changed t :: Settled s0 :: timeline (Some s) rest
      | None => Changed t :: timeline (Some s) rest
      end
  end.

(* ===================================================================== *)
(** ** Vocabulary of the properties *)
(* ===================================================================== *)

(** The read of one format fails with [e]: its probe throws, or the probe
    says the format is there and its read throws. *)
Definition fails {A} (has : Res bool) (read : Res A) (e : Err) : Prop :=
  has = Throw e \/ (has = Ok true /\ read = Throw e).

(** The attempt up to and including the rich-text, HTML and image
    blocks. *)
Definition readThroughRTF (attempt : Z) (n : Native) : IO ReadClipboard :=
  bind (readTextBlock attempt n emptyResult) (readRTFBlock attempt n).

Definition readThroughHTML (attempt : Z) (n : Native) : IO ReadClipboard :=
  bind (readThroughRTF attempt n) (readHTMLBlock attempt n).

Definition readThroughImage (attempt : Z) (n : Native) : IO ReadClipboard :=
  bind (readThroughHTML attempt n) (readImageBlock attempt n).

(** The attempt from the image, HTML and rich-text blocks on. *)
Definition readFromImage (attempt : Z) (n : Native) (r3 : ReadClipboard)
  : IO ReadClipboard :=
  bind (readImageBlock attempt n r3) (readFilesBlock attempt n).

Definition readFromHTML (attempt : Z) (n : Native) (r2 : ReadClipboard)
  : IO ReadClipboard :=
  bind (readHTMLBlock attempt n r2) (readFromImage attempt n).

Definition readFromRTF (attempt : Z) (n : Native) (r1 : ReadClipboard)
  : IO ReadClipboard :=
  bind (readRTFBlock attempt n r1) (readFromHTML attempt n).

(** Every slot that is set carries the tag of its format, as the type
    [ReadClipboard] requires. *)
Definition wellTyped (result : ReadClipboard) : Prop :=
  (forall e, text result = Some e -> s_type e = Ttext)
  /\ (forall e, rtf result = Some e -> s_type e = Trtf)
  /\ (forall e, html result = Some e -> s_type e = Thtml)
  /\ (forall e, image result = Some e -> i_type e = Timage)
  /\ (forall e, files result = Some e -> f_type e = Tfiles).

(** The first of the strings that is there and not empty, else [""]. *)
Fixpoint firstNonEmpty (candidates : list (option string)) : string :=
  match candidates with
  | [] => ""
  | Some (String c s) :: _ => String c s
  | _ :: rest => firstNonEmpty rest
  end.

(** What [sqlData] holds when the query is built, as a function of
    [data]: the storage-ready projection. *)
Definition storageReady (env : Env) (data : History) : Res History :=
  match h_type data with
  | Some Timage =>
      match fullNameOf env (h_value data) with
      | Ok durable => Ok (with_value data (Some (VStr durable)))
      | Throw e => Throw e
      end
  | Some Tfiles => Ok (with_value data (stringifyOf env (h_value data)))
  | _ => Ok data
  end.

(** [state.group === "all" || state.group === group] *)
Definition visible (w : World) (data : History) : bool :=
  String.eqb (st_group (w_state w)) "all"
  || String.eqb (st_group (w_state w)) (h_group data).

(** The visible list as a reader of [state.list] finds it. *)
Definition entries (w : World) : list (option History) :=
  map (nth_error (w_heap w)) (st_list (w_state w)).

(** The entry is an object with this [id]. *)
Definition entryHasId (id : string) (entry : option History) : bool :=
  match entry with
  | Some o => String.eqb (h_id o) id
  | None => false
  end.

(** Every entry of the visible list is an object. *)
Definition heap_ok (w : World) : Prop :=
  Forall (fun r => (r < List.length (w_heap w))%nat) (st_list (w_state w)).

(** The pass reads a snapshot (leaving [tr]), builds the candidate
    [data] from it, lets it through the two guards, derives [sqlData],
    and its query succeeds. *)
Definition reachesUpsert (env : Env) (tr : Trace) (data sqlData : History)
  : Prop :=
  exists result type,
    readClipboardWithRetry (clip env) = (tr, Ok result)
    /\ buildRecord env result = data
    /\ h_type data = Some type
    /\ ClipType_eqb type Timage && count_is_zero (h_count data) = false
    /\ storageReady env data = Ok sqlData
    /\ selectFault env = None.

(** The rows the query of the pass selects; [matched] is the first. *)
Definition selected (sqlData data : History) (w : World) : list History :=
  filter (dedupWhere sqlData data) (w_db w).

(** [createTime] is refreshed on the rows with this [id], nothing else
    changes. *)
Definition refreshCreateTime (id createTime : string) (db : list History)
  : list History :=
  map (fun row =>
         if String.eqb (h_id row) id then with_createTime row createTime
         else row)
    db.

(** Two records that agree on every field but [value]. *)
Definition sameButValue (a b : History) : Prop :=
  h_id a = h_id b /\ h_type a = h_type b /\ h_group a = h_group b
  /\ h_search a = h_search b /\ h_count a = h_count b
  /\ h_width a = h_width b /\ h_height a = h_height b
  /\ h_subtype a = h_subtype b /\ h_favorite a = h_favorite b
  /\ h_createTime a = h_createTime b.

(** Two records that agree on every field but [createTime]. *)
Definition sameButCreateTime (a b : History) : Prop :=
  h_id a = h_id b /\ h_type a = h_type b /\ h_group a = h_group b
  /\ h_value a = h_value b /\ h_search a = h_search b
  /\ h_count a = h_count b /\ h_width a = h_width b
  /\ h_height a = h_height b /\ h_subtype a = h_subtype b
  /\ h_favorite a = h_favorite b.

(** Two records that agree on every field but [id]. *)
Definition sameButId (a b : History) : Prop :=
  h_type a = h_type b /\ h_group a = h_group b /\ h_value a = h_value b
  /\ h_search a = h_search b /\ h_count a = h_count b
  /\ h_width a = h_width b /\ h_height a = h_height b
  /\ h_subtype a = h_subtype b /\ h_favorite a = h_favorite b
  /\ h_createTime a = h_createTime b.

(** Kinds of event. *)
Definition isUserWarning (e : Event) : bool :=
  match e with EvMessageWarning _ => true | _ => false end.

Definition isReadFailedWarning (e : Event) : bool :=
  match e with
  | EvMessageWarning key =>
      String.eqb key "clipboard.hints.clipboard_read_failed"
  | _ => false
  end.

Definition isAttemptStart (e : Event) : bool :=
  match e with EvCall CHasText => true | _ => false end.

Definition isDelay (e : Event) : bool :=
  match e with EvDelay _ => true | _ => false end.

Definition isStoreQuery (e : Event) : bool :=
  match e with EvSelect => true | _ => false end.

Definition isStoreInsert (e : Event) : bool :=
  match e with EvInsert _ => true | _ => false end.

Definition isStoreUpdate (e : Event) : bool :=
  match e with EvUpdate _ _ => true | _ => false end.

Definition isStoreWrite (e : Event) : bool :=
  isStoreInsert e || isStoreUpdate e.

Definition isListRemove (e : Event) : bool :=
  match e with EvListRemove _ => true | _ => false end.

Definition isListUnshift (e : Event) : bool :=
  match e with EvListUnshift _ => true | _ => false end.

Definition isListMutation (e : Event) : bool :=
  isListRemove e || isListUnshift e.

(** Events of the reader: native calls, log lines, delays. *)
Definition isReaderEvent (e : Event) : bool :=
  match e with
  | EvCall _ | EvLogWarn _ | EvLogError _ | EvDelay _ => true
  | _ => false
  end.

(** Events inside an attempt, after its opening [hasText()]: native
    calls other than [hasText], and warnings in the log. *)
Definition isInAttemptEvent (e : Event) : bool :=
  match e with
  | EvCall CHasText => false
  | EvCall _ | EvLogWarn _ => true
  | _ => false
  end.

(** A computation whose trace, from any world, holds only events of one
    kind. *)
Definition emitsOnly {A} (kind : Event -> bool) (m : M A) : Prop :=
  forall w, forallb kind (fst (fst (m w))) = true.

Definition notReadFailedWarning (e : Event) : bool :=
  negb (isReadFailedWarning e).

(** The trace from the first event of a kind on. *)
Fixpoint fromFirst (kind : Event -> bool) (tr : Trace) : Trace :=
  match tr with
  | [] => []
  | e :: rest => if kind e then e :: rest else fromFirst kind rest
  end.

(** Events of both kinds occur, and none of the first kind occurs from
    the first event of the second kind on. *)
Definition happensBefore (first second : Event -> bool) (tr : Trace)
  : bool :=
  existsb first tr && existsb second tr
  && negb (existsb first (fromFirst second tr)).

(* ===================================================================== *)
(** ** Concrete clipboards, environments and worlds *)
(* ===================================================================== *)

(** A clipboard holding the text ["hello"] and nothing else. *)
Definition clipHello : Native :=
  mkNative (Ok true) (Ok "hello") (Ok false) (Ok "") (Ok false) (Ok "")
    (Ok false) (Throw (Error "no image")) (Ok false) (Ok None)
    (Ok false) (Throw (Error "no files")).

(** Text is read; every other format fails to read. *)
Definition clipFlaky : Native :=
  mkNative (Ok true) (Ok "hello")
    (Throw (Error "rtf: clipboard busy")) (Ok "")
    (Ok true) (Throw (Error "html: clipboard busy"))
    (Ok true) (Throw (Error "image: clipboard busy")) (Ok false) (Ok None)
    (Throw (Error "files: clipboard busy")) (Throw (Error "no files")).

(** The clipboard is locked: the first probe throws. *)
Definition clipLocked : Native :=
  mkNative (Throw (Error "clipboard locked")) (Ok "")
    (Ok false) (Ok "") (Ok false) (Ok "")
    (Ok false) (Throw (Error "no image")) (Ok false) (Ok None)
    (Ok false) (Throw (Error "no files")).

(** An image of 100 x 50 and [size] bytes at a transient path. *)
Definition clipImage (path : string) (size : Z) : Native :=
  mkNative (Ok false) (Ok "") (Ok false) (Ok "") (Ok false) (Ok "")
    (Ok true) (Ok (mkReadImage path size 100 50)) (Ok false) (Ok None)
    (Ok false) (Throw (Error "no files")).

(** HTML and no text. *)
Definition clipHtmlOnly : Native :=
  mkNative (Ok false) (Ok "") (Ok false) (Ok "") (Ok true) (Ok "<b>hi</b>")
    (Ok false) (Throw (Error "no image")) (Ok false) (Ok None)
    (Ok false) (Throw (Error "no files")).

(** An environment over a clipboard that answers the same at every
    attempt: nothing is a URL, an e-mail, a colour or a path; the stored
    name of an image is its path under ["images/"]; no store fault. *)
Definition envOf (n : Native) (plain : bool) : Env :=
  mkEnv (fun _ => n) plain "2024-05-01 10:00:00" "new-id"
    (fun _ => false) (fun _ => false) (fun _ => false)
    (fun _ => Ok false)
    (fun path => Ok (String.append "images/" path))
    (fun _ => "[json]")
    None None None.

(** The clipboard is locked for two attempts and then holds ["hello"]. *)
Definition envThirdTime : Env :=
  mkEnv (fun attempt => if attempt <? 3 then clipLocked else clipHello)
    false "2024-05-01 10:00:00" "new-id"
    (fun _ => false) (fun _ => false) (fun _ => false)
    (fun _ => Ok false)
    (fun path => Ok (String.append "images/" path))
    (fun _ => "[json]")
    None None None.

(** ["hello"] as it was stored by an earlier pass and then made a
    favorite. *)
Definition helloRow : History :=
  mkHistory "old-id" (Some Ttext) "text" (Some (VStr "hello"))
    (Some "hello") (Some 5) None None None true "2024-04-30 09:00:00".

(** A stored image of 100 x 50 and 2048 bytes under another name. *)
Definition imageRow : History :=
  mkHistory "img-id" (Some Timage) "image" (Some (VStr "images/old.png"))
    None (Some 2048) (Some 100) (Some 50) None false "2024-04-30 09:00:00".

(** A fresh page, and pages showing ["hello"] under the two filters. *)
Definition worldEmpty : World := mkWorld [] (mkState "all" []) [].

Definition worldHello : World :=
  mkWorld [helloRow] (mkState "all" [0%nat]) [helloRow].

Definition worldHelloImages : World :=
  mkWorld [helloRow] (mkState "image" [0%nat]) [helloRow].

(** What the reader returns from [clipHello], and the candidate made of
    it. *)
Definition resultHello : ReadClipboard :=
  mkRead (Some (mkStr 5 Ttext "hello")) None None None None.

Definition dataHello : History :=
  mkHistory "new-id" (Some Ttext) "text" (Some (VStr "hello"))
    (Some "hello") (Some 5) None None None false "2024-05-01 10:00:00".

(** What the reader returns from [clipImage "tmp/new.png" 2048], the
    candidate and its storage-ready clone. *)
Definition resultImage : ReadClipboard :=
  mkRead None None None
    (Some (mkImage 2048 50 Timage "tmp/new.png" 100)) None.

Definition dataImage : History :=
  mkHistory "new-id" (Some Timage) "image" (Some (VStr "tmp/new.png"))
    None (Some 2048) (Some 100) (Some 50) None false "2024-05-01 10:00:00".

Definition sqlImage : History :=
  mkHistory "new-id" (Some Timage) "image"
    (Some (VStr "images/tmp/new.png"))
    None (Some 2048) (Some 100) (Some 50) None false "2024-05-01 10:00:00".

(** Unfolds the reader's monad on a block. *)
Ltac run_io :=
  cbv [readTextBlock readRTFBlock readHTMLBlock readImageBlock
       readFilesBlock hasClipboardImageWin readClipboardImageWin
       call catch bind ret throw logWarn logError delay emit fst snd].

(* ===================================================================== *)
(** ** src/plugins/clipboard.ts: writing a record back, and pasting *)
(* ===================================================================== *)

(** The write calls of the native clipboard layer, with their arguments
    as the record has them ([value], [search] may be undefined). *)
Inductive WriteCall : Type :=
| WriteText (text : option Value)
| WriteRTF (text : option string) (rtf : option Value)
| WriteHTML (text : option string) (html : option Value)
| WriteImage (path : option Value)
| WriteFiles (paths : option Value).

(** What a copy or a paste does outside: a write, or [paste()]. *)
Inductive Action : Type :=
| ActWrite (c : WriteCall)
| ActPaste.

(** What a copy or paste consults: the [pastePlain] preference of
    [clipboardStore.content], how the native layer settles a write, and
    how [paste()] settles. *)
Record PasteEnv : Type := mkPasteEnv {
  pastePlain : bool;
  writes : WriteCall -> Res unit;
  paste : Res unit;
}.

(** A native write: the call, and its settlement. *)
Definition write (penv : PasteEnv) (c : WriteCall)
  : list Action * Res unit :=
  ([ActWrite c], writes penv c).

(** [writeToClipboard]: the [switch] on [type]; no case, no write. *)
Definition writeToClipboard (penv : PasteEnv) (data : History)
  : list Action * Res unit :=
  match h_type data with
  | Some Ttext => write penv (WriteText (h_value data))
  | Some Trtf => write penv (WriteRTF (h_search data) (h_value data))
  | Some Thtml => write penv (WriteHTML (h_search data) (h_value data))
  | Some Timage => write penv (WriteImage (h_value data))
  | Some Tfiles => write penv (WriteFiles (h_value data))
  | None => ([], Ok tt)
  end.

Definition newline : string := String (Ascii.ascii_of_nat 10) EmptyString.

(** [value.join("\n")]: only an array has [join]. *)
Definition joinLines (value : option Value) : Res string :=
  match value with
  | Some (VPaths paths) => Ok (String.concat newline paths)
  | _ => Throw (Error "TypeError")
  end.

(** [asPlain ?? pastePlain] *)
Definition plainWanted (penv : PasteEnv) (asPlain : option bool) : bool :=
  match asPlain with
  | Some b => b
  | None => pastePlain penv
  end.

(** [pasteToClipboard]: the awaited write, then [return paste()]. *)
Definition pasteToClipboard (penv : PasteEnv) (data : History)
    (asPlain : option bool) : list Action * Res unit :=
  let written :=
    if plainWanted penv asPlain then
      match h_type data with
      | Some Tfiles =>
          match joinLines (h_value data) with
          | Ok text => write penv (WriteText (Some (VStr text)))
          | Throw e => ([], Throw e)
          end
      | _ => write penv (WriteText (option_map VStr (h_search data)))
      end
    else writeToClipboard penv data in
  match written with
  | (tr, Ok _) => (tr ++ [ActPaste], paste penv)
  | (tr, Throw e) => (tr, Throw e)
  end.

(* ===================================================================== *)
(** ** src/pages/Main/components/HistoryList/components/Header *)
(* ===================================================================== *)

(** [t(key, { replace })] *)
Inductive Label : Type :=
| Lbl (key : string) (replace : list Z).

(** [value.length]: of a string or of an array; of [undefined] it
    throws. *)
Definition valueLength (value : option Value) : Res Z :=
  match value with
  | Some (VStr s) => Ok (strlen s)
  | Some (VPaths paths) => Ok (Z.of_nat (List.length paths))
  | None => Throw (Error "TypeError")
  end.

(** [renderType]: the [switch] on [subtype] returns first, then the one
    on [type]. *)
Definition renderType (data : History) : Res (option Label) :=
  match h_subtype data with
  | Some Surl => Ok (Some (Lbl "clipboard.label.link" []))
  | Some Semail => Ok (Some (Lbl "clipboard.label.email" []))
  | Some Scolor => Ok (Some (Lbl "clipboard.label.color" []))
  | Some Spath => Ok (Some (Lbl "clipboard.label.path" []))
  | None =>
      match h_type data with
      | Some Ttext => Ok (Some (Lbl "clipboard.label.plain_text" []))
      | Some Trtf => Ok (Some (Lbl "clipboard.label.rtf" []))
      | Some Thtml => Ok (Some (Lbl "clipboard.label.html" []))
      | Some Timage => Ok (Some (Lbl "clipboard.label.image" []))
      | Some Tfiles =>
          match valueLength (h_value data) with
          | Ok len => Ok (Some (Lbl "clipboard.label.n_files" [len]))
          | Throw e => Throw e
          end
      | None => Ok None
      end
  end.

(** [renderCount]: [filesize(count, ...)] for files and images, the
    [n_chars] label otherwise. *)
Inductive CountText : Type :=
| FileSize (count : option Z)
| NChars (count : option Z).

Definition renderCount (data : History) : CountText :=
  match h_type data with
  | Some Tfiles | Some Timage => FileSize (h_count data)
  | _ => NChars (h_count data)
  end.

(** [renderPixel]: width and height, for an image only. *)
Definition renderPixel (data : History) : option (option Z * option Z) :=
  match h_type data with
  | Some Timage => Some (h_width data, h_height data)
  | _ => None
  end.

(** The keys of the operation buttons. *)
Inductive OperationButton : Type :=
| BtnCopy | BtnPastePlain | BtnNote | BtnStar | BtnDelete.

(** What a click on a button does, in order. *)
Inductive UiAction : Type :=
| UiStopPropagation
| UiClipboard (a : Action)
| UiHandleNote
| UiHandleFavorite
| UiHandleDelete.

(** [handleClick(event, key)] *)
Definition handleClick (penv : PasteEnv) (data : History)
    (key : OperationButton) : list UiAction * Res unit :=
  match key with
  | BtnCopy =>
      let (tr, r) := writeToClipboard penv data in
      (UiStopPropagation :: map UiClipboard tr, r)
  | BtnPastePlain =>
      let (tr, r) := pasteToClipboard penv data (Some true) in
      (UiStopPropagation :: map UiClipboard tr, r)
  | BtnNote => ([UiStopPropagation; UiHandleNote], Ok tt)
  | BtnStar => ([UiStopPropagation; UiHandleFavorite], Ok tt)
  | BtnDelete => ([UiStopPropagation; UiHandleDelete], Ok tt)
  end.

(* ===================================================================== *)
(** ** The earlier revision of the reader and of the pass *)
(* ===================================================================== *)

(** src/src/plugins/clipboard.ts and src/src/hooks/useClipboard.ts: the
    reader before the Windows fallback, and the listener callback before
    the debounce, the zero-byte guard and the match of images by size.
    What the two revisions share is used as it is above. *)
Module Earlier.

Section ReadAttempt.
Local Open Scope io_scope.

Variable attempt : Z.
Variable n : Native.

(** The image block: no probe answering true, no image. *)
Definition readImageBlock (result : ReadClipboard) : IO ReadClipboard :=
  catch
    (present <- call CHasImage (hasImage n) ;;
     if (present : bool) then
       img <- call CReadImage (readImage n) ;;
       ret (set_image result
              (mkImage (ri_size img) (ri_height img) Timage
                       (ri_path img) (ri_width img)))
     else ret result)
    (fun err =>
       logWarn (FailedToRead "image" attempt err) ;;
       if negb (isSome (text result)) && negb (isSome (html result))
          && negb (isSome (rtf result))
       then throw err else ret result).

Definition readAttempt : IO ReadClipboard :=
  r1 <- readTextBlock attempt n emptyResult ;;
  r2 <- readRTFBlock attempt n r1 ;;
  r3 <- readHTMLBlock attempt n r2 ;;
  r4 <- readImageBlock r3 ;;
  readFilesBlock attempt n r4.

End ReadAttempt.

Fixpoint retryLoop (remaining : nat) (attempt : Z) (lastError : option Err)
    (clip : Z -> Native) : IO ReadClipboard :=
  match remaining with
  | O =>
      bind (logError (AllAttemptsFailed RETRY_COUNT lastError))
        (fun _ => throw (match lastError with
                         | Some e => e
                         | None => ErrUndefined
                         end))
  | S remaining' =>
      catch (readAttempt attempt (clip attempt))
        (fun err =>
           bind (if attempt <? RETRY_COUNT then delay RETRY_DELAY_MS
                 else ret tt)
             (fun _ => retryLoop remaining' (attempt + 1) (Some err) clip))
  end.

Definition readClipboardWithRetry (clip : Z -> Native) : IO ReadClipboard :=
  retryLoop (Z.to_nat RETRY_COUNT) 1 None clip.

(** The query: [type = sqlData.type AND value = sqlData.value], for every
    type. *)
Definition dedupWhere (sqlData : History) (row : History) : bool :=
  sql_eq ClipType_eqb (h_type row) (h_type sqlData)
  && sql_eq Value_eqb (h_value row) (h_value sqlData).

Section Callback.
Local Open Scope pass_scope.

Variable env : Env.

Definition upsert (data : History) (type : ClipType) : M (Res unit) :=
  dataRef <- alloc data ;;
  sqlData <- cloneDeep dataRef ;;
  let value := h_value data in
  let group := h_group data in
  let createTime := h_createTime data in
  (if ClipType_eqb type Timage then
     durable <- await (fullNameOf env value) ;;
     assign_value sqlData (Some (VStr durable))
   else retM tt) ;;
  (if ClipType_eqb type Tfiles then
     assign_value sqlData (stringifyOf env value)
   else retM tt) ;;
  sqlNow <- deref sqlData ;;
  rows <- selectHistory env (dedupWhere sqlNow) ;;
  stateGroup <- get_group ;;
  let visible := String.eqb stateGroup "all" || String.eqb stateGroup group in
  match rows with
  | matched :: _ =>
      let id := h_id matched in
      (if visible then
         list_remove id ;;
         spread <- deref dataRef ;;
         entry <- alloc (with_id spread id) ;;
         list_unshift entry
       else retM tt) ;;
      updateHistory env id [SetCreateTime createTime]
  | [] =>
      (if visible then list_unshift dataRef else retM tt) ;;
      insertHistory env sqlData ;;
      retM (Ok tt)
  end.

(** The body of the second [try] block: a typed record goes on, whatever
    its count. *)
Definition processBody (result : ReadClipboard) : M (Res unit) :=
  if nothingRead result then retM (Ok tt)
  else
    let data := buildRecord env result in
    match h_type data with
    | None =>
        emitM (EvLogWarn NoRecognizedType) ;;
        retM (Ok tt)
    | Some type => upsert data type
    end.

Definition processResult (result : ReadClipboard) : M unit :=
  settled <- catchM (processBody result)
               (fun err =>
                  emitM (EvLogError (ProcessingFailed err)) ;;
                  message_warning "clipboard.hints.clipboard_process_failed" ;;
                  retM (Ok tt)) ;;
  match settled with
  | Ok _ => retM tt
  | Throw e => throwM e
  end.

(** The listener callback after its [beforeRead] hook. *)
Definition processClipboard : M unit :=
  read <- catchM
            (result <- liftIO (readClipboardWithRetry (clip env)) ;;
             retM (Some result))
            (fun err =>
               emitM (EvLogError (ReadFailedAfterRetries err)) ;;
               message_warning "clipboard.hints.clipboard_read_failed" ;;
               retM None) ;;
  match read with
  | None => retM tt
  | Some result => processResult result
  end.

End Callback.

End Earlier.

(* ===================================================================== *)
(** ** Vocabulary of the further properties *)
(* ===================================================================== *)

(** The image slot the Windows fallback yields, from what the two
    [invoke] commands answer. *)
Definition fallbackImage (n : Native) : option ImageEntry :=
  match invoke_has_clipboard_image_win n with
  | Ok true =>
      match invoke_read_clipboard_image_win n with
      | Ok (Some wi) =>
          if 0 <? win_size wi then
            Some (mkImage (win_size wi) (win_height wi) Timage
                    (win_path wi) (win_width wi))
          else None
      | _ => None
      end
  | _ => None
  end.

Definition isReadCall (c : Call) (e : Event) : bool :=
  match e, c with
  | EvCall CReadText, CReadText
  | EvCall CReadRTF, CReadRTF
  | EvCall CReadHTML, CReadHTML
  | EvCall CReadImage, CReadImage
  | EvCall CReadFiles, CReadFiles => true
  | _, _ => false
  end.

(** A computation of the pass that leaves the rows of the store and the
    group filter alone. *)
Definition keepsStore {A} (m : M A) : Prop :=
  forall w,
    w_db (snd (fst (m w))) = w_db w
    /\ st_group (w_state (snd (fst (m w)))) = st_group (w_state w).

(** The three things a pass can do to the rows of the store: nothing,
    append one row, refresh the createTime of the rows with one id. *)
Definition storeStep (db db' : list History) : Prop :=
  db' = db
  \/ (exists row, db' = db ++ [row])
  \/ (exists id createTime, db' = refreshCreateTime id createTime db).

Definition stepsStore {A} (m : M A) : Prop :=
  forall w,
    storeStep (w_db w) (w_db (snd (fst (m w))))
    /\ st_group (w_state (snd (fst (m w)))) = st_group (w_state w).

Definition notUserWarning (e : Event) : bool := negb (isUserWarning e).

(** The same environment at a later pass: [nanoid()] and [formatDate()]
    answer anew, everything else answers as before. *)
Definition recapture (env : Env) (id time : string) : Env :=
  mkEnv (clip env) (copyPlain env) time id (isURL env) (isEmail env)
    (isColor env) (fs_exists env) (fullName env) (JSON_stringify env)
    (selectFault env) (insertFault env) (updateFault env).

(** The number of notifications among the inputs. *)
Definition notified (inputs : list Input) : nat :=
  List.length
    (filter (fun i => match i with Changed _ => true | Settled _ => false end)
       inputs).

(** The inputs from any state of the listener on, then time passing
    until no timeout is left. *)
Definition quiesce (hook : bool) (l : Loop) (inputs : list Input)
  : list Signal * Loop :=
  let (s1, l1) := run hook l inputs in
  let (s2, l2) := fire (timers l1) l1 in
  (s1 ++ s2, l2).

(* ===================================================================== *)
(** ** Further concrete examples *)
(* ===================================================================== *)

(** A clipboard that was cleared: every probe answers false. *)
Definition clipCleared : Native :=
  mkNative (Ok false) (Ok "") (Ok false) (Ok "") (Ok false) (Ok "")
    (Ok false) (Throw (Error "no image")) (Ok false) (Ok None)
    (Ok false) (Throw (Error "no files")).

(** Text with its HTML rendering. *)
Definition clipTextHtml : Native :=
  mkNative (Ok true) (Ok "hi") (Ok false) (Ok "") (Ok true) (Ok "<b>hi</b>")
    (Ok false) (Throw (Error "no image")) (Ok false) (Ok None)
    (Ok false) (Throw (Error "no files")).

Definition resultTextHtml : ReadClipboard :=
  mkRead (Some (mkStr 2 Ttext "hi")) None (Some (mkStr 2 Thtml "<b>hi</b>"))
    None None.

(** An image that only the Windows fallback sees. *)
Definition clipFallback : Native :=
  mkNative (Ok false) (Ok "") (Ok false) (Ok "") (Ok false) (Ok "")
    (Ok false) (Throw (Error "no image")) (Ok true)
    (Ok (Some (mkWinImage "tmp/dib.png" 512 20 10)))
    (Ok false) (Throw (Error "no files")).

(** Two files of 30 bytes together. *)
Definition resultFiles : ReadClipboard :=
  mkRead None None None None
    (Some (mkFiles 30 Tfiles ["/a.txt"; "/b.txt"])).

(** [envOf] with store faults. *)
Definition envFaulty (n : Native) (select insert update : option Err)
  : Env :=
  mkEnv (fun _ => n) false "2024-05-01 10:00:00" "new-id"
    (fun _ => false) (fun _ => false) (fun _ => false)
    (fun _ => Ok false)
    (fun path => Ok (String.append "images/" path))
    (fun _ => "[json]")
    select insert update.

(** Writes and [paste()] that settle; the [pastePlain] preference is
    off. *)
Definition pasteEnvOk : PasteEnv :=
  mkPasteEnv false (fun _ => Ok tt) (Ok tt).

(** A listener with a pass in flight and no timeout pending. *)
Definition busy : Loop := mkLoop None true [] 2 1.

(** A page showing the stored image. *)
Definition worldImage : World :=
  mkWorld [imageRow] (mkState "all" [0%nat]) [imageRow].

(* ===================================================================== *)
(** * Properties *)
(* ===================================================================== *)
(* ===================================================================== *)
(** ** The reader: escalation of failures *)
(* ===================================================================== *)

Section Escalation.
Variable attempt : Z.
Variable n : Native.

Lemma text_block_failure (e : Err) (result : ReadClipboard) :
  fails (hasText n) (readText n) e ->
  snd (readTextBlock attempt n result) = Throw e.
Proof.
  intros [H | [H1 H2]]; run_io.
  - rewrite H. reflexivity.
  - rewrite H1, H2. reflexivity.
Qed.

Lemma rtf_block_failure (e : Err) (result : ReadClipboard) :
  fails (hasRTF n) (readRTF n) e ->
  snd (readRTFBlock attempt n result)
  = if isSome (text result) then Ok result else Throw e.
Proof.
  intros [H | [H1 H2]]; run_io.
  - rewrite H. destruct (text result); reflexivity.
  - rewrite H1, H2. destruct (text result); reflexivity.
Qed.

Lemma html_block_failure (e : Err) (result : ReadClipboard) :
  fails (hasHTML n) (readHTML n) e ->
  snd (readHTMLBlock attempt n result)
  = if isSome (text result) then Ok result else Throw e.
Proof.
  intros [H | [H1 H2]]; run_io.
  - rewrite H. destruct (text result); reflexivity.
  - rewrite H1, H2. destruct (text result); reflexivity.
Qed.

Lemma image_block_failure (e : Err) (result : ReadClipboard) :
  fails (hasImage n) (readImage n) e ->
  snd (readImageBlock attempt n result)
  = if isSome (text result) || isSome (html result) || isSome (rtf result)
    then Ok result else Throw e.
Proof.
  intros [H | [H1 H2]]; run_io.
  - rewrite H.
    destruct (text result), (html result), (rtf result); reflexivity.
  - rewrite H1, H2.
    destruct (text result), (html result), (rtf result); reflexivity.
Qed.

Lemma files_block_failure (e : Err) (result : ReadClipboard) :
  fails (hasFiles n) (readFiles n) e ->
  snd (readFilesBlock attempt n result)
  = if isSome (text result) || isSome (html result) || isSome (rtf result)
       || isSome (image result)
    then Ok result else Throw e.
Proof.
  intros [H | [H1 H2]]; run_io.
  - rewrite H.
    destruct (text result), (html result), (rtf result), (image result);
      reflexivity.
  - rewrite H1, H2.
    destruct (text result), (html result), (rtf result), (image result);
      reflexivity.
Qed.

End Escalation.

Lemma snd_bind_ok {A B} (m : IO A) (k : A -> IO B) (a : A) :
  snd m = Ok a -> snd (bind m k) = snd (k a).
Proof.
  destruct m as [tr [x | e]]; simpl; intros H; [| discriminate].
  injection H as ->. destruct (k a); reflexivity.
Qed.

Lemma snd_bind_throw {A B} (m : IO A) (k : A -> IO B) (e : Err) :
  snd m = Throw e -> snd (bind m k) = Throw e.
Proof.
  destruct m as [tr [x | e']]; simpl; intros H; [discriminate |].
  injection H as ->. reflexivity.
Qed.

Lemma bind_assoc {A B C} (m : IO A) (f : A -> IO B) (g : B -> IO C) :
  bind (bind m f) g = bind m (fun x => bind (f x) g).
Proof.
  destruct m as [tr [a | e]]; simpl; [| reflexivity].
  destruct (f a) as [tr' [b | e']]; simpl; [| reflexivity].
  destruct (g b). rewrite app_assoc. reflexivity.
Qed.

Section Tolerance.
Variable attempt : Z.
Variable n : Native.

(** Once something is captured, the later blocks cannot abort. *)
Lemma html_block_total (result : ReadClipboard) :
  isSome (text result) = true ->
  exists r', snd (readHTMLBlock attempt n result) = Ok r'
             /\ text r' = text result /\ rtf r' = rtf result.
Proof.
  intros Ht. run_io.
  destruct (hasHTML n) as [[|] | e1]; [destruct (readHTML n) as [h | e2] | |];
    simpl; rewrite ?Ht; simpl; eexists; (split; [reflexivity |]);
    split; reflexivity.
Qed.

Lemma image_block_total (result : ReadClipboard) :
  isSome (text result) || isSome (html result) || isSome (rtf result) = true ->
  exists r', snd (readImageBlock attempt n result) = Ok r'
             /\ text r' = text result /\ html r' = html result
             /\ rtf r' = rtf result.
Proof.
  intros Hc.
  assert (Hg : negb (isSome (text result)) && negb (isSome (html result))
               && negb (isSome (rtf result)) = false)
    by (destruct (text result), (html result), (rtf result);
        simpl in *; congruence).
  run_io.
  destruct (hasImage n) as [[|] | e1].
  - destruct (readImage n) as [img | e2]; simpl; rewrite ?Hg; simpl;
      eexists; (split; [reflexivity |]); repeat split.
  - destruct (invoke_has_clipboard_image_win n) as [[|] | e3]; simpl.
    + destruct (invoke_read_clipboard_image_win n) as [[wi |] | e4]; simpl;
        try destruct (0 <? win_size wi); simpl;
        eexists; (split; [reflexivity |]); repeat split.
    + eexists; (split; [reflexivity |]); repeat split.
    + eexists; (split; [reflexivity |]); repeat split.
  - simpl. rewrite Hg. simpl. eexists; (split; [reflexivity |]); repeat split.
Qed.

Lemma files_block_total (result : ReadClipboard) :
  isSome (text result) || isSome (html result) || isSome (rtf result) = true ->
  exists r', snd (readFilesBlock attempt n result) = Ok r'.
Proof.
  intros Hc.
  assert (Hg : negb (isSome (text result)) && negb (isSome (html result))
               && negb (isSome (rtf result))
               && negb (isSome (image result)) = false)
    by (destruct (text result), (html result), (rtf result);
        simpl in *; congruence).
  run_io.
  destruct (hasFiles n) as [[|] | e1]; [destruct (readFiles n) as [f | e2] | |];
    simpl; rewrite ?Hg; simpl; eexists; reflexivity.
Qed.

Lemma readAttempt_from_text :
  readAttempt attempt n
  = bind (readTextBlock attempt n emptyResult) (readFromRTF attempt n).
Proof. reflexivity. Qed.

Lemma readAttempt_from_html :
  readAttempt attempt n
  = bind (readThroughRTF attempt n) (readFromHTML attempt n).
Proof.
  unfold readAttempt, readThroughRTF, readFromHTML, readFromImage.
  rewrite !bind_assoc. reflexivity.
Qed.

Lemma readAttempt_from_image :
  readAttempt attempt n
  = bind (readThroughHTML attempt n) (readFromImage attempt n).
Proof.
  unfold readAttempt, readThroughHTML, readThroughRTF, readFromImage.
  rewrite !bind_assoc. reflexivity.
Qed.

Lemma readAttempt_from_files :
  readAttempt attempt n
  = bind (readThroughImage attempt n) (readFilesBlock attempt n).
Proof.
  unfold readAttempt, readThroughImage, readThroughHTML, readThroughRTF.
  rewrite !bind_assoc. reflexivity.
Qed.

(** From the image block on, an attempt that has captured text, HTML or
    rich text returns. *)
Lemma tail_total_from_image (r3 : ReadClipboard) :
  isSome (text r3) || isSome (html r3) || isSome (rtf r3) = true ->
  exists r, snd (readFromImage attempt n r3) = Ok r.
Proof.
  intros Hc. unfold readFromImage.
  destruct (image_block_total r3 Hc) as (r4 & H4 & Ht & Hh & Hr).
  rewrite (snd_bind_ok _ _ _ H4).
  apply files_block_total. rewrite Ht, Hh, Hr. exact Hc.
Qed.

Lemma tail_total_from_html (r2 : ReadClipboard) :
  isSome (text r2) = true ->
  exists r, snd (readFromHTML attempt n r2) = Ok r.
Proof.
  intros Ht. unfold readFromHTML.
  destruct (html_block_total r2 Ht) as (r3 & H3 & Ht3 & _).
  rewrite (snd_bind_ok _ _ _ H3).
  apply tail_total_from_image. rewrite Ht3, Ht. reflexivity.
Qed.

End Tolerance.

(** C3.  Within one read attempt: a failure of the text read aborts the
    attempt; a failure of the rich-text or of the HTML read aborts it
    exactly when no text was captured; a failure of the image read aborts
    it exactly when none of text, HTML, rich text was captured; a failure
    of the file-list read aborts it exactly when none of text, HTML, rich
    text, image was captured.  A tolerated failure hands the snapshot on
    as it was, and the attempt goes on to return. *)
Theorem reader_escalation (attempt : Z) (n : Native) (e : Err) :
  (fails (hasText n) (readText n) e ->
     (forall result, snd (readTextBlock attempt n result) = Throw e)
     /\ snd (readAttempt attempt n) = Throw e)
  /\ (fails (hasRTF n) (readRTF n) e ->
        (forall result,
           (snd (readRTFBlock attempt n result) = Throw e
            <-> text result = None)
           /\ (text result <> None ->
               snd (readRTFBlock attempt n result) = Ok result))
        /\ (forall r1,
              snd (readTextBlock attempt n emptyResult) = Ok r1 ->
              (snd (readAttempt attempt n) = Throw e <-> text r1 = None)
              /\ (text r1 <> None ->
                  exists r, snd (readAttempt attempt n) = Ok r)))
  /\ (fails (hasHTML n) (readHTML n) e ->
        (forall result,
           (snd (readHTMLBlock attempt n result) = Throw e
            <-> text result = None)
           /\ (text result <> None ->
               snd (readHTMLBlock attempt n result) = Ok result))
        /\ (forall r2,
              snd (readThroughRTF attempt n) = Ok r2 ->
              (snd (readAttempt attempt n) = Throw e <-> text r2 = None)
              /\ (text r2 <> None ->
                  exists r, snd (readAttempt attempt n) = Ok r)))
  /\ (fails (hasImage n) (readImage n) e ->
        (forall result,
           (snd (readImageBlock attempt n result) = Throw e
            <-> text result = None /\ html result = None
                /\ rtf result = None)
           /\ (~ (text result = None /\ html result = None
                  /\ rtf result = None) ->
               snd (readImageBlock attempt n result) = Ok result))
        /\ (forall r3,
              snd (readThroughHTML attempt n) = Ok r3 ->
              (snd (readAttempt attempt n) = Throw e
               <-> text r3 = None /\ html r3 = None /\ rtf r3 = None)
              /\ (~ (text r3 = None /\ html r3 = None /\ rtf r3 = None) ->
                  exists r, snd (readAttempt attempt n) = Ok r)))
  /\ (fails (hasFiles n) (readFiles n) e ->
        (forall result,
           (snd (readFilesBlock attempt n result) = Throw e
            <-> text result = None /\ html result = None
                /\ rtf result = None /\ image result = None)
           /\ (~ (text result = None /\ html result = None
                  /\ rtf result = None /\ image result = None) ->
               snd (readFilesBlock attempt n result) = Ok result))
        /\ (forall r4,
              snd (readThroughImage attempt n) = Ok r4 ->
              (snd (readAttempt attempt n) = Throw e
               <-> text r4 = None /\ html r4 = None /\ rtf r4 = None
                   /\ image r4 = None)
              /\ (~ (text r4 = None /\ html r4 = None /\ rtf r4 = None
                     /\ image r4 = None) ->
                  snd (readAttempt attempt n) = Ok r4))).
Proof.
  assert (Hrtf : forall result, fails (hasRTF n) (readRTF n) e ->
     (snd (readRTFBlock attempt n result) = Throw e <-> text result = None)
     /\ (text result <> None ->
         snd (readRTFBlock attempt n result) = Ok result)).
  { intros result Hf. rewrite (rtf_block_failure attempt n e result Hf).
    destruct (text result); simpl; split;
      try (split; congruence); congruence. }
  assert (Hhtml : forall result, fails (hasHTML n) (readHTML n) e ->
     (snd (readHTMLBlock attempt n result) = Throw e <-> text result = None)
     /\ (text result <> None ->
         snd (readHTMLBlock attempt n result) = Ok result)).
  { intros result Hf. rewrite (html_block_failure attempt n e result Hf).
    destruct (text result); simpl; split;
      try (split; congruence); congruence. }
  assert (Himg : forall result, fails (hasImage n) (readImage n) e ->
     (snd (readImageBlock attempt n result) = Throw e
      <-> text result = None /\ html result = None /\ rtf result = None)
     /\ (~ (text result = None /\ html result = None /\ rtf result = None) ->
         snd (readImageBlock attempt n result) = Ok result)).
  { intros result Hf. rewrite (image_block_failure attempt n e result Hf).
    destruct (text result), (html result), (rtf result); simpl; split;
      try (split; [congruence | intros (? & ? & ?); congruence]);
      try (intros; reflexivity); try tauto. }
  assert (Hfiles : forall result, fails (hasFiles n) (readFiles n) e ->
     (snd (readFilesBlock attempt n result) = Throw e
      <-> text result = None /\ html result = None /\ rtf result = None
          /\ image result = None)
     /\ (~ (text result = None /\ html result = None /\ rtf result = None
            /\ image result = None) ->
         snd (readFilesBlock attempt n result) = Ok result)).
  { intros result Hf. rewrite (files_block_failure attempt n e result Hf).
    destruct (text result), (html result), (rtf result), (image result);
      simpl; split;
      try (split; [congruence | intros (? & ? & ? & ?); congruence]);
      try (intros; reflexivity); try tauto. }
  split; [| split; [| split; [| split]]].
  - (* text *)
    intros Hf. split.
    + intros result. apply text_block_failure. exact Hf.
    + unfold readAttempt. apply snd_bind_throw.
      apply text_block_failure. exact Hf.
  - (* rich text *)
    intros Hf. split; [intros result; apply Hrtf; exact Hf |].
    intros r1 H1.
    rewrite readAttempt_from_text, (snd_bind_ok _ _ _ H1).
    unfold readFromRTF.
    destruct (Hrtf r1 Hf) as [Hiff Hok].
    destruct (text r1) as [t |] eqn:Ht.
    + assert (H2 : snd (readRTFBlock attempt n r1) = Ok r1)
        by (apply Hok; congruence).
      rewrite (snd_bind_ok _ _ _ H2).
      destruct (tail_total_from_html attempt n r1) as (r & Hr);
        [rewrite Ht; reflexivity |].
      split; [split; [rewrite Hr |]; congruence |].
      intros _. exists r. exact Hr.
    + assert (H2 : snd (readRTFBlock attempt n r1) = Throw e)
        by (apply Hiff; reflexivity).
      rewrite (snd_bind_throw _ _ _ H2).
      split; [split; congruence | congruence].
  - (* HTML *)
    intros Hf. split; [intros result; apply Hhtml; exact Hf |].
    intros r2 H2.
    rewrite readAttempt_from_html, (snd_bind_ok _ _ _ H2).
    unfold readFromHTML.
    destruct (Hhtml r2 Hf) as [Hiff Hok].
    destruct (text r2) as [t |] eqn:Ht.
    + assert (H3 : snd (readHTMLBlock attempt n r2) = Ok r2)
        by (apply Hok; congruence).
      rewrite (snd_bind_ok _ _ _ H3).
      destruct (tail_total_from_image attempt n r2) as (r & Hr);
        [rewrite Ht; reflexivity |].
      split; [split; [rewrite Hr |]; congruence |].
      intros _. exists r. exact Hr.
    + assert (H3 : snd (readHTMLBlock attempt n r2) = Throw e)
        by (apply Hiff; reflexivity).
      rewrite (snd_bind_throw _ _ _ H3).
      split; [split; congruence | congruence].
  - (* image *)
    intros Hf. split; [intros result; apply Himg; exact Hf |].
    intros r3 H3.
    rewrite readAttempt_from_image, (snd_bind_ok _ _ _ H3).
    unfold readFromImage.
    destruct (Himg r3 Hf) as [Hiff Hok].
    destruct (text r3) as [t |] eqn:Ht;
      [| destruct (html r3) as [h |] eqn:Hh;
         [| destruct (rtf r3) as [r |] eqn:Hr]].
    4: { assert (H4 : snd (readImageBlock attempt n r3) = Throw e)
           by (apply Hiff; auto).
         rewrite (snd_bind_throw _ _ _ H4).
         split; [split; auto | intros H; exfalso; apply H; auto]. }
    all: assert (H4 : snd (readImageBlock attempt n r3) = Ok r3)
           by (apply Hok; intros (? & ? & ?); congruence);
         rewrite (snd_bind_ok _ _ _ H4);
         destruct (files_block_total attempt n r3) as (r' & Hr');
           [rewrite Ht, ?Hh, ?Hr; reflexivity |];
         (split;
          [split; [rewrite Hr'; congruence | intros (? & ? & ?); congruence]
          | intros _; exists r'; exact Hr']).
  - (* files *)
    intros Hf. split; [intros result; apply Hfiles; exact Hf |].
    intros r4 H4.
    rewrite readAttempt_from_files, (snd_bind_ok _ _ _ H4).
    apply Hfiles. exact Hf.
Qed.

(* ===================================================================== *)
(** ** The reader: what an attempt leaves in the trace *)
(* ===================================================================== *)

Lemma fst_bind {A B} (m : IO A) (k : A -> IO B) :
  fst (bind m k)
  = fst m ++ match snd m with
             | Ok a => fst (k a)
             | Throw _ => []
             end.
Proof.
  destruct m as [tr [a | e]]; simpl.
  - destruct (k a); reflexivity.
  - rewrite app_nil_r. reflexivity.
Qed.

Section AttemptTrace.
Variable attempt : Z.
Variable n : Native.

Lemma text_block_trace (result : ReadClipboard) :
  exists rest,
    fst (readTextBlock attempt n result) = EvCall CHasText :: rest
    /\ forallb isInAttemptEvent rest = true.
Proof.
  run_io.
  destruct (hasText n) as [[|] | e1]; [destruct (readText n) as [t | e2] | |];
    simpl; eexists; split; reflexivity.
Qed.

Lemma rtf_block_trace (result : ReadClipboard) :
  forallb isInAttemptEvent (fst (readRTFBlock attempt n result)) = true.
Proof.
  run_io.
  destruct (hasRTF n) as [[|] | e1]; [destruct (readRTF n) as [t | e2] | |];
    simpl; try reflexivity; destruct (text result); reflexivity.
Qed.

Lemma html_block_trace (result : ReadClipboard) :
  forallb isInAttemptEvent (fst (readHTMLBlock attempt n result)) = true.
Proof.
  run_io.
  destruct (hasHTML n) as [[|] | e1]; [destruct (readHTML n) as [t | e2] | |];
    simpl; try reflexivity; destruct (text result); reflexivity.
Qed.

Lemma image_block_trace (result : ReadClipboard) :
  forallb isInAttemptEvent (fst (readImageBlock attempt n result)) = true.
Proof.
  run_io.
  destruct (hasImage n) as [[|] | e1].
  - destruct (readImage n) as [img | e2]; simpl; try reflexivity.
    destruct (text result), (html result), (rtf result); reflexivity.
  - destruct (invoke_has_clipboard_image_win n) as [[|] | e3]; simpl;
      try reflexivity.
    destruct (invoke_read_clipboard_image_win n) as [[wi |] | e4]; simpl;
      try destruct (0 <? win_size wi); reflexivity.
  - simpl. destruct (text result), (html result), (rtf result); reflexivity.
Qed.

Lemma files_block_trace (result : ReadClipboard) :
  forallb isInAttemptEvent (fst (readFilesBlock attempt n result)) = true.
Proof.
  run_io.
  destruct (hasFiles n) as [[|] | e1]; [destruct (readFiles n) as [t | e2] | |];
    simpl; try reflexivity;
    destruct (text result), (html result), (rtf result), (image result);
    reflexivity.
Qed.

(** An attempt opens with [hasText()] and goes on with calls of the
    other capabilities and log warnings. *)
Lemma attempt_trace :
  exists rest,
    fst (readAttempt attempt n) = EvCall CHasText :: rest
    /\ forallb isInAttemptEvent rest = true.
Proof.
  rewrite readAttempt_from_text, fst_bind.
  destruct (text_block_trace emptyResult) as (rest & -> & Hrest).
  eexists. split; [simpl; reflexivity |].
  rewrite forallb_app, Hrest. simpl.
  destruct (snd (readTextBlock attempt n emptyResult)) as [r1 |];
    [| reflexivity].
  unfold readFromRTF. rewrite fst_bind, forallb_app, rtf_block_trace. simpl.
  destruct (snd (readRTFBlock attempt n r1)) as [r2 |]; [| reflexivity].
  unfold readFromHTML. rewrite fst_bind, forallb_app, html_block_trace. simpl.
  destruct (snd (readHTMLBlock attempt n r2)) as [r3 |]; [| reflexivity].
  unfold readFromImage.
  rewrite fst_bind, forallb_app, image_block_trace. simpl.
  destruct (snd (readImageBlock attempt n r3)) as [r4 |]; [| reflexivity].
  apply files_block_trace.
Qed.

End AttemptTrace.

Lemma inAttempt_filter (kind : Event -> bool) (tr : Trace) :
  (forall e, isInAttemptEvent e = true -> kind e = false) ->
  forallb isInAttemptEvent tr = true ->
  filter kind tr = [].
Proof.
  intros Hk. induction tr as [| e tr IH]; simpl; [reflexivity |].
  intros H. apply andb_prop in H. destruct H as [He Htr].
  rewrite (Hk e He). apply IH. exact Htr.
Qed.

Lemma attempt_starts_once (attempt : Z) (n : Native) :
  filter isAttemptStart (fst (readAttempt attempt n)) = [EvCall CHasText].
Proof.
  destruct (attempt_trace attempt n) as (rest & -> & Hrest).
  simpl. f_equal. apply inAttempt_filter; [| exact Hrest].
  intros [[] | | | | | | | | |]; simpl; congruence.
Qed.

Lemma attempt_no_warning (attempt : Z) (n : Native) :
  filter isUserWarning (fst (readAttempt attempt n)) = [].
Proof.
  destruct (attempt_trace attempt n) as (rest & -> & Hrest).
  simpl. apply inAttempt_filter; [| exact Hrest].
  intros [[] | | | | | | | | |]; simpl; congruence.
Qed.

Lemma attempt_no_delay (attempt : Z) (n : Native) :
  filter isDelay (fst (readAttempt attempt n)) = [].
Proof.
  destruct (attempt_trace attempt n) as (rest & -> & Hrest).
  simpl. apply inAttempt_filter; [| exact Hrest].
  intros [[] | | | | | | | | |]; simpl; congruence.
Qed.

(** The three iterations of the loop, by what the attempts do. *)
Lemma retry_unfold (clip : Z -> Native) :
  readClipboardWithRetry clip
  = catch (readAttempt 1 (clip 1))
      (fun e1 =>
         bind (delay 200)
           (fun _ =>
              catch (readAttempt 2 (clip 2))
                (fun e2 =>
                   bind (delay 200)
                     (fun _ =>
                        catch (readAttempt 3 (clip 3))
                          (fun e3 =>
                             bind (ret tt)
                               (fun _ =>
                                  bind (logError
                                          (AllAttemptsFailed 3 (Some e3)))
                                    (fun _ => throw e3))))))).
Proof. reflexivity. Qed.

Lemma retry_cases (clip : Z -> Native) :
  readClipboardWithRetry clip
  = match snd (readAttempt 1 (clip 1)) with
    | Ok r => (fst (readAttempt 1 (clip 1)), Ok r)
    | Throw _ =>
        match snd (readAttempt 2 (clip 2)) with
        | Ok r =>
            (fst (readAttempt 1 (clip 1)) ++ [EvDelay 200]
             ++ fst (readAttempt 2 (clip 2)), Ok r)
        | Throw _ =>
            match snd (readAttempt 3 (clip 3)) with
            | Ok r =>
                (fst (readAttempt 1 (clip 1)) ++ [EvDelay 200]
                 ++ fst (readAttempt 2 (clip 2)) ++ [EvDelay 200]
                 ++ fst (readAttempt 3 (clip 3)), Ok r)
            | Throw e3 =>
                (fst (readAttempt 1 (clip 1)) ++ [EvDelay 200]
                 ++ fst (readAttempt 2 (clip 2)) ++ [EvDelay 200]
                 ++ fst (readAttempt 3 (clip 3))
                 ++ [EvLogError (AllAttemptsFailed 3 (Some e3))], Throw e3)
            end
        end
    end.
Proof.
  rewrite retry_unfold.
  destruct (readAttempt 1 (clip 1)) as [t1 [r1 | e1]]; simpl; [reflexivity |].
  destruct (readAttempt 2 (clip 2)) as [t2 [r2 | e2]]; simpl; [reflexivity |].
  destruct (readAttempt 3 (clip 3)) as [t3 [r3 | e3]]; reflexivity.
Qed.

Lemma inAttempt_reader (tr : Trace) :
  forallb isInAttemptEvent tr = true -> forallb isReaderEvent tr = true.
Proof.
  induction tr as [| e tr IH]; simpl; [reflexivity |].
  intros H. apply andb_prop in H. destruct H as [He Htr].
  rewrite (IH Htr), andb_true_r.
  destruct e as [[] | | | | | | | | |]; simpl in *; congruence.
Qed.

Lemma attempt_reader_events (attempt : Z) (n : Native) :
  forallb isReaderEvent (fst (readAttempt attempt n)) = true.
Proof.
  destruct (attempt_trace attempt n) as (rest & -> & Hrest).
  simpl. apply inAttempt_reader. exact Hrest.
Qed.

(** The read leaves only native calls, log lines and delays. *)
Lemma read_reader_events (clip : Z -> Native) :
  forallb isReaderEvent (fst (readClipboardWithRetry clip)) = true.
Proof.
  rewrite retry_cases.
  assert (H1 := attempt_reader_events 1 (clip 1)).
  assert (H2 := attempt_reader_events 2 (clip 2)).
  assert (H3 := attempt_reader_events 3 (clip 3)).
  destruct (snd (readAttempt 1 (clip 1)));
    [| destruct (snd (readAttempt 2 (clip 2)));
       [| destruct (snd (readAttempt 3 (clip 3)))]];
    cbn [fst]; rewrite ?forallb_app, ?H1, ?H2, ?H3; reflexivity.
Qed.

Lemma reader_filter (kind : Event -> bool) (tr : Trace) :
  (forall e, isReaderEvent e = true -> kind e = false) ->
  forallb isReaderEvent tr = true ->
  filter kind tr = [].
Proof.
  intros Hk. induction tr as [| e tr IH]; simpl; [reflexivity |].
  intros H. apply andb_prop in H. destruct H as [He Htr].
  rewrite (Hk e He). apply IH. exact Htr.
Qed.

(* ===================================================================== *)
(** ** The reader: the snapshots it returns are well typed *)
(* ===================================================================== *)

Section ReaderTypes.
Variable attempt : Z.
Variable n : Native.

Lemma emptyResult_wellTyped : wellTyped emptyResult.
Proof. repeat split; intros e H; discriminate. Qed.

Lemma text_block_wellTyped (result r' : ReadClipboard) :
  wellTyped result ->
  snd (readTextBlock attempt n result) = Ok r' -> wellTyped r'.
Proof.
  intros (Ht & Hr & Hh & Hi & Hf). run_io.
  destruct (hasText n) as [[|] | e1]; [destruct (readText n) as [t | e2] | |];
    simpl; intros H; try discriminate; injection H as <-;
    repeat split; try assumption.
  all: simpl; intros e H; injection H as <-; reflexivity.
Qed.

Lemma rtf_block_wellTyped (result r' : ReadClipboard) :
  wellTyped result ->
  snd (readRTFBlock attempt n result) = Ok r' -> wellTyped r'.
Proof.
  intros (Ht & Hr & Hh & Hi & Hf). run_io.
  destruct (hasRTF n) as [[|] | e1]; [destruct (readRTF n) as [t | e2] | |];
    simpl; try destruct (negb (isSome (text result))); simpl;
    intros H; try discriminate; injection H as <-;
    repeat split; try assumption.
  all: simpl; intros e H; injection H as <-; reflexivity.
Qed.

Lemma html_block_wellTyped (result r' : ReadClipboard) :
  wellTyped result ->
  snd (readHTMLBlock attempt n result) = Ok r' -> wellTyped r'.
Proof.
  intros (Ht & Hr & Hh & Hi & Hf). run_io.
  destruct (hasHTML n) as [[|] | e1]; [destruct (readHTML n) as [t | e2] | |];
    simpl; try destruct (negb (isSome (text result))); simpl;
    intros H; try discriminate; injection H as <-;
    repeat split; try assumption.
  all: simpl; intros e H; injection H as <-; reflexivity.
Qed.

Lemma image_block_wellTyped (result r' : ReadClipboard) :
  wellTyped result ->
  snd (readImageBlock attempt n result) = Ok r' -> wellTyped r'.
Proof.
  intros (Ht & Hr & Hh & Hi & Hf). run_io.
  destruct (hasImage n) as [[|] | e1];
    [destruct (readImage n) as [img | e2]
    | destruct (invoke_has_clipboard_image_win n) as [[|] | e3];
      [destruct (invoke_read_clipboard_image_win n) as [[wi |] | e4];
       [destruct (0 <? win_size wi) | |] | |]
    |];
    simpl;
    try destruct (negb (isSome (text result)) && negb (isSome (html result))
                  && negb (isSome (rtf result)));
    simpl; intros H; try discriminate; injection H as <-;
    repeat split; try assumption;
    simpl; intros e H; injection H as <-; reflexivity.
Qed.

Lemma files_block_wellTyped (result r' : ReadClipboard) :
  wellTyped result ->
  snd (readFilesBlock attempt n result) = Ok r' -> wellTyped r'.
Proof.
  intros (Ht & Hr & Hh & Hi & Hf). run_io.
  destruct (hasFiles n) as [[|] | e1]; [destruct (readFiles n) as [t | e2] | |];
    simpl;
    try destruct (negb (isSome (text result)) && negb (isSome (html result))
                  && negb (isSome (rtf result))
                  && negb (isSome (image result)));
    simpl; intros H; try discriminate; injection H as <-;
    repeat split; try assumption.
  all: simpl; intros e H; injection H as <-; reflexivity.
Qed.

Lemma snd_bind_inv {A B} (m : IO A) (k : A -> IO B) (b : B) :
  snd (bind m k) = Ok b -> exists a, snd m = Ok a /\ snd (k a) = Ok b.
Proof.
  destruct m as [tr [a | e]]; simpl; [| discriminate].
  destruct (k a) as [tr' r] eqn:Hk. simpl. intros ->.
  exists a. split; [reflexivity |]. rewrite Hk. reflexivity.
Qed.

Lemma attempt_wellTyped (r : ReadClipboard) :
  snd (readAttempt attempt n) = Ok r -> wellTyped r.
Proof.
  rewrite readAttempt_from_text. intros H.
  apply snd_bind_inv in H. destruct H as (r1 & H1 & H).
  unfold readFromRTF in H.
  apply snd_bind_inv in H. destruct H as (r2 & H2 & H).
  unfold readFromHTML in H.
  apply snd_bind_inv in H. destruct H as (r3 & H3 & H).
  unfold readFromImage in H.
  apply snd_bind_inv in H. destruct H as (r4 & H4 & H5).
  apply (files_block_wellTyped r4 r); [| exact H5].
  apply (image_block_wellTyped r3 r4); [| exact H4].
  apply (html_block_wellTyped r2 r3); [| exact H3].
  apply (rtf_block_wellTyped r1 r2); [| exact H2].
  apply (text_block_wellTyped emptyResult r1); [| exact H1].
  apply emptyResult_wellTyped.
Qed.

End ReaderTypes.

(** Whatever the read returns carries, in every slot, the tag of the
    slot. *)
Lemma read_wellTyped (clip : Z -> Native) (r : ReadClipboard) :
  snd (readClipboardWithRetry clip) = Ok r -> wellTyped r.
Proof.
  rewrite retry_cases.
  destruct (snd (readAttempt 1 (clip 1))) as [r1 | e1] eqn:H1.
  - simpl. intros H. injection H as <-.
    apply (attempt_wellTyped 1 (clip 1)). exact H1.
  - destruct (snd (readAttempt 2 (clip 2))) as [r2 | e2] eqn:H2.
    + simpl. intros H. injection H as <-.
      apply (attempt_wellTyped 2 (clip 2)). exact H2.
    + destruct (snd (readAttempt 3 (clip 3))) as [r3 | e3] eqn:H3.
      * simpl. intros H. injection H as <-.
        apply (attempt_wellTyped 3 (clip 3)). exact H3.
      * simpl. discriminate.
Qed.

(* ===================================================================== *)
(** ** The pass: the two [try] blocks *)
(* ===================================================================== *)

Lemma pass_read_failed (env : Env) (w : World) (tr : Trace) (e : Err) :
  readClipboardWithRetry (clip env) = (tr, Throw e) ->
  processClipboard env w
  = (tr ++ [EvLogError (ReadFailedAfterRetries e);
            EvMessageWarning "clipboard.hints.clipboard_read_failed"],
     w, Ok tt).
Proof.
  intros H. unfold processClipboard, bindM, catchM, liftIO.
  rewrite H. simpl. rewrite !app_nil_r. reflexivity.
Qed.

Lemma pass_read_ok (env : Env) (w : World) (tr : Trace)
    (result : ReadClipboard) :
  readClipboardWithRetry (clip env) = (tr, Ok result) ->
  processClipboard env w
  = (tr ++ fst (fst (processResult env result w)),
     snd (fst (processResult env result w)),
     snd (processResult env result w)).
Proof.
  intros H. unfold processClipboard, bindM at 1, catchM at 1.
  unfold bindM at 1, liftIO. rewrite H. simpl.
  destruct (processResult env result w) as [[tr2 w2] res]. simpl.
  rewrite app_nil_r. reflexivity.
Qed.

Section EmitsOnly.
Variable kind : Event -> bool.

Lemma emitsOnly_ret {A} (a : A) : emitsOnly kind (retM a).
Proof. intros w. reflexivity. Qed.

Lemma emitsOnly_throw {A} (e : Err) : emitsOnly kind (@throwM A e).
Proof. intros w. reflexivity. Qed.

Lemma emitsOnly_await {A} (r : Res A) : emitsOnly kind (await r).
Proof. intros w. reflexivity. Qed.

Lemma emitsOnly_bind {A B} (m : M A) (k : A -> M B) :
  emitsOnly kind m -> (forall a, emitsOnly kind (k a)) ->
  emitsOnly kind (bindM m k).
Proof.
  intros Hm Hk w. unfold bindM. specialize (Hm w).
  destruct (m w) as [[tr w1] [a | e]]; simpl in *; [| exact Hm].
  specialize (Hk a w1). destruct (k a w1) as [[tr' w2] r]. simpl in *.
  rewrite forallb_app, Hm, Hk. reflexivity.
Qed.

Lemma emitsOnly_catch {A} (m : M A) (h : Err -> M A) :
  emitsOnly kind m -> (forall e, emitsOnly kind (h e)) ->
  emitsOnly kind (catchM m h).
Proof.
  intros Hm Hh w. unfold catchM. specialize (Hm w).
  destruct (m w) as [[tr w1] [a | e]]; simpl in *; [exact Hm |].
  specialize (Hh e w1). destruct (h e w1) as [[tr' w2] r]. simpl in *.
  rewrite forallb_app, Hm, Hh. reflexivity.
Qed.

Lemma emitsOnly_emit (e : Event) : kind e = true -> emitsOnly kind (emitM e).
Proof. intros H w. simpl. rewrite H. reflexivity. Qed.

Lemma emitsOnly_alloc (o : History) : emitsOnly kind (alloc o).
Proof. intros w. reflexivity. Qed.

Lemma emitsOnly_deref (r : Ref) : emitsOnly kind (deref r).
Proof. intros w. unfold deref. destruct (nth_error _ _); reflexivity. Qed.

Lemma emitsOnly_assign_value (r : Ref) (v : option Value) :
  emitsOnly kind (assign_value r v).
Proof. intros w. reflexivity. Qed.

Lemma emitsOnly_get_group : emitsOnly kind get_group.
Proof. intros w. reflexivity. Qed.

End EmitsOnly.

Lemma emitsOnly_cloneDeep (kind : Event -> bool) (r : Ref) :
  emitsOnly kind (cloneDeep r).
Proof.
  apply emitsOnly_bind; [apply emitsOnly_deref | apply emitsOnly_alloc].
Qed.

(** After the read, nothing is said about a failed read. *)
Lemma processResult_quiet (env : Env) (result : ReadClipboard) :
  emitsOnly notReadFailedWarning (processResult env result).
Proof.
  unfold processResult, processBody, upsert, message_warning.
  repeat first
    [ apply emitsOnly_ret | apply emitsOnly_throw | apply emitsOnly_await
    | apply emitsOnly_alloc | apply emitsOnly_deref
    | apply emitsOnly_cloneDeep
    | apply emitsOnly_assign_value | apply emitsOnly_get_group
    | apply emitsOnly_emit; reflexivity
    | apply emitsOnly_bind; [| intros ?]
    | apply emitsOnly_catch; [| intros ?]
    | match goal with
      | |- emitsOnly _ (if ?c then _ else _) => destruct c
      | |- emitsOnly _ (match ?x with _ => _ end) => destruct x
      end
    | (intros w0; unfold list_remove, list_unshift, selectHistory,
         insertHistory, updateHistory, bindM, deref; simpl;
       repeat match goal with
              | |- context [match ?x with _ => _ end] => destruct x; simpl
              end; reflexivity) ].
Qed.

Lemma forallb_filter_negb (kind : Event -> bool) (tr : Trace) :
  forallb (fun e => negb (kind e)) tr = true -> filter kind tr = [].
Proof.
  induction tr as [| e tr IH]; simpl; [reflexivity |].
  intros H. apply andb_prop in H. destruct H as [He Htr].
  destruct (kind e); [discriminate | apply IH; exact Htr].
Qed.

(** C4.  The read is attempted at most three times, 200 ms apart.  The
    first attempt that returns gives the result, and then the read shows
    the user no warning and the pass no read-failure warning.  When all
    three attempts throw, the last error is thrown to the caller, no
    snapshot is returned, and the pass logs it, shows exactly one
    read-failure warning and leaves the world as it was. *)
Theorem retry_policy (env : Env) (w : World) :
  let a1 := readAttempt 1 (clip env 1) in
  let a2 := readAttempt 2 (clip env 2) in
  let a3 := readAttempt 3 (clip env 3) in
  let read := readClipboardWithRetry (clip env) in
  let pass := processClipboard env w in
  (List.length (filter isAttemptStart (fst read)) <= Z.to_nat RETRY_COUNT)%nat
  /\ filter isDelay (fst read)
     = repeat (EvDelay RETRY_DELAY_MS)
         (List.length (filter isAttemptStart (fst read)) - 1)
  /\ (forall r, snd a1 = Ok r -> read = (fst a1, Ok r))
  /\ (forall e1 r, snd a1 = Throw e1 -> snd a2 = Ok r ->
        read = (fst a1 ++ [EvDelay RETRY_DELAY_MS] ++ fst a2, Ok r))
  /\ (forall e1 e2 r,
        snd a1 = Throw e1 -> snd a2 = Throw e2 -> snd a3 = Ok r ->
        read = (fst a1 ++ [EvDelay RETRY_DELAY_MS] ++ fst a2
                ++ [EvDelay RETRY_DELAY_MS] ++ fst a3, Ok r))
  /\ (forall r, snd read = Ok r ->
        filter isUserWarning (fst read) = []
        /\ filter isReadFailedWarning (fst (fst pass)) = [])
  /\ (forall e1 e2 e3,
        snd a1 = Throw e1 -> snd a2 = Throw e2 -> snd a3 = Throw e3 ->
        read = (fst a1 ++ [EvDelay RETRY_DELAY_MS] ++ fst a2
                ++ [EvDelay RETRY_DELAY_MS] ++ fst a3
                ++ [EvLogError (AllAttemptsFailed RETRY_COUNT (Some e3))],
                Throw e3)
        /\ pass
           = (fst read
              ++ [EvLogError (ReadFailedAfterRetries e3);
                  EvMessageWarning "clipboard.hints.clipboard_read_failed"],
              w, Ok tt)
        /\ filter isUserWarning (fst (fst pass))
           = [EvMessageWarning "clipboard.hints.clipboard_read_failed"]).
Proof.
  intros a1 a2 a3 read pass.
  assert (Hread := retry_cases (clip env)).
  fold read a1 a2 a3 in Hread.
  assert (S1 := attempt_starts_once 1 (clip env 1)).
  assert (S2 := attempt_starts_once 2 (clip env 2)).
  assert (S3 := attempt_starts_once 3 (clip env 3)).
  assert (W1 := attempt_no_warning 1 (clip env 1)).
  assert (W2 := attempt_no_warning 2 (clip env 2)).
  assert (W3 := attempt_no_warning 3 (clip env 3)).
  assert (D1 := attempt_no_delay 1 (clip env 1)).
  assert (D2 := attempt_no_delay 2 (clip env 2)).
  assert (D3 := attempt_no_delay 3 (clip env 3)).
  fold a1 in S1, W1, D1. fold a2 in S2, W2, D2. fold a3 in S3, W3, D3.
  clearbody a1 a2 a3.
  assert (Hwarn : filter isUserWarning (fst read) = []).
  { rewrite Hread.
    destruct (snd a1); [| destruct (snd a2); [| destruct (snd a3)]];
      cbn [fst]; repeat (rewrite filter_app; simpl);
      rewrite ?W1, ?W2, ?W3; reflexivity. }
  assert (Hstart : exists k,
            filter isAttemptStart (fst read) = repeat (EvCall CHasText) (S k)
            /\ (k < 3)%nat
            /\ filter isDelay (fst read) = repeat (EvDelay 200) k).
  { rewrite Hread.
    destruct (snd a1); [| destruct (snd a2); [| destruct (snd a3)]];
      cbn [fst]; repeat (rewrite filter_app; simpl);
      rewrite ?S1, ?S2, ?S3, ?D1, ?D2, ?D3;
      [exists 0%nat | exists 1%nat | exists 2%nat | exists 2%nat];
      repeat split; simpl; try lia. }
  destruct Hstart as (k & Hs & Hk & Hd).
  assert (Hsub : forall tr, filter isUserWarning tr = [] ->
                            filter isReadFailedWarning tr = []).
  { induction tr as [| e tr IH]; simpl; [reflexivity |].
    destruct e; simpl; try exact IH. intros; discriminate. }
  split; [| split; [| split; [| split; [| split; [| split]]]]].
  - rewrite Hs, repeat_length. change (Z.to_nat RETRY_COUNT) with 3%nat. lia.
  - rewrite Hs, Hd, repeat_length. simpl. rewrite Nat.sub_0_r. reflexivity.
  - intros r H1. rewrite Hread, H1. reflexivity.
  - intros e1 r H1 H2. rewrite Hread, H1, H2. reflexivity.
  - intros e1 e2 r H1 H2 H3. rewrite Hread, H1, H2, H3. reflexivity.
  - intros r Hr. split; [exact Hwarn |].
    assert (Hpair : readClipboardWithRetry (clip env) = (fst read, Ok r))
      by (rewrite <- Hr; apply surjective_pairing).
    unfold pass. rewrite (pass_read_ok env w (fst read) r Hpair).
    cbn [fst]. rewrite filter_app, (Hsub _ Hwarn). simpl.
    apply forallb_filter_negb. apply processResult_quiet.
  - intros e1 e2 e3 H1 H2 H3.
    assert (Hall : read
                   = (fst a1 ++ [EvDelay 200] ++ fst a2 ++ [EvDelay 200]
                      ++ fst a3
                      ++ [EvLogError (AllAttemptsFailed 3 (Some e3))],
                      Throw e3))
      by (rewrite Hread, H1, H2, H3; reflexivity).
    assert (Hpass : pass
                    = (fst read
                       ++ [EvLogError (ReadFailedAfterRetries e3);
                           EvMessageWarning
                             "clipboard.hints.clipboard_read_failed"],
                       w, Ok tt)).
    { unfold pass. apply pass_read_failed.
      rewrite (surjective_pairing (readClipboardWithRetry (clip env))).
      fold read. rewrite Hall. reflexivity. }
    split; [exact Hall | split; [exact Hpass |]].
    rewrite Hpass. cbn [fst]. rewrite filter_app, Hwarn. reflexivity.
Qed.

(* ===================================================================== *)
(** ** The pass: objects, and the upsert *)
(* ===================================================================== *)

Lemma nth_error_fresh (heap : Heap) (o : History) (rest : Heap) :
  nth_error (heap ++ o :: rest) (List.length heap) = Some o.
Proof.
  rewrite nth_error_app2 by lia. rewrite Nat.sub_diag. reflexivity.
Qed.

Lemma nth_error_old (heap more : Heap) (r : Ref) :
  (r < List.length heap)%nat ->
  nth_error (heap ++ more) r = nth_error heap r.
Proof. intros H. apply nth_error_app1. exact H. Qed.

Lemma update_nth_fresh (heap : Heap) (o : History) (rest : Heap)
    (f : History -> History) :
  update_nth (heap ++ o :: rest) (List.length heap) f = heap ++ f o :: rest.
Proof.
  induction heap as [| x heap IH]; simpl; [reflexivity |].
  rewrite IH. reflexivity.
Qed.

Lemma ClipType_eqb_eq (a b : ClipType) : ClipType_eqb a b = true <-> a = b.
Proof. destruct a, b; simpl; split; congruence. Qed.

(** The heap once [data] and [sqlData] are made and [sqlData.value] is
    set: the two objects follow the old ones. *)
Lemma upsert_objects (env : Env) (data sqlData : History) (type : ClipType)
    (w : World) :
  h_type data = Some type ->
  storageReady env data = Ok sqlData ->
  forall (A : Type) (k : Ref -> Ref -> M A),
    bindM (alloc data)
      (fun dataRef =>
         bindM (cloneDeep dataRef)
           (fun sqlRef =>
              bindM (if ClipType_eqb type Timage then
                       bindM (await (fullNameOf env (h_value data)))
                         (fun durable =>
                            assign_value sqlRef (Some (VStr durable)))
                     else retM tt)
                (fun _ =>
                   bindM (if ClipType_eqb type Tfiles then
                            assign_value sqlRef
                              (stringifyOf env (h_value data))
                          else retM tt)
                     (fun _ => k dataRef sqlRef)))) w
    = k (List.length (w_heap w)) (S (List.length (w_heap w)))
        (mkWorld (w_heap w ++ [data; sqlData]) (w_state w) (w_db w)).
Proof.
  intros Hty Hsql A k.
  unfold storageReady in Hsql. rewrite Hty in Hsql.
  unfold bindM at 1. unfold alloc at 1. cbn [w_heap w_state w_db].
  unfold bindM at 1. unfold cloneDeep, bindM at 1, deref.
  cbn [w_heap w_state w_db].
  rewrite nth_error_fresh. unfold alloc. cbn [w_heap w_state w_db].
  rewrite length_app. cbn [List.length]. rewrite Nat.add_1_r.
  assert (Hlen : S (List.length (w_heap w))
                 = List.length (w_heap w ++ [data]))
    by (rewrite length_app, Nat.add_1_r; reflexivity).
  destruct type; cbn [ClipType_eqb] in *.
  1-3: injection Hsql as <-; unfold bindM, retM; cbn;
       destruct (k _ _ _) as [[t2 w2] r2] eqn:Hk;
       rewrite <- app_assoc in Hk; cbn in Hk; rewrite Hk; reflexivity.
  - destruct (fullNameOf env (h_value data)) as [durable | e];
      [| discriminate].
    injection Hsql as <-.
    unfold bindM, retM, await, assign_value; cbn.
    rewrite Hlen at 2. rewrite update_nth_fresh.
    destruct (k _ _ _) as [[t2 w2] r2] eqn:Hk.
    rewrite <- app_assoc in Hk; cbn in Hk. rewrite Hk. reflexivity.
  - injection Hsql as <-.
    unfold bindM, retM, assign_value; cbn.
    rewrite Hlen at 2. rewrite update_nth_fresh.
    destruct (k _ _ _) as [[t2 w2] r2] eqn:Hk.
    rewrite <- app_assoc in Hk; cbn in Hk. rewrite Hk. reflexivity.
Qed.

Lemma nth_error_second (heap : Heap) (a b : History) :
  nth_error (heap ++ [a; b]) (S (List.length heap)) = Some b.
Proof.
  change (heap ++ [a; b]) with (heap ++ [a] ++ [b]).
  rewrite app_assoc.
  replace (S (List.length heap)) with (List.length (heap ++ [a]))
    by (rewrite length_app, Nat.add_1_r; reflexivity).
  apply nth_error_fresh.
Qed.

Section Upsert.
Variable env : Env.
Variables data sqlData : History.
Variable type : ClipType.
Variable w : World.
Hypothesis Htype : h_type data = Some type.
Hypothesis Hsql : storageReady env data = Ok sqlData.
Hypothesis Hselect : selectFault env = None.

(** A match: the list is reconciled if the group is visible, then the
    row's [createTime] is updated. *)
Lemma upsert_match (matched : History) (rest : list History) :
  updateFault env = None ->
  selected sqlData data w = matched :: rest ->
  upsert env data type w
  = if visible w data then
      ([EvSelect; EvListRemove (h_id matched);
        EvListUnshift (List.length (w_heap w ++ [data; sqlData]));
        EvUpdate (h_id matched) [SetCreateTime (h_createTime data)]],
       mkWorld ((w_heap w ++ [data; sqlData]) ++ [with_id data (h_id matched)])
         (mkState (st_group (w_state w))
            (List.length (w_heap w ++ [data; sqlData])
             :: filter (fun r => negb (id_is (w_heap w ++ [data; sqlData])
                                         (h_id matched) r))
                  (st_list (w_state w))))
         (refreshCreateTime (h_id matched) (h_createTime data) (w_db w)),
       Ok (Ok tt))
    else
      ([EvSelect;
        EvUpdate (h_id matched) [SetCreateTime (h_createTime data)]],
       mkWorld (w_heap w ++ [data; sqlData]) (w_state w)
         (refreshCreateTime (h_id matched) (h_createTime data) (w_db w)),
       Ok (Ok tt)).
Proof.
  intros Hupdate Hrows. unfold upsert. cbv zeta.
  etransitivity; [apply (upsert_objects env data sqlData type w Htype Hsql) |].
  unfold selected in Hrows.
  unfold bindM at 1. unfold deref at 1. cbn [w_heap w_state w_db].
  rewrite nth_error_second.
  unfold bindM at 1. unfold deref at 1. cbn [w_heap w_state w_db].
  rewrite nth_error_fresh.
  unfold bindM at 1. unfold selectHistory at 1. rewrite Hselect.
  cbn [w_heap w_state w_db]. rewrite Hrows.
  unfold bindM at 1. unfold get_group at 1. cbn [w_heap w_state w_db].
  unfold visible.
  destruct (String.eqb (st_group (w_state w)) "all"
            || String.eqb (st_group (w_state w)) (h_group data)).
  - unfold bindM, list_remove, list_unshift, deref, alloc, updateHistory.
    cbn [w_heap w_state w_db st_group st_list].
    rewrite nth_error_fresh. rewrite Hupdate. reflexivity.
  - unfold bindM, retM, updateHistory. cbn [w_heap w_state w_db].
    rewrite Hupdate. reflexivity.
Qed.

(** No match: the candidate enters the list if its group is visible,
    then [sqlData] is inserted. *)
Lemma upsert_insert :
  insertFault env = None ->
  selected sqlData data w = [] ->
  upsert env data type w
  = if visible w data then
      ([EvSelect; EvListUnshift (List.length (w_heap w)); EvInsert sqlData],
       mkWorld (w_heap w ++ [data; sqlData])
         (mkState (st_group (w_state w))
            (List.length (w_heap w) :: st_list (w_state w)))
         (w_db w ++ [sqlData]),
       Ok (Ok tt))
    else
      ([EvSelect; EvInsert sqlData],
       mkWorld (w_heap w ++ [data; sqlData]) (w_state w) (w_db w ++ [sqlData]),
       Ok (Ok tt)).
Proof.
  intros Hinsert Hrows. unfold upsert. cbv zeta.
  etransitivity; [apply (upsert_objects env data sqlData type w Htype Hsql) |].
  unfold selected in Hrows.
  unfold bindM at 1. unfold deref at 1. cbn [w_heap w_state w_db].
  rewrite nth_error_second.
  unfold bindM at 1. unfold deref at 1. cbn [w_heap w_state w_db].
  rewrite nth_error_fresh.
  unfold bindM at 1. unfold selectHistory at 1. rewrite Hselect.
  cbn [w_heap w_state w_db]. rewrite Hrows.
  unfold bindM at 1. unfold get_group at 1. cbn [w_heap w_state w_db].
  unfold visible.
  destruct (String.eqb (st_group (w_state w)) "all"
            || String.eqb (st_group (w_state w)) (h_group data)).
  - unfold bindM, retM, list_unshift, insertHistory, bindM, deref.
    cbn [w_heap w_state w_db st_group st_list].
    rewrite nth_error_second. rewrite Hinsert. reflexivity.
  - unfold bindM, retM, insertHistory, bindM, deref.
    cbn [w_heap w_state w_db st_group st_list].
    rewrite nth_error_second. rewrite Hinsert. reflexivity.
Qed.

End Upsert.

(* ===================================================================== *)
(** ** The pass: from the read to the upsert *)
(* ===================================================================== *)

Lemma typed_not_empty (env : Env) (result : ReadClipboard)
    (type : ClipType) :
  h_type (buildRecord env result) = Some type ->
  nothingRead result = false.
Proof.
  destruct result as [[t |] [r |] [h |] [i |] [f |]]; try reflexivity.
  unfold buildRecord, branchFiles, branchHTML, branchRTF, branchText,
    branchImage, branchPlainFallback. simpl.
  rewrite andb_false_r. simpl. discriminate.
Qed.

Lemma processResult_upsert (env : Env) (w : World) (result : ReadClipboard)
    (type : ClipType) :
  h_type (buildRecord env result) = Some type ->
  ClipType_eqb type Timage
  && count_is_zero (h_count (buildRecord env result)) = false ->
  forall t2 w2,
    upsert env (buildRecord env result) type w = (t2, w2, Ok (Ok tt)) ->
    processResult env result w = (t2, w2, Ok tt).
Proof.
  intros Hty Hguard t2 w2 Hup.
  unfold processResult, processBody.
  rewrite (typed_not_empty env result type Hty). cbv zeta.
  rewrite Hty, Hguard.
  unfold bindM at 1. unfold catchM. rewrite Hup.
  unfold retM. rewrite app_nil_r. reflexivity.
Qed.

Lemma pass_upsert_ok (env : Env) (w : World) (tr : Trace)
    (data sqlData : History) :
  reachesUpsert env tr data sqlData ->
  forall type t2 w2,
    h_type data = Some type ->
    upsert env data type w = (t2, w2, Ok (Ok tt)) ->
    processClipboard env w = (tr ++ t2, w2, Ok tt).
Proof.
  intros (result & type' & Hread & Hdata & Hty' & Hguard & _ & _).
  intros type t2 w2 Hty Hup.
  assert (type' = type) by congruence. subst type' data.
  rewrite (pass_read_ok env w tr result Hread).
  rewrite (processResult_upsert env w result type Hty Hguard t2 w2 Hup).
  reflexivity.
Qed.

(** The outcome of a pass that reaches the upsert and finds a match. *)
Lemma pass_match (env : Env) (w : World) (tr : Trace)
    (data sqlData matched : History) (rest : list History) :
  reachesUpsert env tr data sqlData ->
  updateFault env = None ->
  selected sqlData data w = matched :: rest ->
  processClipboard env w
  = if visible w data then
      (tr ++ [EvSelect; EvListRemove (h_id matched);
              EvListUnshift (List.length (w_heap w ++ [data; sqlData]));
              EvUpdate (h_id matched) [SetCreateTime (h_createTime data)]],
       mkWorld ((w_heap w ++ [data; sqlData])
                ++ [with_id data (h_id matched)])
         (mkState (st_group (w_state w))
            (List.length (w_heap w ++ [data; sqlData])
             :: filter (fun r => negb (id_is (w_heap w ++ [data; sqlData])
                                         (h_id matched) r))
                  (st_list (w_state w))))
         (refreshCreateTime (h_id matched) (h_createTime data) (w_db w)),
       Ok tt)
    else
      (tr ++ [EvSelect;
              EvUpdate (h_id matched) [SetCreateTime (h_createTime data)]],
       mkWorld (w_heap w ++ [data; sqlData]) (w_state w)
         (refreshCreateTime (h_id matched) (h_createTime data) (w_db w)),
       Ok tt).
Proof.
  intros Hreach Hupdate Hrows.
  destruct Hreach as (result & type & Hread & Hdata & Hty & Hguard
                      & Hsql & Hselect).
  assert (Hup := upsert_match env data sqlData type w Hty Hsql Hselect
                   matched rest Hupdate Hrows).
  destruct (visible w data);
    apply (pass_upsert_ok env w tr data sqlData
             (ex_intro _ result
                (ex_intro _ type
                   (conj Hread (conj Hdata (conj Hty (conj Hguard
                      (conj Hsql Hselect)))))))
             type _ _ Hty Hup).
Qed.

(** The outcome of a pass that reaches the upsert and finds no match. *)
Lemma pass_insert (env : Env) (w : World) (tr : Trace)
    (data sqlData : History) :
  reachesUpsert env tr data sqlData ->
  insertFault env = None ->
  selected sqlData data w = [] ->
  processClipboard env w
  = if visible w data then
      (tr ++ [EvSelect; EvListUnshift (List.length (w_heap w));
              EvInsert sqlData],
       mkWorld (w_heap w ++ [data; sqlData])
         (mkState (st_group (w_state w))
            (List.length (w_heap w) :: st_list (w_state w)))
         (w_db w ++ [sqlData]),
       Ok tt)
    else
      (tr ++ [EvSelect; EvInsert sqlData],
       mkWorld (w_heap w ++ [data; sqlData]) (w_state w)
         (w_db w ++ [sqlData]),
       Ok tt).
Proof.
  intros Hreach Hinsert Hrows.
  destruct Hreach as (result & type & Hread & Hdata & Hty & Hguard
                      & Hsql & Hselect).
  assert (Hup := upsert_insert env data sqlData type w Hty Hsql Hselect
                   Hinsert Hrows).
  destruct (visible w data);
    apply (pass_upsert_ok env w tr data sqlData
             (ex_intro _ result
                (ex_intro _ type
                   (conj Hread (conj Hdata (conj Hty (conj Hguard
                      (conj Hsql Hselect)))))))
             type _ _ Hty Hup).
Qed.

Lemma reached_trace (env : Env) (tr : Trace) (data sqlData : History) :
  reachesUpsert env tr data sqlData ->
  forallb isReaderEvent tr = true.
Proof.
  intros (result & type & Hread & _).
  assert (H := read_reader_events (clip env)).
  rewrite Hread in H. exact H.
Qed.

(** C5.  A pass whose candidate is an image of count 0 logs that it
    skips it and does nothing else: no query, no insert, no update, no
    change of the list, the world as it was. *)
Theorem zero_byte_image_dropped (env : Env) (w : World) (tr : Trace)
    (result : ReadClipboard) :
  readClipboardWithRetry (clip env) = (tr, Ok result) ->
  h_type (buildRecord env result) = Some Timage ->
  h_count (buildRecord env result) = Some 0 ->
  processClipboard env w = (tr ++ [EvLogWarn ZeroByteImage], w, Ok tt)
  /\ filter isStoreQuery (fst (fst (processClipboard env w))) = []
  /\ filter isStoreWrite (fst (fst (processClipboard env w))) = []
  /\ filter isListMutation (fst (fst (processClipboard env w))) = []
  /\ w_db (snd (fst (processClipboard env w))) = w_db w
  /\ w_state (snd (fst (processClipboard env w))) = w_state w.
Proof.
  intros Hread Hty Hcount.
  assert (Hpass : processClipboard env w
                  = (tr ++ [EvLogWarn ZeroByteImage], w, Ok tt)).
  { rewrite (pass_read_ok env w tr result Hread).
    unfold processResult, processBody.
    rewrite (typed_not_empty env result Timage Hty). cbv zeta.
    rewrite Hty, Hcount. reflexivity. }
  assert (Htr : forallb isReaderEvent tr = true).
  { assert (H := read_reader_events (clip env)).
    rewrite Hread in H. exact H. }
  rewrite Hpass. cbn [fst snd].
  rewrite !filter_app.
  rewrite (reader_filter isStoreQuery tr), (reader_filter isStoreWrite tr),
    (reader_filter isListMutation tr);
    try exact Htr; try (intros []; cbv; congruence).
  repeat split; reflexivity.
Qed.

(* ===================================================================== *)
(** ** The pass: the visible list and the store *)
(* ===================================================================== *)

Lemma map_filter_comm {A B} (f : A -> B) (p : B -> bool) (l : list A) :
  map f (filter (fun a => p (f a)) l) = filter p (map f l).
Proof.
  induction l as [| a l IH]; simpl; [reflexivity |].
  destruct (p (f a)); simpl; rewrite IH; reflexivity.
Qed.

Lemma filter_ext_Forall {A} (p q : A -> bool) (P : A -> Prop) (l : list A) :
  (forall a, P a -> p a = q a) -> Forall P l -> filter p l = filter q l.
Proof.
  intros Hpq H. induction H as [| a l Ha Hl IH]; simpl; [reflexivity |].
  rewrite (Hpq a Ha), IH. reflexivity.
Qed.

Lemma map_ext_Forall {A B} (f g : A -> B) (P : A -> Prop) (l : list A) :
  (forall a, P a -> f a = g a) -> Forall P l -> map f l = map g l.
Proof.
  intros Hfg H. induction H as [| a l Ha Hl IH]; simpl; [reflexivity |].
  rewrite (Hfg a Ha), IH. reflexivity.
Qed.

Lemma Forall_filter {A} (p : A -> bool) (P : A -> Prop) (l : list A) :
  Forall P l -> Forall P (filter p l).
Proof.
  intros H. induction H as [| a l Ha Hl IH]; simpl; [constructor |].
  destruct (p a); [constructor; assumption | assumption].
Qed.

(** Objects added to the heap leave the entries of the list as they
    read. *)
Lemma entries_grow (heap more : Heap) (st : State) (db db' : list History) :
  heap_ok (mkWorld heap st db) ->
  entries (mkWorld (heap ++ more) st db') = entries (mkWorld heap st db).
Proof.
  unfold heap_ok, entries. simpl. intros H.
  apply (map_ext_Forall _ _ _ _ (fun r Hr => nth_error_old heap more r Hr) H).
Qed.

(** The list after a reconcile, as its reader finds it. *)
Lemma entries_reconciled (w : World) (more : Heap) (entry : History)
    (id : string) (db' : list History) :
  heap_ok w ->
  entries
    (mkWorld ((w_heap w ++ more) ++ [entry])
       (mkState (st_group (w_state w))
          (List.length (w_heap w ++ more)
           :: filter (fun r => negb (id_is (w_heap w ++ more) id r))
                (st_list (w_state w))))
       db')
  = Some entry :: filter (fun e => negb (entryHasId id e)) (entries w).
Proof.
  intros Hok. unfold entries. cbn [w_heap w_state st_list map].
  rewrite nth_error_fresh. f_equal.
  unfold heap_ok in Hok.
  rewrite <- (map_filter_comm (nth_error (w_heap w))
                (fun e => negb (entryHasId id e))).
  rewrite (filter_ext_Forall
             (fun r => negb (id_is (w_heap w ++ more) id r))
             (fun r => negb (entryHasId id (nth_error (w_heap w) r)))
             _ _
             (fun r Hr =>
                f_equal (fun o => negb (entryHasId id o))
                  (nth_error_old (w_heap w) more r Hr))
             Hok).
  apply (map_ext_Forall _ _ (fun r => (r < List.length (w_heap w))%nat)).
  - intros r Hr. rewrite <- app_assoc. apply nth_error_old. exact Hr.
  - apply Forall_filter. exact Hok.
Qed.

Lemma refresh_sameButCreateTime (id t : string) (db : list History) :
  Forall2 (fun row row' =>
             sameButCreateTime row row'
             /\ (h_id row <> id -> row' = row)
             /\ (h_id row = id -> h_createTime row' = t))
    db (refreshCreateTime id t db).
Proof.
  induction db as [| row db IH]; simpl; constructor; [| exact IH].
  destruct (String.eqb_spec (h_id row) id) as [Heq | Hne].
  - split; [repeat split |]. split; [congruence | reflexivity].
  - split; [repeat split |]. split; [reflexivity | congruence].
Qed.

Lemma reader_existsb (kind : Event -> bool) (tr : Trace) :
  (forall e, isReaderEvent e = true -> kind e = false) ->
  forallb isReaderEvent tr = true ->
  existsb kind tr = false.
Proof.
  intros Hk. induction tr as [| e tr IH]; simpl; [reflexivity |].
  intros H. apply andb_prop in H. destruct H as [He Htr].
  rewrite (Hk e He). apply IH. exact Htr.
Qed.

(** The passes above keep every entry of the list an object. *)
Lemma upsert_keeps_heap_ok (env : Env) (w : World) (tr : Trace)
    (data sqlData : History) :
  reachesUpsert env tr data sqlData ->
  insertFault env = None ->
  updateFault env = None ->
  heap_ok w ->
  heap_ok (snd (fst (processClipboard env w))).
Proof.
  intros Hreach Hinsert Hupdate Hok.
  assert (Hgrow : forall more,
            Forall (fun r => (r < List.length (w_heap w ++ more))%nat)
              (st_list (w_state w))).
  { intros more. unfold heap_ok in Hok.
    eapply Forall_impl; [| exact Hok].
    intros r Hr. cbv beta in *. rewrite length_app. lia. }
  destruct (selected sqlData data w) as [| matched rest] eqn:Hrows.
  - rewrite (pass_insert env w tr data sqlData Hreach Hinsert Hrows).
    destruct (visible w data); unfold heap_ok; cbn [fst snd w_heap w_state
                                                    st_list].
    + constructor; [rewrite length_app; simpl; lia | apply Hgrow].
    + apply Hgrow.
  - rewrite (pass_match env w tr data sqlData matched rest
               Hreach Hupdate Hrows).
    destruct (visible w data); unfold heap_ok; cbn [fst snd w_heap w_state
                                                    st_list].
    + constructor; [rewrite !length_app; simpl; lia |].
      apply Forall_filter. rewrite <- app_assoc. apply Hgrow.
    + apply Hgrow.
Qed.

(** C6.  When the query finds a match, the one store mutation of the
    pass is [updateHistory(id, { createTime })] with the matched row's
    id: in the store, the rows with that id get the capture's createTime
    and nothing else changes (id, type, value, subtype, favorite and the
    rest stay; rows with another id stay whole).  When the candidate's
    group is visible, the entries with the matched id leave the list and
    a new entry, the candidate with the matched id, is put in front:
    its id is the existing record's id, and every other field of it,
    value and createTime included, is the candidate's. *)
Theorem match_refreshes_createTime (env : Env) (w : World) (tr : Trace)
    (data sqlData matched : History) (rest : list History) :
  reachesUpsert env tr data sqlData ->
  updateFault env = None ->
  heap_ok w ->
  selected sqlData data w = matched :: rest ->
  let pass := processClipboard env w in
  let w' := snd (fst pass) in
  filter isStoreWrite (fst (fst pass))
  = [EvUpdate (h_id matched) [SetCreateTime (h_createTime data)]]
  /\ w_db w'
     = refreshCreateTime (h_id matched) (h_createTime data) (w_db w)
  /\ Forall2 (fun row row' =>
                sameButCreateTime row row'
                /\ (h_id row <> h_id matched -> row' = row)
                /\ (h_id row = h_id matched ->
                    h_createTime row' = h_createTime data))
       (w_db w) (w_db w')
  /\ (visible w data = true ->
      entries w'
      = Some (with_id data (h_id matched))
        :: filter (fun e => negb (entryHasId (h_id matched) e)) (entries w))
  /\ (visible w data = false -> entries w' = entries w)
  /\ (visible w data = true ->
      exists entry,
        hd_error (entries w') = Some (Some entry)
        /\ h_id entry = h_id matched
        /\ sameButId entry data).
Proof.
  intros Hreach Hupdate Hok Hrows pass w'.
  assert (Htr := reached_trace env tr data sqlData Hreach).
  assert (Hpass := pass_match env w tr data sqlData matched rest
                     Hreach Hupdate Hrows).
  fold pass in Hpass. unfold w'. clearbody pass. subst pass.
  assert (Hno : filter isStoreWrite tr = []).
  { apply reader_filter; [| exact Htr]. intros []; cbv; congruence. }
  destruct (visible w data) eqn:Hvis; cbn [fst snd w_db].
  - rewrite filter_app, Hno.
    split; [reflexivity |]. split; [reflexivity |].
    split; [apply refresh_sameButCreateTime |].
    split; [| split; [discriminate |]].
    + intros _. apply entries_reconciled. exact Hok.
    + intros _. exists (with_id data (h_id matched)).
      rewrite (entries_reconciled w [data; sqlData] _ _ _ Hok).
      split; [reflexivity |]. split; [reflexivity |]. repeat split.
  - rewrite filter_app, Hno.
    split; [reflexivity |]. split; [reflexivity |].
    split; [apply refresh_sameButCreateTime |].
    split; [discriminate |]. split; [| discriminate].
    intros _. destruct w as [heap st db].
    apply (entries_grow heap [data; sqlData] st db). exact Hok.
Qed.

(** C9.  When the active filter is neither ["all"] nor the candidate's
    group, the pass leaves the visible list as it was (the same entries,
    reading the same), and still writes to the store: it inserts the
    storage-ready record when there is no match, and refreshes the
    matched row's createTime when there is one. *)
Theorem hidden_group_still_persists (env : Env) (w : World) (tr : Trace)
    (data sqlData : History) :
  reachesUpsert env tr data sqlData ->
  insertFault env = None ->
  updateFault env = None ->
  heap_ok w ->
  st_group (w_state w) <> "all" ->
  st_group (w_state w) <> h_group data ->
  let pass := processClipboard env w in
  let w' := snd (fst pass) in
  w_state w' = w_state w
  /\ entries w' = entries w
  /\ filter isListMutation (fst (fst pass)) = []
  /\ match selected sqlData data w with
     | [] =>
         filter isStoreWrite (fst (fst pass)) = [EvInsert sqlData]
         /\ w_db w' = w_db w ++ [sqlData]
     | matched :: _ =>
         filter isStoreWrite (fst (fst pass))
         = [EvUpdate (h_id matched) [SetCreateTime (h_createTime data)]]
         /\ w_db w'
            = refreshCreateTime (h_id matched) (h_createTime data) (w_db w)
     end.
Proof.
  intros Hreach Hinsert Hupdate Hok Hall Hgroup pass w'.
  assert (Hvis : visible w data = false).
  { unfold visible.
    destruct (String.eqb_spec (st_group (w_state w)) "all");
      [contradiction |].
    destruct (String.eqb_spec (st_group (w_state w)) (h_group data));
      [contradiction | reflexivity]. }
  assert (Htr := reached_trace env tr data sqlData Hreach).
  assert (Hw : filter isStoreWrite tr = []).
  { apply reader_filter; [| exact Htr]. intros []; cbv; congruence. }
  assert (Hl : filter isListMutation tr = []).
  { apply reader_filter; [| exact Htr]. intros []; cbv; congruence. }
  destruct (selected sqlData data w) as [| matched rest] eqn:Hrows.
  - assert (Hpass := pass_insert env w tr data sqlData Hreach Hinsert Hrows).
    rewrite Hvis in Hpass. fold pass in Hpass. unfold w'.
    clearbody pass. subst pass. cbn [fst snd w_db w_state].
    rewrite !filter_app, Hw, Hl.
    repeat split; try reflexivity.
    destruct w as [heap st db].
    apply (entries_grow heap [data; sqlData] st db). exact Hok.
  - assert (Hpass := pass_match env w tr data sqlData matched rest
                       Hreach Hupdate Hrows).
    rewrite Hvis in Hpass. fold pass in Hpass. unfold w'.
    clearbody pass. subst pass. cbn [fst snd w_db w_state].
    rewrite !filter_app, Hw, Hl.
    repeat split; try reflexivity.
    destruct w as [heap st db].
    apply (entries_grow heap [data; sqlData] st db). exact Hok.
Qed.

Lemma happensBefore_after_read (first second : Event -> bool)
    (tr rest : Trace) :
  existsb first tr = false ->
  existsb second tr = false ->
  happensBefore first second (tr ++ rest) = happensBefore first second rest.
Proof.
  intros Hf Hs. unfold happensBefore.
  rewrite !existsb_app, Hf, Hs. simpl.
  f_equal. f_equal. f_equal.
  induction tr as [| e tr IH]; simpl in *; [reflexivity |].
  apply orb_false_elim in Hs. destruct Hs as [He Hs].
  apply orb_false_elim in Hf. destruct Hf as [_ Hf].
  rewrite He. apply IH; assumption.
Qed.

(** C7, as the code has it.  In a pass whose candidate's group is
    visible, the list is changed before the store is written, match or
    no match: with no match the candidate is put in front of the list
    before [insertHistory]; with a match the entries with the matched id
    are removed, then the new entry is put in front, and only then comes
    [updateHistory]. *)
Theorem list_before_store (env : Env) (w : World) (tr : Trace)
    (data sqlData : History) :
  reachesUpsert env tr data sqlData ->
  insertFault env = None ->
  updateFault env = None ->
  visible w data = true ->
  let trace := fst (fst (processClipboard env w)) in
  match selected sqlData data w with
  | [] => happensBefore isListUnshift isStoreInsert trace = true
  | _ :: _ =>
      happensBefore isListRemove isListUnshift trace = true
      /\ happensBefore isListRemove isStoreUpdate trace = true
      /\ happensBefore isListUnshift isStoreUpdate trace = true
  end.
Proof.
  intros Hreach Hinsert Hupdate Hvis trace.
  assert (Htr := reached_trace env tr data sqlData Hreach).
  assert (Hex : forall kind,
            (forall e, isReaderEvent e = true -> kind e = false) ->
            existsb kind tr = false)
    by (intros kind Hk; apply reader_existsb; [exact Hk | exact Htr]).
  assert (H1 := Hex isListUnshift ltac:(intros []; cbv; congruence)).
  assert (H2 := Hex isListRemove ltac:(intros []; cbv; congruence)).
  assert (H3 := Hex isStoreInsert ltac:(intros []; cbv; congruence)).
  assert (H4 := Hex isStoreUpdate ltac:(intros []; cbv; congruence)).
  destruct (selected sqlData data w) as [| matched rest] eqn:Hrows.
  - assert (Hpass := pass_insert env w tr data sqlData Hreach Hinsert Hrows).
    rewrite Hvis in Hpass. unfold trace. rewrite Hpass. cbn [fst].
    rewrite happensBefore_after_read by assumption. reflexivity.
  - assert (Hpass := pass_match env w tr data sqlData matched rest
                       Hreach Hupdate Hrows).
    rewrite Hvis in Hpass. unfold trace. rewrite Hpass. cbn [fst].
    rewrite !happensBefore_after_read by assumption.
    repeat split; reflexivity.
Qed.

(* ===================================================================== *)
(** ** The classifier *)
(* ===================================================================== *)

(** Which branch of the chain fills [data] in, for a well-typed
    snapshot. *)
Lemma classify_cases (env : Env) (result : ReadClipboard) :
  wellTyped result ->
  let init := initialData env result in
  let data := buildRecord env result in
  (exists f, files result = Some f
     /\ data = with_search (with_group (assignFiles init f) "files")
                 (Some (String.concat " " (f_value f)))
     /\ h_type data = Some Tfiles)
  \/ (files result = None
      /\ exists h, html result = Some h /\ copyPlain env = false
         /\ data = assignStr init h /\ h_type data = Some Thtml)
  \/ (files result = None /\ html result = None
      /\ exists r, rtf result = Some r /\ copyPlain env = false
         /\ data = assignStr init r /\ h_type data = Some Trtf)
  \/ (files result = None
      /\ (html result = None \/ copyPlain env = true)
      /\ (rtf result = None \/ copyPlain env = true)
      /\ exists t, text result = Some t
         /\ data = with_subtype (assignStr init t)
                     (getClipboardTextSubtype env (s_value t))
         /\ h_type data = Some Ttext)
  \/ (files result = None
      /\ (html result = None \/ copyPlain env = true)
      /\ (rtf result = None \/ copyPlain env = true)
      /\ text result = None
      /\ exists i, image result = Some i
         /\ data = with_group (assignImage init i) "image"
         /\ h_type data = Some Timage)
  \/ (files result = None /\ text result = None /\ image result = None
      /\ copyPlain env = true
      /\ (html result <> None \/ rtf result <> None)
      /\ data = branchPlainFallback env result init
      /\ h_type data = Some Ttext)
  \/ (files result = None /\ text result = None /\ image result = None
      /\ html result = None /\ rtf result = None
      /\ data = init /\ h_type data = None).
Proof.
  intros (Ht & Hr & Hh & Hi & Hf) init data.
  unfold data, buildRecord, branchFiles. fold init.
  destruct (files result) as [f |] eqn:Ef.
  { left. exists f. repeat split. simpl. rewrite (Hf f eq_refl). reflexivity. }
  right. unfold branchHTML.
  destruct (copyPlain env) eqn:Ecp; simpl.
  - (* copy as plain text is on *)
    assert (Hrtf : branchRTF env result init = branchText env result init).
    { unfold branchRTF. rewrite Ecp. destruct (rtf result); reflexivity. }
    assert (Hhtml : match html result with
                    | Some _ => branchRTF env result init
                    | None => branchRTF env result init
                    end = branchText env result init).
    { destruct (html result); exact Hrtf. }
    rewrite Hhtml. unfold branchText.
    destruct (text result) as [t |] eqn:Et.
    { right. right. left. repeat split; auto.
      exists t. repeat split. simpl. rewrite (Ht t eq_refl). reflexivity. }
    unfold branchImage.
    destruct (image result) as [i |] eqn:Ei.
    { right. right. right. left. repeat split; auto.
      exists i. repeat split. simpl. rewrite (Hi i eq_refl). reflexivity. }
    right. right. right. right.
    destruct (html result) as [h |] eqn:Eh.
    { left. repeat split; auto.
      - left. discriminate.
      - unfold branchPlainFallback. rewrite Ecp, Eh. reflexivity. }
    destruct (rtf result) as [r |] eqn:Er.
    { left. repeat split; auto.
      - right. discriminate.
      - unfold branchPlainFallback. rewrite Ecp, Er, Eh. reflexivity. }
    right. repeat split; auto;
      unfold branchPlainFallback; rewrite Ecp, Eh, Er; reflexivity.
  - (* copy as plain text is off *)
    destruct (html result) as [h |] eqn:Eh.
    { left. split; [reflexivity |]. exists h. repeat split.
      simpl. rewrite (Hh h eq_refl). reflexivity. }
    right. unfold branchRTF. rewrite Ecp. simpl.
    destruct (rtf result) as [r |] eqn:Er.
    { left. repeat split. exists r. repeat split.
      simpl. rewrite (Hr r eq_refl). reflexivity. }
    right. unfold branchText.
    destruct (text result) as [t |] eqn:Et.
    { left. repeat split; auto.
      exists t. repeat split. simpl. rewrite (Ht t eq_refl). reflexivity. }
    right. unfold branchImage.
    destruct (image result) as [i |] eqn:Ei.
    { left. repeat split; auto.
      exists i. repeat split. simpl. rewrite (Hi i eq_refl). reflexivity. }
    right. right. repeat split; auto;
      unfold branchPlainFallback; rewrite Ecp; reflexivity.
Qed.

Lemma fallbackValue_firstNonEmpty (data : History) (result : ReadClipboard) :
  fallbackValue data result
  = firstNonEmpty [h_search data; option_map s_value (html result);
                   option_map s_value (rtf result)].
Proof.
  unfold fallbackValue.
  destruct (h_search data) as [[| c s] |];
    destruct (option_map s_value (html result)) as [[| c1 s1] |];
    destruct (option_map s_value (rtf result)) as [[| c2 s2] |];
    reflexivity.
Qed.

Lemma nothingRead_all_none (result : ReadClipboard) :
  text result = None -> rtf result = None -> html result = None ->
  image result = None -> files result = None ->
  nothingRead result = true.
Proof.
  intros Ht Hr Hh Hi Hf. unfold nothingRead, valuesIsEmpty.
  rewrite Ht, Hr, Hh, Hi, Hf. reflexivity.
Qed.

(** C2.  The classifier takes the first branch that applies, in this
    order: files; HTML when copy-as-plain-text is off; rich text when it
    is off; text, with its subtype; image; and, when the preference is on
    and HTML or rich text is there, a text record made of the first
    non-empty of search, HTML payload, rich-text payload, with that
    string's length as count and its subtype.  When no branch applies no
    record is made, and the pass ends without touching anything. *)
Theorem classifier_precedence (env : Env) (result : ReadClipboard) :
  wellTyped result ->
  let init := initialData env result in
  let data := buildRecord env result in
  (forall f, files result = Some f ->
     h_type data = Some Tfiles
     /\ h_value data = Some (VPaths (f_value f))
     /\ h_group data = "files"
     /\ h_search data = Some (String.concat " " (f_value f)))
  /\ (files result = None ->
      forall h, html result = Some h -> copyPlain env = false ->
        h_type data = Some Thtml
        /\ h_value data = Some (VStr (s_value h)))
  /\ (files result = None ->
      (html result = None \/ copyPlain env = true) ->
      forall r, rtf result = Some r -> copyPlain env = false ->
        h_type data = Some Trtf
        /\ h_value data = Some (VStr (s_value r)))
  /\ (files result = None ->
      (html result = None \/ copyPlain env = true) ->
      (rtf result = None \/ copyPlain env = true) ->
      forall t, text result = Some t ->
        h_type data = Some Ttext
        /\ h_value data = Some (VStr (s_value t))
        /\ h_subtype data = getClipboardTextSubtype env (s_value t))
  /\ (files result = None ->
      (html result = None \/ copyPlain env = true) ->
      (rtf result = None \/ copyPlain env = true) ->
      text result = None ->
      forall i, image result = Some i ->
        h_type data = Some Timage
        /\ h_value data = Some (VStr (i_value i))
        /\ h_group data = "image")
  /\ (files result = None -> text result = None -> image result = None ->
      copyPlain env = true ->
      (html result <> None \/ rtf result <> None) ->
      let projection :=
        firstNonEmpty [h_search init; option_map s_value (html result);
                       option_map s_value (rtf result)] in
      h_type data = Some Ttext
      /\ h_value data = Some (VStr projection)
      /\ h_count data = Some (strlen projection)
      /\ h_subtype data = getClipboardTextSubtype env projection)
  /\ (files result = None ->
      (html result = None \/ copyPlain env = true) ->
      (rtf result = None \/ copyPlain env = true) ->
      text result = None -> image result = None ->
      ~ (copyPlain env = true
         /\ (html result <> None \/ rtf result <> None)) ->
      h_type data = None
      /\ forall w,
           processResult env result w = ([], w, Ok tt)
           /\ forall tr,
                readClipboardWithRetry (clip env) = (tr, Ok result) ->
                processClipboard env w = (tr, w, Ok tt)).
Proof.
  intros (Ht & Hr & Hh & Hi & Hf) init data.
  assert (Hrtf_on : copyPlain env = true ->
            branchRTF env result init = branchText env result init).
  { intros E. unfold branchRTF. rewrite E. destruct (rtf result); reflexivity. }
  assert (Hhtml_on : copyPlain env = true ->
            branchHTML env result init = branchText env result init).
  { intros E. unfold branchHTML. rewrite E. simpl.
    destruct (html result); apply Hrtf_on; exact E. }
  assert (Hskip : (html result = None \/ copyPlain env = true) ->
                  (rtf result = None \/ copyPlain env = true) ->
                  branchHTML env result init = branchText env result init).
  { intros [Eh | E] Hr'; [| apply Hhtml_on; exact E].
    unfold branchHTML. rewrite Eh.
    destruct Hr' as [Er | E]; [| apply Hrtf_on; exact E].
    unfold branchRTF. rewrite Er. reflexivity. }
  unfold data, buildRecord, branchFiles. fold init.
  split; [| split; [| split; [| split; [| split; [| split]]]]].
  - intros f Ef. rewrite Ef. simpl. rewrite (Hf f Ef). repeat split.
  - intros Ef h Eh Ecp. rewrite Ef. unfold branchHTML. rewrite Eh, Ecp.
    simpl. rewrite (Hh h Eh). split; reflexivity.
  - intros Ef [Eh | Ecp'] r Er Ecp; [| congruence].
    rewrite Ef. unfold branchHTML, branchRTF. rewrite Eh, Er, Ecp.
    simpl. rewrite (Hr r Er). split; reflexivity.
  - intros Ef Hh' Hr' t Et. rewrite Ef, (Hskip Hh' Hr').
    unfold branchText. rewrite Et. simpl. rewrite (Ht t Et).
    repeat split.
  - intros Ef Hh' Hr' Et i Ei. rewrite Ef, (Hskip Hh' Hr').
    unfold branchText, branchImage. rewrite Et, Ei. simpl.
    rewrite (Hi i Ei). repeat split.
  - intros Ef Et Ei Ecp Hany. cbv zeta.
    rewrite Ef, (Hhtml_on Ecp).
    unfold branchText, branchImage, branchPlainFallback.
    rewrite Et, Ei, Ecp.
    assert (Hsome : isSome (html result) || isSome (rtf result) = true).
    { destruct Hany as [H | H];
        [destruct (html result) | destruct (rtf result)];
        try congruence; simpl; auto using orb_true_r. }
    rewrite Hsome. simpl.
    rewrite fallbackValue_firstNonEmpty. repeat split.
  - intros Ef Hh' Hr' Et Ei Hno.
    assert (Eh : html result = None).
    { destruct Hh' as [E | E]; [exact E |].
      destruct (html result) eqn:Eh; [| reflexivity].
      exfalso. apply Hno. split; [exact E | left; discriminate]. }
    assert (Er : rtf result = None).
    { destruct Hr' as [E | E]; [exact E |].
      destruct (rtf result) eqn:Er; [| reflexivity].
      exfalso. apply Hno. split; [exact E | right; discriminate]. }
    split.
    + rewrite Ef, (Hskip Hh' Hr').
      unfold branchText, branchImage, branchPlainFallback.
      rewrite Et, Ei, Eh, Er. simpl. rewrite andb_false_r. reflexivity.
    + intros w.
      assert (Hres : processResult env result w = ([], w, Ok tt)).
      { unfold processResult, processBody.
        rewrite (nothingRead_all_none result Et Er Eh Ei Ef). reflexivity. }
      split; [exact Hres |].
      intros tr Hread. rewrite (pass_read_ok env w tr result Hread), Hres.
      simpl. rewrite app_nil_r. reflexivity.
Qed.

(* ===================================================================== *)
(** ** The dedup query *)
(* ===================================================================== *)

Lemma Value_eqb_eq (a b : Value) : Value_eqb a b = true <-> a = b.
Proof.
  destruct a as [x | x], b as [y | y]; simpl.
  - rewrite String.eqb_eq. split; congruence.
  - split; congruence.
  - split; congruence.
  - destruct (list_eq_dec string_dec x y); split; congruence.
Qed.

Lemma sql_eq_some {A} (eqb : A -> A -> bool) (column : option A) (v : A) :
  (forall a b, eqb a b = true <-> a = b) ->
  sql_eq eqb column (Some v) = true <-> column = Some v.
Proof.
  intros Heq. destruct column as [a |]; simpl.
  - rewrite Heq. split; congruence.
  - split; congruence.
Qed.

Lemma storageReady_type (env : Env) (data sqlData : History) :
  storageReady env data = Ok sqlData -> h_type sqlData = h_type data.
Proof.
  unfold storageReady.
  destruct (h_type data) as [[] |] eqn:E; intros H;
    try (injection H as <-; simpl; congruence).
  destruct (fullNameOf env (h_value data)); [| discriminate].
  injection H as <-. simpl. congruence.
Qed.

(** C1.  For an image candidate the query selects a stored row exactly
    when the row is an image and either its value is the candidate's
    storage-ready value or its width, height and count are the
    candidate's.  For a text, rich-text, HTML or files candidate it
    selects a row exactly when the row has the candidate's type and its
    storage-ready value.  The rows the pass gets are the stored rows the
    query selects. *)
Theorem dedup_query (env : Env) (result : ReadClipboard)
    (sqlData row : History) :
  wellTyped result ->
  storageReady env (buildRecord env result) = Ok sqlData ->
  let data := buildRecord env result in
  (h_type data = Some Timage ->
     (dedupWhere sqlData data row = true
      <-> h_type row = Some Timage
          /\ (h_value row = h_value sqlData
              \/ (h_width row = h_width data
                  /\ h_height row = h_height data
                  /\ h_count row = h_count data))))
  /\ (forall type,
        h_type data = Some type -> type <> Timage ->
        (dedupWhere sqlData data row = true
         <-> h_type row = Some type /\ h_value row = h_value sqlData))
  /\ (forall w,
        In row (selected sqlData data w)
        <-> In row (w_db w) /\ dedupWhere sqlData data row = true).
Proof.
  intros Hwt Hsql data.
  assert (Hty := storageReady_type env _ _ Hsql). fold data in Hty, Hsql.
  assert (Hcases := classify_cases env result Hwt).
  cbv zeta in Hcases. fold data in Hcases.
  split; [| split].
  - intros Himg.
    destruct Hcases as
      [ (f & _ & _ & T) | [ (_ & h & _ & _ & _ & T)
      | [ (_ & _ & r & _ & _ & _ & T) | [ (_ & _ & _ & t & _ & _ & T)
      | [ (_ & _ & _ & _ & i & Ei & Hd & _)
      | [ (_ & _ & _ & _ & _ & _ & T) | (_ & _ & _ & _ & _ & _ & T) ]]]]]];
      try congruence.
    unfold storageReady in Hsql. rewrite Himg in Hsql.
    assert (Hv : h_value data = Some (VStr (i_value i)))
      by (rewrite Hd; reflexivity).
    rewrite Hv in Hsql. simpl in Hsql.
    destruct (fullName env (i_value i)) as [durable |]; [| discriminate].
    injection Hsql as <-.
    unfold dedupWhere. cbn [with_value h_type h_value]. rewrite Himg.
    assert (Hw : h_width data = Some (i_width i)) by (rewrite Hd; reflexivity).
    assert (Hh : h_height data = Some (i_height i))
      by (rewrite Hd; reflexivity).
    assert (Hc : h_count data = Some (i_count i)) by (rewrite Hd; reflexivity).
    rewrite Hw, Hh, Hc.
    rewrite andb_true_iff, orb_true_iff, !andb_true_iff.
    rewrite (sql_eq_some ClipType_eqb _ _ ClipType_eqb_eq).
    rewrite (sql_eq_some Value_eqb _ _ Value_eqb_eq).
    rewrite !(sql_eq_some Z.eqb _ _ Z.eqb_eq).
    tauto.
  - intros type Htype Hne.
    assert (Hval : exists v, h_value sqlData = Some v).
    { unfold storageReady in Hsql. rewrite Htype in Hsql.
      destruct Hcases as
        [ (f & _ & Hd & _) | [ (_ & h & _ & _ & Hd & _)
        | [ (_ & _ & r & _ & _ & Hd & _) | [ (_ & _ & _ & t & _ & Hd & _)
        | [ (_ & _ & _ & _ & i & _ & _ & T)
        | [ (_ & _ & _ & _ & _ & Hd & _) | (_ & _ & _ & _ & _ & _ & T) ]]]]]];
        try congruence.
      all: assert (Hv : exists v, h_value data = Some v)
             by (rewrite Hd; unfold branchPlainFallback;
                 try destruct (copyPlain env
                               && (isSome (html result)
                                   || isSome (rtf result))) eqn:E;
                 simpl; eauto;
                 exfalso; rewrite Hd in Htype;
                 unfold branchPlainFallback in Htype; rewrite E in Htype;
                 discriminate).
      all: destruct Hv as (v & Hv); rewrite Hv in Hsql;
           destruct type; try congruence;
           injection Hsql as <-; simpl; rewrite ?Hv; simpl; eauto. }
    destruct Hval as (v & Hv).
    unfold dedupWhere. rewrite Hty, Htype, Hv.
    assert (Hgen : sql_eq ClipType_eqb (h_type row) (Some type)
                   && sql_eq Value_eqb (h_value row) (Some v) = true
                   <-> h_type row = Some type /\ h_value row = Some v).
    { rewrite andb_true_iff.
      rewrite (sql_eq_some ClipType_eqb _ _ ClipType_eqb_eq).
      rewrite (sql_eq_some Value_eqb _ _ Value_eqb_eq). tauto. }
    destruct type; try congruence; exact Hgen.
  - intros w. unfold selected. apply filter_In.
Qed.

(* ===================================================================== *)
(** ** The candidate and its storage-ready clone *)
(* ===================================================================== *)

Lemma storageReady_sameButValue (env : Env) (data sqlData : History) :
  storageReady env data = Ok sqlData -> sameButValue data sqlData.
Proof.
  unfold storageReady.
  destruct (h_type data) as [[] |]; intros H;
    try (injection H as <-; repeat split).
  destruct (fullNameOf env (h_value data)); [| discriminate].
  injection H as <-. repeat split.
Qed.

Lemma refresh_createTime_of_id (id t : string) (db : list History) :
  Forall (fun row' => h_id row' = id -> h_createTime row' = t)
    (refreshCreateTime id t db).
Proof.
  induction db as [| row db IH]; simpl; constructor; [| exact IH].
  destruct (String.eqb_spec (h_id row) id) as [Heq | Hne].
  - intros _. reflexivity.
  - intros H. contradiction.
Qed.

(** C10, as the code has it.  The storage-ready projection is made on a
    clone: [sqlData] differs from the candidate in [value] at most (the
    durable path for an image, the JSON text for files, nothing for the
    other types), and the candidate object itself stays as it was built.
    After a pass that inserts a visible record, the entry in front of
    the list is the candidate, with its transient path or path array,
    and the stored record is [sqlData].  After a pass that reconciles a
    visible record, the entry in front is the candidate with the matched
    id and the candidate's value, and the stored rows with that id carry
    the candidate's createTime: the entry has the matched record's id
    and otherwise the candidate's fields, the stored record that was
    matched has the entry's id and createTime, its other fields are the
    old ones, and so are those of every other row. *)
Theorem clone_keeps_candidate (env : Env) (w : World) (tr : Trace)
    (data sqlData : History) :
  reachesUpsert env tr data sqlData ->
  insertFault env = None ->
  updateFault env = None ->
  heap_ok w ->
  visible w data = true ->
  let w' := snd (fst (processClipboard env w)) in
  sameButValue data sqlData
  /\ (h_type data = Some Timage ->
      exists path durable,
        h_value data = Some (VStr path)
        /\ fullName env path = Ok durable
        /\ h_value sqlData = Some (VStr durable))
  /\ (forall paths,
        h_type data = Some Tfiles -> h_value data = Some (VPaths paths) ->
        h_value sqlData = Some (VStr (JSON_stringify env (VPaths paths)))
        /\ h_value sqlData <> h_value data)
  /\ (h_type data <> Some Timage -> h_type data <> Some Tfiles ->
      sqlData = data)
  /\ nth_error (w_heap w') (List.length (w_heap w)) = Some data
  /\ match selected sqlData data w with
     | [] =>
         hd_error (entries w') = Some (Some data)
         /\ w_db w' = w_db w ++ [sqlData]
     | matched :: _ =>
         hd_error (entries w') = Some (Some (with_id data (h_id matched)))
         /\ h_value (with_id data (h_id matched)) = h_value data
         /\ Forall (fun row' =>
                      h_id row' = h_id matched ->
                      h_createTime row' = h_createTime data)
              (w_db w')
         /\ (exists entry stored,
               hd_error (entries w') = Some (Some entry)
               /\ h_id entry = h_id matched
               /\ sameButId entry data
               /\ In matched (w_db w)
               /\ In stored (w_db w')
               /\ h_id stored = h_id entry
               /\ h_createTime stored = h_createTime entry
               /\ sameButCreateTime matched stored)
         /\ Forall2 (fun row row' =>
                       sameButCreateTime row row'
                       /\ (h_id row <> h_id matched -> row' = row))
              (w_db w) (w_db w')
     end.
Proof.
  intros Hreach Hinsert Hupdate Hok Hvis w'.
  assert (Hsql : storageReady env data = Ok sqlData)
    by (destruct Hreach as (? & ? & _ & _ & _ & _ & H & _); exact H).
  split; [apply (storageReady_sameButValue env); exact Hsql |].
  split; [| split; [| split; [| split]]].
  - intros Hty. unfold storageReady in Hsql. rewrite Hty in Hsql.
    unfold fullNameOf in Hsql.
    destruct (h_value data) as [[path | paths] |]; try discriminate.
    destruct (fullName env path) as [durable |] eqn:Hfull; [| discriminate].
    injection Hsql as <-. exists path, durable. repeat split; auto.
  - intros paths Hty Hv. unfold storageReady in Hsql.
    rewrite Hty, Hv in Hsql. injection Hsql as <-. simpl.
    split; [reflexivity |]. rewrite Hv. discriminate.
  - intros Hni Hnf. unfold storageReady in Hsql.
    destruct (h_type data) as [[] |]; try congruence.
  - unfold w'.
    destruct (selected sqlData data w) as [| matched rest] eqn:Hrows.
    + rewrite (pass_insert env w tr data sqlData Hreach Hinsert Hrows), Hvis.
      cbn [fst snd w_heap]. apply nth_error_fresh.
    + rewrite (pass_match env w tr data sqlData matched rest
                 Hreach Hupdate Hrows), Hvis.
      cbn [fst snd w_heap]. rewrite <- app_assoc. apply nth_error_fresh.
  - unfold w'.
    destruct (selected sqlData data w) as [| matched rest] eqn:Hrows.
    + rewrite (pass_insert env w tr data sqlData Hreach Hinsert Hrows), Hvis.
      cbn [fst snd w_db]. split; [| reflexivity].
      unfold entries. cbn [w_heap w_state st_list map hd_error].
      rewrite nth_error_fresh. reflexivity.
    + rewrite (pass_match env w tr data sqlData matched rest
                 Hreach Hupdate Hrows), Hvis.
      cbn [fst snd w_db].
      rewrite (entries_reconciled w [data; sqlData] _ _ _ Hok).
      split; [reflexivity |]. split; [reflexivity |].
      split; [apply refresh_createTime_of_id |].
      assert (Hin : In matched (w_db w)).
      { assert (H : In matched (selected sqlData data w))
          by (rewrite Hrows; left; reflexivity).
        unfold selected in H. apply filter_In in H. exact (proj1 H). }
      split.
      * exists (with_id data (h_id matched)),
          (with_createTime matched (h_createTime data)).
        split; [reflexivity |]. split; [reflexivity |].
        split; [repeat split |]. split; [exact Hin |].
        split; [| repeat split].
        unfold refreshCreateTime.
        apply (in_map (fun row =>
                         if String.eqb (h_id row) (h_id matched)
                         then with_createTime row (h_createTime data)
                         else row)) in Hin.
        rewrite String.eqb_refl in Hin. exact Hin.
      * eapply Forall2_impl;
          [| apply (refresh_sameButCreateTime (h_id matched)
                      (h_createTime data) (w_db w))].
        intros row row' (Hsame & Hother & _). split; assumption.
Qed.

(* ===================================================================== *)
(** ** The debounce timer and the lock *)
(* ===================================================================== *)

Lemma clear_kept_timer (l : Loop) (handle : nat) (due : Z) :
  timers l = [(handle, due)] ->
  timers (clearTimeout handle l) = [].
Proof.
  intros H. unfold clearTimeout. simpl. rewrite H. simpl.
  rewrite Nat.eqb_refl. reflexivity.
Qed.

(** A notification while no timeout is due: the hook is called, and the
    one pending timeout is the new one. *)
Lemma step_changed_quiet (hook : bool) (l : Loop) (now : Z) :
  singleTimer l ->
  (forall handle due, In (handle, due) (timers l) -> now < due) ->
  step hook l (Changed now)
  = ((if hook then [BeforeRead] else []),
     mkLoop (Some (nextHandle l)) (isProcessing l)
       [(nextHandle l, now + DEBOUNCE_MS)] (S (nextHandle l)) (inFlight l)).
Proof.
  intros Hsingle Hlater. unfold step, advance.
  assert (Hdue : filter (fun t => snd t <=? now) (timers l) = []).
  { unfold singleTimer in Hsingle.
    destruct (debounceTimer l) as [handle |].
    - destruct Hsingle as (due & Ht). rewrite Ht. simpl.
      assert (now < due) by (apply (Hlater handle); rewrite Ht; left;
                             reflexivity).
      destruct (Z.leb_spec due now); [lia | reflexivity].
    - rewrite Hsingle. reflexivity. }
  rewrite Hdue. simpl. unfold onClipboardChanged, setTimeout.
  unfold singleTimer in Hsingle.
  destruct (debounceTimer l) as [handle |] eqn:Hd.
  - destruct Hsingle as (due & Ht).
    rewrite (clear_kept_timer l handle due Ht). reflexivity.
  - rewrite Hsingle. reflexivity.
Qed.

(** A timeout firing: it starts a pass unless one is in flight. *)
Lemma fire_kept_timer (l : Loop) (handle : nat) (due : Z) :
  timers l = [(handle, due)] ->
  fire [(handle, due)] l
  = if isProcessing l then
      ([], mkLoop None true [] (nextHandle l) (inFlight l))
    else
      ([ProcessClipboard],
       mkLoop None true [] (nextHandle l) (S (inFlight l))).
Proof.
  intros Ht. unfold fire, onTimeout.
  assert (Hc := clear_kept_timer l handle due Ht).
  unfold clearTimeout in *. simpl in *. rewrite Hc.
  destruct (isProcessing l); reflexivity.
Qed.

Lemma step_preserves (hook : bool) (l : Loop) (i : Input) :
  singleTimer l -> lockHeld l ->
  singleTimer (snd (step hook l i)) /\ lockHeld (snd (step hook l i)).
Proof.
  intros Hsingle Hlock.
  assert (Hadv : singleTimer (snd (advance (match i with
                                             | Changed t | Settled t => t
                                             end) l))
                 /\ lockHeld (snd (advance (match i with
                                            | Changed t | Settled t => t
                                            end) l))).
  { unfold advance. unfold singleTimer in Hsingle.
    destruct (debounceTimer l) as [handle |] eqn:Hd.
    - destruct Hsingle as (due & Ht). rewrite Ht. simpl.
      destruct (due <=? _).
      + rewrite (fire_kept_timer l handle due Ht).
        unfold lockHeld in *.
        destruct (isProcessing l); simpl; split; try reflexivity.
        * exact Hlock.
        * rewrite Hlock. reflexivity.
      + simpl. split; [| exact Hlock].
        unfold singleTimer. rewrite Hd. exists due. exact Ht.
    - rewrite Hsingle. simpl. split; [| exact Hlock].
      unfold singleTimer. rewrite Hd. exact Hsingle. }
  destruct i as [now | now]; unfold step.
  - destruct (advance now l) as [s1 l1]. simpl in Hadv.
    destruct Hadv as [Hs1 Hl1].
    unfold onClipboardChanged, setTimeout. unfold singleTimer in Hs1.
    destruct (debounceTimer l1) as [handle |] eqn:Hd.
    + destruct Hs1 as (due & Ht).
      rewrite (clear_kept_timer l1 handle due Ht). simpl.
      split; [unfold singleTimer; simpl; eauto | exact Hl1].
    + rewrite Hs1. simpl.
      split; [unfold singleTimer; simpl; eauto | exact Hl1].
  - destruct (advance now l) as [s1 l1]. simpl in Hadv.
    destruct Hadv as [Hs1 Hl1]. simpl.
    destruct (inFlight l1) as [| k] eqn:Hk.
    + split; assumption.
    + split; [exact Hs1 |].
      unfold lockHeld in *. simpl. rewrite Hk in Hl1.
      destruct (isProcessing l1); [| discriminate].
      injection Hl1 as ->. rewrite Hk. reflexivity.
Qed.

Lemma run_preserves (hook : bool) (inputs : list Input) (l : Loop) :
  singleTimer l -> lockHeld l ->
  singleTimer (snd (run hook l inputs)) /\ lockHeld (snd (run hook l inputs)).
Proof.
  revert l. induction inputs as [| i inputs IH]; intros l Hs Hl; simpl.
  - split; assumption.
  - destruct (step_preserves hook l i Hs Hl) as [Hs1 Hl1].
    destruct (step hook l i) as [s1 l1]. simpl in *.
    specialize (IH l1 Hs1 Hl1).
    destruct (run hook l1 inputs) as [s2 l2]. simpl in *. exact IH.
Qed.

(** A burst: each notification arrives before the pending timeout is
    due, so none fires; the last one's timeout is left. *)
Lemma burst_run (hook : bool) (rest : list Z) :
  forall (t : Z) (l : Loop),
    singleTimer l ->
    (forall handle due, In (handle, due) (timers l) -> t < due) ->
    withinWindow DEBOUNCE_MS (t :: rest) ->
    run hook l (notifications (t :: rest))
    = ((if hook then repeat BeforeRead (S (List.length rest)) else []),
       mkLoop (Some (nextHandle l + List.length rest)%nat) (isProcessing l)
         [((nextHandle l + List.length rest)%nat,
           last (t :: rest) 0 + DEBOUNCE_MS)]
         (S (nextHandle l + List.length rest)) (inFlight l)).
Proof.
  induction rest as [| t2 rest IH]; intros t l Hsingle Hlater Hwin.
  - cbn [notifications map run].
    rewrite (step_changed_quiet hook l t Hsingle Hlater).
    cbn [List.length last]. rewrite Nat.add_0_r, app_nil_r.
    destruct hook; reflexivity.
  - change (notifications (t :: t2 :: rest))
      with (Changed t :: notifications (t2 :: rest)).
    cbn [run].
    rewrite (step_changed_quiet hook l t Hsingle Hlater).
    destruct Hwin as (Hle & Hgap & Hwin).
    rewrite IH; [| | | exact Hwin].
    + cbn [nextHandle isProcessing inFlight List.length].
      replace (S (nextHandle l) + List.length rest)%nat
        with (nextHandle l + S (List.length rest))%nat by lia.
      change (last (t :: t2 :: rest) 0) with (last (t2 :: rest) 0).
      destruct hook; reflexivity.
    + unfold singleTimer. simpl. eauto.
    + simpl. intros handle due [H | []]. injection H as _ <-. lia.
Qed.

Lemma invocations_app (a b : list Signal) :
  invocations (a ++ b) = (invocations a + invocations b)%nat.
Proof. unfold invocations. rewrite filter_app, length_app. reflexivity. Qed.

Lemma invocations_beforeRead (k : nat) :
  invocations (repeat BeforeRead k) = 0%nat.
Proof. induction k as [| k IH]; [reflexivity | exact IH]. Qed.

(** Rounds: every notification's timeout fires with the lock free, and
    the pass it starts settles before the next notification. *)
Lemma rounds_run (hook : bool) (rounds : list (Z * Z)) :
  forall nh : nat,
    settledInTime DEBOUNCE_MS rounds ->
    run hook (mkLoop None false [] nh 0) (rounds_inputs rounds)
    = (flat_map (fun _ => (if hook then [BeforeRead] else [])
                          ++ [ProcessClipboard]) rounds,
       mkLoop None false [] (nh + List.length rounds) 0).
Proof.
  induction rounds as [| [t s] rounds IH]; intros nh Hin.
  - simpl. rewrite Nat.add_0_r. reflexivity.
  - destruct Hin as (Hts & _ & Hin).
    change (rounds_inputs ((t, s) :: rounds))
      with (Changed t :: Settled s :: rounds_inputs rounds).
    cbn [run].
    rewrite (step_changed_quiet hook (mkLoop None false [] nh 0) t);
      [| reflexivity | intros handle due []].
    cbn [nextHandle isProcessing inFlight].
    unfold step, advance. cbn [timers filter snd].
    destruct (Z.leb_spec (t + DEBOUNCE_MS) s) as [_ | Hlt]; [| lia].
    rewrite (fire_kept_timer
               (mkLoop (Some nh) false [(nh, t + DEBOUNCE_MS)] (S nh) 0)
               nh (t + DEBOUNCE_MS) eq_refl).
    cbn [isProcessing inFlight nextHandle onSettled debounceTimer timers
         pred].
    change (onSettled (mkLoop None true [] (S nh) 1))
      with (mkLoop None false [] (S nh) 0).
    rewrite (IH (S nh) Hin).
    cbn [flat_map List.length].
    replace (S nh + List.length rounds)%nat
      with (nh + S (List.length rounds))%nat by lia.
    rewrite <- !app_assoc. reflexivity.
Qed.

Lemma invocations_rounds (hook : bool) (rounds : list (Z * Z)) :
  invocations
    (flat_map (fun _ => (if hook then [BeforeRead] else [])
                        ++ [ProcessClipboard]) rounds)
  = List.length rounds.
Proof.
  induction rounds as [| r rounds IH]; [reflexivity |].
  cbn [flat_map List.length]. rewrite invocations_app, IH.
  destruct hook; reflexivity.
Qed.

(** The pending timeout fires when the pass settles at or after its due
    time, and starts a pass: the lock is free. *)
Lemma step_settled_fires (hook : bool) (h : nat) (t s : Z) :
  t + DEBOUNCE_MS <= s ->
  step hook (mkLoop (Some h) false [(h, t + DEBOUNCE_MS)] (S h) 0)
    (Settled s)
  = ([ProcessClipboard], mkLoop None false [] (S h) 0).
Proof.
  intros Hs. unfold step, advance. cbn [timers filter snd].
  destruct (Z.leb_spec (t + DEBOUNCE_MS) s) as [_ | Hlt]; [| lia].
  rewrite (fire_kept_timer
             (mkLoop (Some h) false [(h, t + DEBOUNCE_MS)] (S h) 0)
             h (t + DEBOUNCE_MS) eq_refl).
  reflexivity.
Qed.

(** A notification beyond the window: the pending timeout fires first
    and starts a pass, which is in flight when the new timeout is set. *)
Lemma step_changed_fires (hook : bool) (h : nat) (t t' : Z) :
  t + DEBOUNCE_MS <= t' ->
  step hook (mkLoop (Some h) false [(h, t + DEBOUNCE_MS)] (S h) 0)
    (Changed t')
  = (ProcessClipboard :: (if hook then [BeforeRead] else []),
     mkLoop (Some (S h)) true [(S h, t' + DEBOUNCE_MS)] (S (S h)) 1).
Proof.
  intros Hs. unfold step, advance. cbn [timers filter snd].
  destruct (Z.leb_spec (t + DEBOUNCE_MS) t') as [_ | Hlt]; [| lia].
  rewrite (fire_kept_timer
             (mkLoop (Some h) false [(h, t + DEBOUNCE_MS)] (S h) 0)
             h (t + DEBOUNCE_MS) eq_refl).
  reflexivity.
Qed.

(** The pass in flight settles before the pending timeout is due: the
    lock is released and the timeout stays. *)
Lemma step_settled_waits (hook : bool) (h : nat) (t s : Z) :
  s < t + DEBOUNCE_MS ->
  step hook (mkLoop (Some h) true [(h, t + DEBOUNCE_MS)] (S h) 1)
    (Settled s)
  = ([], mkLoop (Some h) false [(h, t + DEBOUNCE_MS)] (S h) 0).
Proof.
  intros Hs. unfold step, advance. cbn [timers filter snd].
  destruct (Z.leb_spec (t + DEBOUNCE_MS) s) as [Hle | _]; [lia |].
  reflexivity.
Qed.

(** The pass in flight settles when the pending timeout is already due:
    the timeout has fired into the lock and started nothing. *)
Lemma step_settled_skips (hook : bool) (h : nat) (t s : Z) :
  t + DEBOUNCE_MS <= s ->
  step hook (mkLoop (Some h) true [(h, t + DEBOUNCE_MS)] (S h) 1)
    (Settled s)
  = ([], mkLoop None false [] (S h) 0).
Proof.
  intros Hs. unfold step, advance. cbn [timers filter snd].
  destruct (Z.leb_spec (t + DEBOUNCE_MS) s) as [_ | Hlt]; [| lia].
  rewrite (fire_kept_timer
             (mkLoop (Some h) true [(h, t + DEBOUNCE_MS)] (S h) 1)
             h (t + DEBOUNCE_MS) eq_refl).
  reflexivity.
Qed.

(** Spaced rounds in the order of their times, from the state a
    notification leaves: every timeout fires with the lock free. *)
Lemma timeline_run (hook : bool) (rounds : list (Z * Z)) :
  forall (t s : Z) (h : nat),
    settledBeforeNextFires DEBOUNCE_MS ((t, s) :: rounds) ->
    run hook (mkLoop (Some h) false [(h, t + DEBOUNCE_MS)] (S h) 0)
      (timeline (Some s) rounds)
    = (ProcessClipboard
       :: flat_map (fun _ => (if hook then [BeforeRead] else [])
                             ++ [ProcessClipboard]) rounds,
       mkLoop None false [] (S h + List.length rounds) 0).
Proof.
  induction rounds as [| [t' s'] rounds IH]; intros t s h Hin.
  - destruct Hin as (Hts & _ & _).
    cbn [timeline run]. rewrite (step_settled_fires hook h t s Hts).
    cbn [List.length flat_map]. rewrite Nat.add_0_r. reflexivity.
  - destruct Hin as (Hts & (Hgap & Hbefore) & Hin).
    cbn [timeline].
    destruct (Z.leb_spec s t') as [Hle | Hgt]; cbn [run].
    + rewrite (step_settled_fires hook h t s Hts).
      rewrite (step_changed_quiet hook (mkLoop None false [] (S h) 0) t');
        [| reflexivity | intros handle due []].
      cbn [nextHandle isProcessing inFlight].
      rewrite (IH t' s' (S h) Hin).
      cbn [flat_map List.length].
      replace (S (S h) + List.length rounds)%nat
        with (S h + S (List.length rounds))%nat by lia.
      rewrite <- !app_assoc. reflexivity.
    + rewrite (step_changed_fires hook h t t') by lia.
      rewrite (step_settled_waits hook (S h) t' s Hbefore).
      rewrite (IH t' s' (S h) Hin).
      cbn [flat_map List.length].
      replace (S (S h) + List.length rounds)%nat
        with (S h + S (List.length rounds))%nat by lia.
      rewrite <- !app_assoc. reflexivity.
Qed.

Lemma timeline_quiescence (hook : bool) (rounds : list (Z * Z)) :
  settledBeforeNextFires DEBOUNCE_MS rounds ->
  fst (runToQuiescence hook (timeline None rounds))
  = flat_map (fun _ => (if hook then [BeforeRead] else [])
                       ++ [ProcessClipboard]) rounds.
Proof.
  destruct rounds as [| [t s] rounds]; intros Hin; [reflexivity |].
  unfold runToQuiescence. cbn [timeline run].
  rewrite (step_changed_quiet hook mounted t);
    [| reflexivity | intros handle due []].
  cbn [nextHandle isProcessing inFlight mounted].
  rewrite (timeline_run hook rounds t s 1 Hin).
  cbn [timers fire fst flat_map]. rewrite app_nil_r.
  rewrite <- app_assoc. reflexivity.
Qed.

(** The notifications among the inputs of spaced rounds are the rounds'
    own, one each and in order. *)
Lemma timeline_notifications (rounds : list (Z * Z)) :
  forall pending,
    filter (fun i => match i with Changed _ => true | Settled _ => false end)
      (timeline pending rounds)
    = map (fun r => Changed (fst r)) rounds.
Proof.
  induction rounds as [| [t s] rounds IH]; intros pending.
  - destruct pending; reflexivity.
  - cbn [timeline]. destruct pending as [s0 |];
      [destruct (s0 <=? t) |]; cbn [filter map fst]; rewrite IH;
      reflexivity.
Qed.

(** C8, as the code has it.  Every notification calls the hook at once
    and leaves exactly one pending timeout, 300 ms ahead.  N
    notifications that each arrive before the pending timeout is due
    lead to one invocation of the pipeline.  N notifications spaced
    beyond the window lead to N invocations when the pass each one
    starts has settled before the next notification's timeout fires,
    whether it settles before or after that notification arrives; with
    two spaced notifications whose first pass settles only once the
    second timeout is due, there is one invocation.  A timeout that
    fires while a pass is in flight starts nothing and leaves nothing
    behind; a timeout starts a pass exactly when the lock is free; and
    after any inputs at most one pass is in flight. *)
Theorem debounce_and_lock :
  (forall (l : Loop) (now : Z),
     singleTimer l ->
     fst (onClipboardChanged true now l) = [BeforeRead]
     /\ timers (snd (onClipboardChanged true now l))
        = [(nextHandle l, now + DEBOUNCE_MS)]
     /\ debounceTimer (snd (onClipboardChanged true now l))
        = Some (nextHandle l)
     /\ isProcessing (snd (onClipboardChanged true now l)) = isProcessing l
     /\ inFlight (snd (onClipboardChanged true now l)) = inFlight l)
  /\ (forall (hook : bool) (times : list Z),
        times <> [] ->
        withinWindow DEBOUNCE_MS times ->
        invocations (fst (runToQuiescence hook (notifications times)))
        = 1%nat
        /\ List.length
             (filter isBeforeRead
                (fst (runToQuiescence true (notifications times))))
           = List.length times)
  /\ (forall (hook : bool) (rounds : list (Z * Z)),
        settledInTime DEBOUNCE_MS rounds ->
        invocations (fst (runToQuiescence hook (rounds_inputs rounds)))
        = List.length rounds)
  /\ (forall l : Loop,
        isProcessing l = true ->
        onTimeout l
        = ([], mkLoop None true (timers l) (nextHandle l) (inFlight l)))
  /\ (forall l : Loop,
        fst (onTimeout l) = [ProcessClipboard] <-> isProcessing l = false)
  /\ (forall (hook : bool) (inputs : list Input),
        let l := snd (run hook mounted inputs) in
        (inFlight l <= 1)%nat /\ singleTimer l /\ lockHeld l)
  /\ (forall (hook : bool) (rounds : list (Z * Z)),
        settledBeforeNextFires DEBOUNCE_MS rounds ->
        beyondWindow DEBOUNCE_MS (map fst rounds)
        /\ filter (fun i => match i with
                            | Changed _ => true
                            | Settled _ => false
                            end)
             (timeline None rounds)
           = notifications (map fst rounds)
        /\ invocations (fst (runToQuiescence hook (timeline None rounds)))
           = List.length rounds)
  /\ (forall (hook : bool) (t t' s : Z),
        DEBOUNCE_MS < t' - t ->
        t' + DEBOUNCE_MS <= s ->
        invocations
          (fst (runToQuiescence hook [Changed t; Changed t'; Settled s]))
        = 1%nat).
Proof.
  split; [| split; [| split; [| split; [| split; [| split; [| split]]]]]].
  - intros l now Hsingle. unfold onClipboardChanged, setTimeout.
    unfold singleTimer in Hsingle.
    destruct (debounceTimer l) as [handle |].
    + destruct Hsingle as (due & Ht).
      assert (Hc := clear_kept_timer l handle due Ht).
      unfold clearTimeout in *. simpl in *. rewrite Hc.
      repeat split.
    + simpl. rewrite Hsingle. repeat split.
  - intros hook [| t rest] Hne Hwin; [contradiction |].
    assert (Hrun : forall hk,
              runToQuiescence hk (notifications (t :: rest))
              = ((if hk then repeat BeforeRead (S (List.length rest))
                  else []) ++ [ProcessClipboard],
                 mkLoop None true [] (S (1 + List.length rest)) 1)).
    { intros hk. unfold runToQuiescence.
      rewrite (burst_run hk rest t mounted);
        [| reflexivity | intros handle due [] | exact Hwin].
      cbn [timers mounted nextHandle isProcessing inFlight].
      rewrite (fire_kept_timer
                 (mkLoop (Some (1 + List.length rest)%nat) false
                    [((1 + List.length rest)%nat,
                      last (t :: rest) 0 + DEBOUNCE_MS)]
                    (S (1 + List.length rest)) 0)
                 _ _ eq_refl).
      reflexivity. }
    rewrite !Hrun. cbn [fst]. split.
    + rewrite invocations_app.
      destruct hook; [rewrite invocations_beforeRead |]; reflexivity.
    + rewrite filter_app, length_app. cbn [filter isBeforeRead List.length].
      rewrite Nat.add_0_r.
      clear. generalize (S (List.length rest)) as k.
      induction k as [| k IH]; [reflexivity |].
      simpl. rewrite IH. reflexivity.
  - intros hook rounds Hin. unfold runToQuiescence, mounted.
    rewrite (rounds_run hook rounds 1 Hin). cbn [timers fire].
    rewrite app_nil_r. apply invocations_rounds.
  - intros l Hp. unfold onTimeout. rewrite Hp. reflexivity.
  - intros l. unfold onTimeout.
    destruct (isProcessing l); simpl; split; congruence.
  - intros hook inputs l.
    destruct (run_preserves hook inputs mounted) as [Hs Hl];
      [reflexivity | reflexivity |].
    fold l in Hs, Hl. split; [| split; assumption].
    unfold lockHeld in Hl. rewrite Hl.
    destruct (isProcessing l); lia.
  - intros hook rounds Hin. split; [| split].
    + clear hook. induction rounds as [| [t s] rounds IH]; [exact I |].
      destruct Hin as (_ & Hnext & Hin).
      destruct rounds as [| [t' s'] rounds]; [exact I |].
      cbn [map fst beyondWindow]. split; [exact (proj1 Hnext) |].
      apply IH. exact Hin.
    + rewrite timeline_notifications. unfold notifications.
      rewrite map_map. reflexivity.
    + rewrite (timeline_quiescence hook rounds Hin).
      apply invocations_rounds.
  - intros hook t t' s Hgap Hlate.
    unfold runToQuiescence. cbn [run].
    rewrite (step_changed_quiet hook mounted t);
      [| reflexivity | intros handle due []].
    cbn [nextHandle isProcessing inFlight mounted].
    rewrite (step_changed_fires hook 1 t t') by lia.
    rewrite (step_settled_skips hook 2 t' s Hlate).
    cbn [timers fire fst]. rewrite !app_nil_r.
    destruct hook; reflexivity.
Qed.

(* ===================================================================== *)
(** ** The properties at concrete inputs *)
(* ===================================================================== *)

(** C1 at a capture of a 100 x 50 image of 2048 bytes under a new
    transient path: the stored image of the same size is selected, the
    stored text is not. *)
Lemma dedup_query_witness :
  wellTyped resultImage
  /\ storageReady (envOf (clipImage "tmp/new.png" 2048) false)
       (buildRecord (envOf (clipImage "tmp/new.png" 2048) false) resultImage)
     = Ok sqlImage
  /\ dedupWhere sqlImage dataImage imageRow = true
  /\ dedupWhere sqlImage dataImage helloRow <> true.
Proof.
  assert (Hwt : wellTyped resultImage).
  { repeat split; intros e H; try discriminate.
    injection H as <-. reflexivity. }
  assert (Hsql : storageReady (envOf (clipImage "tmp/new.png" 2048) false)
                   (buildRecord (envOf (clipImage "tmp/new.png" 2048) false)
                      resultImage)
                 = Ok sqlImage) by reflexivity.
  split; [exact Hwt |]. split; [exact Hsql |]. split.
  - apply (proj1 (dedup_query _ resultImage sqlImage imageRow Hwt Hsql)).
    + reflexivity.
    + split; [reflexivity |]. right. repeat split.
  - intros H.
    apply (proj1 (dedup_query _ resultImage sqlImage helloRow Hwt Hsql))
      in H; [| reflexivity].
    destruct H as [H _]. discriminate.
Defined.

(** C2 at HTML without text, with copy-as-plain-text on: a text record
    made of the HTML payload. *)
Lemma classifier_precedence_witness :
  wellTyped (mkRead None None (Some (mkStr 9 Thtml "<b>hi</b>")) None None)
  /\ h_type (buildRecord (envOf clipHtmlOnly true)
               (mkRead None None (Some (mkStr 9 Thtml "<b>hi</b>"))
                  None None))
     = Some Ttext
  /\ h_value (buildRecord (envOf clipHtmlOnly true)
                (mkRead None None (Some (mkStr 9 Thtml "<b>hi</b>"))
                   None None))
     = Some (VStr "<b>hi</b>").
Proof.
  assert (Hwt : wellTyped
                  (mkRead None None (Some (mkStr 9 Thtml "<b>hi</b>"))
                     None None)).
  { repeat split; intros e H; try discriminate.
    injection H as <-. reflexivity. }
  split; [exact Hwt |].
  destruct (classifier_precedence (envOf clipHtmlOnly true) _ Hwt)
    as (_ & _ & _ & _ & _ & H6 & _).
  destruct H6 as (Hty & Hval & _); try reflexivity.
  - left. discriminate.
  - split; [exact Hty | exact Hval].
Defined.

(** C3 at a clipboard whose text reads and whose other formats all
    fail: every failure is tolerated and the attempt returns the text. *)
Lemma reader_escalation_witness :
  fails (hasFiles clipFlaky) (readFiles clipFlaky)
    (Error "files: clipboard busy")
  /\ snd (readThroughImage 1 clipFlaky) = Ok resultHello
  /\ snd (readAttempt 1 clipFlaky) = Ok resultHello.
Proof.
  assert (Hf : fails (hasFiles clipFlaky) (readFiles clipFlaky)
                 (Error "files: clipboard busy")) by (left; reflexivity).
  assert (H4 : snd (readThroughImage 1 clipFlaky) = Ok resultHello)
    by reflexivity.
  split; [exact Hf |]. split; [exact H4 |].
  destruct (reader_escalation 1 clipFlaky (Error "files: clipboard busy"))
    as (_ & _ & _ & _ & Hfiles).
  destruct (Hfiles Hf) as (_ & Hattempt).
  destruct (Hattempt resultHello H4) as (_ & Hok).
  apply Hok. intros (H & _). discriminate.
Defined.

(** C4 at a clipboard that is locked for two attempts: the third
    attempt's snapshot is returned and the pass shows no read-failure
    warning. *)
Lemma retry_policy_witness :
  snd (readClipboardWithRetry (clip envThirdTime)) = Ok resultHello
  /\ filter isReadFailedWarning
       (fst (fst (processClipboard envThirdTime worldEmpty))) = [].
Proof.
  destruct (retry_policy envThirdTime worldEmpty)
    as (_ & _ & _ & _ & _ & Hquiet & _).
  split; [reflexivity |].
  apply (Hquiet resultHello). reflexivity.
Defined.

(** C5 at an image of 0 bytes. *)
Lemma zero_byte_image_dropped_witness :
  h_type (buildRecord (envOf (clipImage "tmp/new.png" 0) false)
            (mkRead None None None
               (Some (mkImage 0 50 Timage "tmp/new.png" 100)) None))
  = Some Timage
  /\ w_db (snd (fst (processClipboard
                       (envOf (clipImage "tmp/new.png" 0) false)
                       worldHello)))
     = w_db worldHello.
Proof.
  split; [reflexivity |].
  apply (zero_byte_image_dropped
           (envOf (clipImage "tmp/new.png" 0) false) worldHello
           (fst (readClipboardWithRetry
                   (clip (envOf (clipImage "tmp/new.png" 0) false))))
           (mkRead None None None
              (Some (mkImage 0 50 Timage "tmp/new.png" 100)) None));
    reflexivity.
Defined.

(** C6 at a second capture of ["hello"]: the stored row keeps its id and
    its favorite flag and gets the new createTime; the list shows the
    new capture under the old id. *)
Lemma match_refreshes_createTime_witness :
  selected dataHello dataHello worldHello = [helloRow]
  /\ w_db (snd (fst (processClipboard (envOf clipHello false) worldHello)))
     = [with_createTime helloRow "2024-05-01 10:00:00"]
  /\ entries (snd (fst (processClipboard (envOf clipHello false)
                          worldHello)))
     = [Some (with_id dataHello "old-id")]
  /\ exists entry,
       hd_error (entries (snd (fst (processClipboard
                                      (envOf clipHello false) worldHello))))
       = Some (Some entry)
       /\ h_id entry = "old-id"
       /\ h_id dataHello = "new-id"
       /\ h_createTime entry = "2024-05-01 10:00:00".
Proof.
  assert (Hreach : reachesUpsert (envOf clipHello false)
                     (fst (readClipboardWithRetry
                             (clip (envOf clipHello false))))
                     dataHello dataHello).
  { exists resultHello, Ttext. repeat split. }
  assert (Hok : heap_ok worldHello).
  { constructor; [simpl; lia | constructor]. }
  destruct (match_refreshes_createTime (envOf clipHello false) worldHello _
              dataHello dataHello helloRow [] Hreach eq_refl Hok eq_refl)
    as (_ & Hdb & _ & Hlist & _ & Hentry).
  split; [reflexivity |]. split; [| split].
  - rewrite Hdb. reflexivity.
  - rewrite (Hlist eq_refl). reflexivity.
  - destruct (Hentry eq_refl) as (entry & Hhd & Hid & Hsame).
    exists entry. split; [exact Hhd |]. split; [exact Hid |].
    split; [reflexivity |].
    destruct Hsame as (_ & _ & _ & _ & _ & _ & _ & _ & _ & Htime).
    rewrite Htime. reflexivity.
Defined.

(** C7, as the spec has it, fails at a second capture of ["hello"]: the
    list is reconciled before, not after, the createTime update. *)
Lemma update_before_reconcile_counterexample :
  selected dataHello dataHello worldHello = [helloRow]
  /\ visible worldHello dataHello = true
  /\ filter (fun e => isListMutation e || isStoreWrite e)
       (fst (fst (processClipboard (envOf clipHello false) worldHello)))
     = [EvListRemove "old-id"; EvListUnshift 3%nat;
        EvUpdate "old-id" [SetCreateTime "2024-05-01 10:00:00"]]
  /\ happensBefore isStoreUpdate isListRemove
       (fst (fst (processClipboard (envOf clipHello false) worldHello)))
     = false
  /\ happensBefore isStoreUpdate isListUnshift
       (fst (fst (processClipboard (envOf clipHello false) worldHello)))
     = false.
Proof. repeat split. Qed.

(** C7, as the code has it, at the same capture and at a first one. *)
Lemma list_before_store_witness :
  visible worldHello dataHello = true
  /\ happensBefore isListUnshift isStoreUpdate
       (fst (fst (processClipboard (envOf clipHello false) worldHello)))
     = true
  /\ happensBefore isListUnshift isStoreInsert
       (fst (fst (processClipboard (envOf clipHello false) worldEmpty)))
     = true.
Proof.
  assert (Hreach : reachesUpsert (envOf clipHello false)
                     (fst (readClipboardWithRetry
                             (clip (envOf clipHello false))))
                     dataHello dataHello).
  { exists resultHello, Ttext. repeat split. }
  split; [reflexivity |]. split.
  - apply (list_before_store (envOf clipHello false) worldHello _
             dataHello dataHello Hreach eq_refl eq_refl eq_refl).
  - apply (list_before_store (envOf clipHello false) worldEmpty _
             dataHello dataHello Hreach eq_refl eq_refl eq_refl).
Defined.

(** C8, as the spec has it, fails at two notifications 400 ms apart
    when the pass started at 300 ms (one that retries a locked clipboard,
    say) is still in flight at 700 ms: one invocation, not two. *)
Lemma spaced_notifications_counterexample :
  beyondWindow DEBOUNCE_MS [0; 400]
  /\ invocations (fst (runToQuiescence true (notifications [0; 400])))
     = 1%nat
  /\ invocations (fst (runToQuiescence true (notifications [0; 400])))
     <> List.length [0; 400].
Proof.
  split; [unfold DEBOUNCE_MS; simpl; lia |].
  split; [reflexivity | discriminate].
Qed.

(** C8, as the code has it: three notifications 100 ms apart give one
    invocation; two rounds whose passes settle in time give two. *)
Lemma debounce_and_lock_witness :
  withinWindow DEBOUNCE_MS [0; 100; 200]
  /\ invocations (fst (runToQuiescence true (notifications [0; 100; 200])))
     = 1%nat
  /\ settledInTime DEBOUNCE_MS [(0, 350); (400, 900)]
  /\ invocations
       (fst (runToQuiescence true (rounds_inputs [(0, 350); (400, 900)])))
     = 2%nat
  /\ settledBeforeNextFires DEBOUNCE_MS [(0, 500); (400, 1000)]
  /\ timeline None [(0, 500); (400, 1000)]
     = [Changed 0; Changed 400; Settled 500; Settled 1000]
  /\ invocations
       (fst (runToQuiescence true (timeline None [(0, 500); (400, 1000)])))
     = 2%nat
  /\ invocations
       (fst (runToQuiescence true [Changed 0; Changed 400; Settled 700]))
     = 1%nat.
Proof.
  assert (Hwin : withinWindow DEBOUNCE_MS [0; 100; 200])
    by (unfold DEBOUNCE_MS; simpl; lia).
  assert (Hin : settledInTime DEBOUNCE_MS [(0, 350); (400, 900)])
    by (unfold DEBOUNCE_MS; simpl; lia).
  assert (Hlate : settledBeforeNextFires DEBOUNCE_MS [(0, 500); (400, 1000)])
    by (unfold DEBOUNCE_MS; simpl; lia).
  destruct debounce_and_lock
    as (_ & Hburst & Hrounds & _ & _ & _ & Hspaced & Htight).
  split; [exact Hwin |]. split.
  - apply (Hburst true [0; 100; 200]); [discriminate | exact Hwin].
  - split; [exact Hin |]. split; [apply (Hrounds true _ Hin) |].
    split; [exact Hlate |]. split; [reflexivity |]. split.
    + exact (proj2 (proj2 (Hspaced true _ Hlate))).
    + apply (Htight true 0 400 700); unfold DEBOUNCE_MS; lia.
Defined.

(** C9 at a second and at a first capture of ["hello"] while the page
    shows images only. *)
Lemma hidden_group_still_persists_witness :
  st_group (w_state worldHelloImages) <> "all"
  /\ st_group (w_state worldHelloImages) <> h_group dataHello
  /\ entries (snd (fst (processClipboard (envOf clipHello false)
                          worldHelloImages)))
     = entries worldHelloImages
  /\ filter isStoreWrite
       (fst (fst (processClipboard (envOf clipHello false)
                    worldHelloImages)))
     = [EvUpdate "old-id" [SetCreateTime "2024-05-01 10:00:00"]].
Proof.
  assert (Hreach : reachesUpsert (envOf clipHello false)
                     (fst (readClipboardWithRetry
                             (clip (envOf clipHello false))))
                     dataHello dataHello).
  { exists resultHello, Ttext. repeat split. }
  assert (Hok : heap_ok worldHelloImages).
  { constructor; [simpl; lia | constructor]. }
  assert (Hall : st_group (w_state worldHelloImages) <> "all")
    by discriminate.
  assert (Hgroup : st_group (w_state worldHelloImages) <> h_group dataHello)
    by discriminate.
  destruct (hidden_group_still_persists (envOf clipHello false)
              worldHelloImages _ dataHello dataHello Hreach eq_refl eq_refl
              Hok Hall Hgroup)
    as (_ & Hlist & _ & Hstore).
  split; [exact Hall |]. split; [exact Hgroup |].
  split; [exact Hlist |].
  exact (proj1 Hstore).
Defined.

(** C10, as the spec has it, fails at a second capture of ["hello"]
    after the stored row was made a favorite: the entry put in the list
    and the stored row with its id differ in [favorite]. *)
Lemma reconciled_entry_counterexample :
  selected dataHello dataHello worldHello = [helloRow]
  /\ visible worldHello dataHello = true
  /\ entries (snd (fst (processClipboard (envOf clipHello false)
                          worldHello)))
     = [Some (with_id dataHello "old-id")]
  /\ w_db (snd (fst (processClipboard (envOf clipHello false) worldHello)))
     = [with_createTime helloRow "2024-05-01 10:00:00"]
  /\ h_favorite (with_id dataHello "old-id") = false
  /\ h_favorite (with_createTime helloRow "2024-05-01 10:00:00") = true
  /\ ~ sameButValue (with_id dataHello "old-id")
         (with_createTime helloRow "2024-05-01 10:00:00").
Proof.
  repeat split.
  intros (_ & _ & _ & _ & _ & _ & _ & _ & H & _). discriminate.
Qed.

(** C10, as the code has it, at a first capture of an image: the list
    shows the transient path, the store holds the durable one; and at a
    second capture of ["hello"]: the entry and the stored row share the
    old id and the new createTime, and the row is still a favorite. *)
Lemma clone_keeps_candidate_witness :
  visible worldEmpty dataImage = true
  /\ sameButValue dataImage sqlImage
  /\ nth_error
       (w_heap (snd (fst (processClipboard
                            (envOf (clipImage "tmp/new.png" 2048) false)
                            worldEmpty))))
       0
     = Some dataImage
  /\ h_value dataImage = Some (VStr "tmp/new.png")
  /\ h_value sqlImage = Some (VStr "images/tmp/new.png")
  /\ visible worldHello dataHello = true
  /\ exists entry stored,
       hd_error (entries (snd (fst (processClipboard
                                      (envOf clipHello false) worldHello))))
       = Some (Some entry)
       /\ In stored
            (w_db (snd (fst (processClipboard (envOf clipHello false)
                               worldHello))))
       /\ h_id entry = "old-id" /\ h_id stored = "old-id"
       /\ h_createTime stored = h_createTime entry
       /\ h_favorite entry = false /\ h_favorite stored = true.
Proof.
  assert (Hhello : reachesUpsert (envOf clipHello false)
                     (fst (readClipboardWithRetry
                             (clip (envOf clipHello false))))
                     dataHello dataHello).
  { exists resultHello, Ttext. repeat split. }
  assert (Hok' : heap_ok worldHello).
  { constructor; [simpl; lia | constructor]. }
  assert (Hrec := clone_keeps_candidate (envOf clipHello false) worldHello
                    _ dataHello dataHello Hhello eq_refl eq_refl Hok'
                    eq_refl).
  cbv zeta in Hrec. destruct Hrec as (_ & _ & _ & _ & _ & Hrec).
  change (selected dataHello dataHello worldHello) with [helloRow] in Hrec.
  destruct Hrec as (_ & _ & _ & Hpair & _).
  destruct Hpair
    as (entry & stored & Hhd & Hid & Hsame' & _ & Hin & Hsid & Htime & Hold).
  assert (Hreach : reachesUpsert (envOf (clipImage "tmp/new.png" 2048) false)
                     (fst (readClipboardWithRetry
                             (clip (envOf (clipImage "tmp/new.png" 2048)
                                      false))))
                     dataImage sqlImage).
  { exists resultImage, Timage. repeat split. }
  assert (Hok : heap_ok worldEmpty) by constructor.
  destruct (clone_keeps_candidate
              (envOf (clipImage "tmp/new.png" 2048) false) worldEmpty _
              dataImage sqlImage Hreach eq_refl eq_refl Hok eq_refl)
    as (Hsame & _ & _ & _ & Hheap & _).
  split; [reflexivity |]. split; [exact Hsame |].
  split; [exact Hheap |]. split; [reflexivity |].
  split; [reflexivity |]. split; [reflexivity |].
  exists entry, stored.
  split; [exact Hhd |]. split; [exact Hin |]. split; [exact Hid |].
  split; [rewrite Hsid; exact Hid |]. split; [exact Htime |].
  split.
  - destruct Hsame' as (_ & _ & _ & _ & _ & _ & _ & _ & Hfav & _).
    rewrite Hfav. reflexivity.
  - destruct Hold as (_ & _ & _ & _ & _ & _ & _ & _ & _ & Hfav).
    rewrite <- Hfav. reflexivity.
Defined.

(* ===================================================================== *)
(** * Further properties *)
(* ===================================================================== *)

(* ===================================================================== *)
(** ** The reader: what a returned snapshot holds *)
(* ===================================================================== *)

Section BlockResults.
Variable attempt : Z.
Variable n : Native.

Lemma text_block_inv (result r' : ReadClipboard) :
  snd (readTextBlock attempt n result) = Ok r' ->
  r' = match hasText n, readText n with
       | Ok true, Ok s => set_text result (mkStr (strlen s) Ttext s)
       | _, _ => result
       end.
Proof.
  run_io.
  destruct (hasText n) as [[|] | e1]; [destruct (readText n) as [s | e2] | |];
    simpl; intros H; congruence.
Qed.

Lemma rtf_block_inv (result r' : ReadClipboard) :
  snd (readRTFBlock attempt n result) = Ok r' ->
  r' = match hasRTF n, readRTF n with
       | Ok true, Ok s =>
           set_rtf result (mkStr (textCountOr result (strlen s)) Trtf s)
       | _, _ => result
       end.
Proof.
  run_io.
  destruct (hasRTF n) as [[|] | e1]; [destruct (readRTF n) as [s | e2] | |];
    simpl; try destruct (negb (isSome (text result))); simpl;
    intros H; congruence.
Qed.

Lemma html_block_inv (result r' : ReadClipboard) :
  snd (readHTMLBlock attempt n result) = Ok r' ->
  r' = match hasHTML n, readHTML n with
       | Ok true, Ok s =>
           set_html result (mkStr (textCountOr result (strlen s)) Thtml s)
       | _, _ => result
       end.
Proof.
  run_io.
  destruct (hasHTML n) as [[|] | e1]; [destruct (readHTML n) as [s | e2] | |];
    simpl; try destruct (negb (isSome (text result))); simpl;
    intros H; congruence.
Qed.

Lemma image_block_inv (result r' : ReadClipboard) :
  snd (readImageBlock attempt n result) = Ok r' ->
  r' = match hasImage n, readImage n with
       | Ok true, Ok img =>
           set_image result
             (mkImage (ri_size img) (ri_height img) Timage (ri_path img)
                (ri_width img))
       | Ok false, _ =>
           match fallbackImage n with
           | Some e => set_image result e
           | None => result
           end
       | _, _ => result
       end.
Proof.
  unfold fallbackImage. run_io.
  destruct (hasImage n) as [[|] | e1];
    [destruct (readImage n) as [img | e2]
    | destruct (invoke_has_clipboard_image_win n) as [[|] | e3];
      [destruct (invoke_read_clipboard_image_win n) as [[wi |] | e4];
       [destruct (0 <? win_size wi) | |] | |]
    |];
    simpl;
    try destruct (negb (isSome (text result)) && negb (isSome (html result))
                  && negb (isSome (rtf result)));
    simpl; intros H; congruence.
Qed.

Lemma files_block_inv (result r' : ReadClipboard) :
  snd (readFilesBlock attempt n result) = Ok r' ->
  r' = match hasFiles n, readFiles n with
       | Ok true, Ok fl =>
           set_files result (mkFiles (rf_size fl) Tfiles (rf_paths fl))
       | _, _ => result
       end.
Proof.
  run_io.
  destruct (hasFiles n) as [[|] | e1]; [destruct (readFiles n) as [s | e2] | |];
    simpl;
    try destruct (negb (isSome (text result)) && negb (isSome (html result))
                  && negb (isSome (rtf result))
                  && negb (isSome (image result)));
    simpl; intros H; congruence.
Qed.

(** The slots of a returned snapshot, block by block. *)
Lemma attempt_inv (r : ReadClipboard) :
  snd (readAttempt attempt n) = Ok r ->
  exists r1 r2 r3 r4,
    r1 = match hasText n, readText n with
         | Ok true, Ok s => set_text emptyResult (mkStr (strlen s) Ttext s)
         | _, _ => emptyResult
         end
    /\ r2 = match hasRTF n, readRTF n with
            | Ok true, Ok s =>
                set_rtf r1 (mkStr (textCountOr r1 (strlen s)) Trtf s)
            | _, _ => r1
            end
    /\ r3 = match hasHTML n, readHTML n with
            | Ok true, Ok s =>
                set_html r2 (mkStr (textCountOr r2 (strlen s)) Thtml s)
            | _, _ => r2
            end
    /\ r4 = match hasImage n, readImage n with
            | Ok true, Ok img =>
                set_image r3
                  (mkImage (ri_size img) (ri_height img) Timage
                     (ri_path img) (ri_width img))
            | Ok false, _ =>
                match fallbackImage n with
                | Some e => set_image r3 e
                | None => r3
                end
            | _, _ => r3
            end
    /\ r = match hasFiles n, readFiles n with
           | Ok true, Ok fl =>
               set_files r4 (mkFiles (rf_size fl) Tfiles (rf_paths fl))
           | _, _ => r4
           end.
Proof.
  rewrite readAttempt_from_text. intros H.
  apply snd_bind_inv in H. destruct H as (r1 & H1 & H).
  unfold readFromRTF in H.
  apply snd_bind_inv in H. destruct H as (r2 & H2 & H).
  unfold readFromHTML in H.
  apply snd_bind_inv in H. destruct H as (r3 & H3 & H).
  unfold readFromImage in H.
  apply snd_bind_inv in H. destruct H as (r4 & H4 & H5).
  exists r1, r2, r3, r4.
  split; [apply text_block_inv; exact H1 |].
  split; [apply rtf_block_inv; exact H2 |].
  split; [apply html_block_inv; exact H3 |].
  split; [apply image_block_inv; exact H4 |].
  apply files_block_inv; exact H5.
Qed.

End BlockResults.

(** The five slots of a returned snapshot, from what the native layer
    answered in that attempt. *)
Lemma attempt_slots (attempt : Z) (n : Native) (r : ReadClipboard) :
  snd (readAttempt attempt n) = Ok r ->
  text r = match hasText n, readText n with
           | Ok true, Ok s => Some (mkStr (strlen s) Ttext s)
           | _, _ => None
           end
  /\ rtf r = match hasRTF n, readRTF n with
             | Ok true, Ok s =>
                 Some (mkStr (textCountOr r (strlen s)) Trtf s)
             | _, _ => None
             end
  /\ html r = match hasHTML n, readHTML n with
              | Ok true, Ok s =>
                  Some (mkStr (textCountOr r (strlen s)) Thtml s)
              | _, _ => None
              end
  /\ image r = match hasImage n, readImage n with
               | Ok true, Ok img =>
                   Some (mkImage (ri_size img) (ri_height img) Timage
                           (ri_path img) (ri_width img))
               | Ok false, _ => fallbackImage n
               | _, _ => None
               end
  /\ files r = match hasFiles n, readFiles n with
               | Ok true, Ok fl =>
                   Some (mkFiles (rf_size fl) Tfiles (rf_paths fl))
               | _, _ => None
               end.
Proof.
  intros H.
  destruct (attempt_inv attempt n r H)
    as (r1 & r2 & r3 & r4 & E1 & E2 & E3 & E4 & E5).
  assert (F1 : rtf r1 = None /\ html r1 = None /\ image r1 = None
               /\ files r1 = None).
  { rewrite E1.
    destruct (hasText n) as [[|] | ?]; [destruct (readText n) | |];
      repeat split. }
  assert (F2 : text r2 = text r1 /\ html r2 = None /\ image r2 = None
               /\ files r2 = None).
  { destruct F1 as (_ & ? & ? & ?). rewrite E2.
    destruct (hasRTF n) as [[|] | ?]; [destruct (readRTF n) | |];
      repeat split; assumption. }
  assert (F3 : text r3 = text r1 /\ rtf r3 = rtf r2 /\ image r3 = None
               /\ files r3 = None).
  { destruct F2 as (? & _ & ? & ?). rewrite E3.
    destruct (hasHTML n) as [[|] | ?]; [destruct (readHTML n) | |];
      repeat split; assumption. }
  assert (F4 : text r4 = text r1 /\ rtf r4 = rtf r2 /\ html r4 = html r3
               /\ files r4 = None).
  { destruct F3 as (? & ? & _ & ?). rewrite E4.
    destruct (hasImage n) as [[|] | ?];
      [destruct (readImage n) | destruct (fallbackImage n) |];
      repeat split; assumption. }
  assert (F5 : text r = text r1 /\ rtf r = rtf r2 /\ html r = html r3
               /\ image r = image r4).
  { destruct F4 as (? & ? & ? & _). rewrite E5.
    destruct (hasFiles n) as [[|] | ?]; [destruct (readFiles n) | |];
      repeat split; assumption. }
  destruct F1 as (F1r & F1h & F1i & F1f).
  destruct F2 as (F2t & F2h & F2i & F2f).
  destruct F3 as (F3t & F3r & F3i & F3f).
  destruct F4 as (F4t & F4r & F4h & F4f).
  destruct F5 as (F5t & F5r & F5h & F5i).
  assert (Hc1 : forall own, textCountOr r own = textCountOr r1 own)
    by (intros own; unfold textCountOr; rewrite F5t; reflexivity).
  assert (Hc2 : forall own, textCountOr r own = textCountOr r2 own)
    by (intros own; unfold textCountOr; rewrite F5t, F2t; reflexivity).
  split; [| split; [| split; [| split]]].
  - rewrite F5t, E1.
    destruct (hasText n) as [[|] | ?]; [destruct (readText n) | |];
      reflexivity.
  - rewrite F5r, E2.
    destruct (hasRTF n) as [[|] | ?]; [destruct (readRTF n) | |];
      simpl; rewrite ?Hc1; try assumption; reflexivity.
  - rewrite F5h, E3.
    destruct (hasHTML n) as [[|] | ?]; [destruct (readHTML n) | |];
      simpl; rewrite ?Hc2; try assumption; reflexivity.
  - rewrite F5i, E4.
    destruct (hasImage n) as [[|] | ?];
      [destruct (readImage n) | destruct (fallbackImage n) |];
      simpl; try assumption; reflexivity.
  - rewrite E5.
    destruct (hasFiles n) as [[|] | ?]; [destruct (readFiles n) | |];
      simpl; try assumption; reflexivity.
Qed.

(** X1.  A returned snapshot holds, for text, rich text, HTML and files,
    exactly what was read: a slot that is set comes from a probe that
    answered true and a read that returned, with the read's payload; and
    a format whose probe answered true and whose read returned is in the
    snapshot. *)
Theorem snapshot_holds_what_was_read (attempt : Z) (n : Native)
    (r : ReadClipboard) :
  snd (readAttempt attempt n) = Ok r ->
  (forall s, option_map s_value (text r) = Some s
             <-> hasText n = Ok true /\ readText n = Ok s)
  /\ (forall s, option_map s_value (rtf r) = Some s
                <-> hasRTF n = Ok true /\ readRTF n = Ok s)
  /\ (forall s, option_map s_value (html r) = Some s
                <-> hasHTML n = Ok true /\ readHTML n = Ok s)
  /\ (forall paths size,
        option_map (fun f => (f_value f, f_count f)) (files r)
        = Some (paths, size)
        <-> hasFiles n = Ok true /\ readFiles n = Ok (mkReadFiles paths size)).
Proof.
  intros H.
  destruct (attempt_slots attempt n r H) as (Ht & Hr & Hh & _ & Hf).
  split; [| split; [| split]].
  - intros s. rewrite Ht.
    destruct (hasText n) as [[|] | e1]; [destruct (readText n) as [x | e2] | |];
      simpl; split;
      try (intros [E1 E2]; congruence); try discriminate;
      intros E; injection E as <-; split; reflexivity.
  - intros s. rewrite Hr.
    destruct (hasRTF n) as [[|] | e1]; [destruct (readRTF n) as [x | e2] | |];
      simpl; split;
      try (intros [E1 E2]; congruence); try discriminate;
      intros E; injection E as <-; split; reflexivity.
  - intros s. rewrite Hh.
    destruct (hasHTML n) as [[|] | e1]; [destruct (readHTML n) as [x | e2] | |];
      simpl; split;
      try (intros [E1 E2]; congruence); try discriminate;
      intros E; injection E as <-; split; reflexivity.
  - intros paths size. rewrite Hf.
    destruct (hasFiles n) as [[|] | e1];
      [destruct (readFiles n) as [[ps sz] | e2] | |];
      simpl; split;
      try (intros [E1 E2]; congruence); try discriminate;
      intros E; injection E as <- <-; split; reflexivity.
Qed.

(** X2.  In a returned snapshot the text slot counts its own length;
    rich text and HTML take over the text slot's count when there is
    one, and count their own length when there is none. *)
Theorem counts_follow_text (attempt : Z) (n : Native) (r : ReadClipboard) :
  snd (readAttempt attempt n) = Ok r ->
  (forall t, text r = Some t -> s_count t = strlen (s_value t))
  /\ (forall t x, text r = Some t -> rtf r = Some x -> s_count x = s_count t)
  /\ (forall t x, text r = Some t -> html r = Some x -> s_count x = s_count t)
  /\ (forall x, text r = None -> rtf r = Some x ->
        s_count x = strlen (s_value x))
  /\ (forall x, text r = None -> html r = Some x ->
        s_count x = strlen (s_value x)).
Proof.
  intros H.
  destruct (attempt_slots attempt n r H) as (Ht & Hr & Hh & _ & _).
  assert (Hown : forall own t, text r = Some t ->
                               textCountOr r own = s_count t)
    by (intros own t E; unfold textCountOr; rewrite E; reflexivity).
  assert (Hnone : forall own, text r = None -> textCountOr r own = own)
    by (intros own E; unfold textCountOr; rewrite E; reflexivity).
  split; [| split; [| split; [| split]]].
  - intros t E. rewrite Ht in E.
    destruct (hasText n) as [[|] | e1]; [destruct (readText n) as [s | e2] | |];
      try discriminate.
    injection E as <-. reflexivity.
  - intros t x Et Ex. rewrite Hr in Ex.
    destruct (hasRTF n) as [[|] | e1]; [destruct (readRTF n) as [s | e2] | |];
      try discriminate.
    injection Ex as <-. simpl. apply Hown. exact Et.
  - intros t x Et Ex. rewrite Hh in Ex.
    destruct (hasHTML n) as [[|] | e1]; [destruct (readHTML n) as [s | e2] | |];
      try discriminate.
    injection Ex as <-. simpl. apply Hown. exact Et.
  - intros x Et Ex. rewrite Hr in Ex.
    destruct (hasRTF n) as [[|] | e1]; [destruct (readRTF n) as [s | e2] | |];
      try discriminate.
    injection Ex as <-. simpl. apply Hnone. exact Et.
  - intros x Et Ex. rewrite Hh in Ex.
    destruct (hasHTML n) as [[|] | e1]; [destruct (readHTML n) as [s | e2] | |];
      try discriminate.
    injection Ex as <-. simpl. apply Hnone. exact Et.
Qed.

(** X3.  When the primary probe reports no image, the image block
    cannot abort the attempt and logs nothing, whatever the two
    fallback commands do; and an image that a returned snapshot got
    from the fallback has a count above zero. *)
Theorem fallback_never_aborts (attempt : Z) (n : Native) :
  hasImage n = Ok false ->
  (forall result,
     exists r',
       snd (readImageBlock attempt n result) = Ok r'
       /\ forallb (fun e => match e with EvCall _ => true | _ => false end)
            (fst (readImageBlock attempt n result)) = true)
  /\ (forall r e,
        snd (readAttempt attempt n) = Ok r -> image r = Some e ->
        0 < i_count e /\ fallbackImage n = Some e).
Proof.
  intros Hhas. split.
  - intros result. run_io. rewrite Hhas.
    destruct (invoke_has_clipboard_image_win n) as [[|] | e3];
      [destruct (invoke_read_clipboard_image_win n) as [[wi |] | e4];
       [destruct (0 <? win_size wi) | |] | |];
      simpl; eexists; split; reflexivity.
  - intros r e H E.
    destruct (attempt_slots attempt n r H) as (_ & _ & _ & Hi & _).
    rewrite Hhas in Hi. rewrite Hi in E. split; [| exact E].
    unfold fallbackImage in E.
    destruct (invoke_has_clipboard_image_win n) as [[|] | e3];
      try discriminate.
    destruct (invoke_read_clipboard_image_win n) as [[wi |] | e4];
      try discriminate.
    destruct (Z.ltb_spec 0 (win_size wi)); [| discriminate].
    injection E as <-. simpl. assumption.
Qed.

Lemma rtf_block_total (attempt : Z) (n : Native) (result : ReadClipboard) :
  isSome (text result) = true ->
  exists r', snd (readRTFBlock attempt n result) = Ok r'
             /\ text r' = text result.
Proof.
  intros Ht. run_io.
  destruct (hasRTF n) as [[|] | e1]; [destruct (readRTF n) as [h | e2] | |];
    simpl; rewrite ?Ht; simpl; eexists; split; reflexivity.
Qed.

(** X4.  Once the text is read in the first attempt the read returns
    from that attempt, whatever the other formats do: one attempt, no
    delay, no error line, and the snapshot carries the text. *)
Theorem text_anchors_the_read (clip : Z -> Native) (s : string) :
  hasText (clip 1) = Ok true ->
  readText (clip 1) = Ok s ->
  exists r,
    snd (readClipboardWithRetry clip) = Ok r
    /\ text r = Some (mkStr (strlen s) Ttext s)
    /\ filter isAttemptStart (fst (readClipboardWithRetry clip))
       = [EvCall CHasText]
    /\ filter isDelay (fst (readClipboardWithRetry clip)) = []
    /\ filter (fun e => match e with EvLogError _ => true | _ => false end)
         (fst (readClipboardWithRetry clip)) = [].
Proof.
  intros Hhas Hread.
  assert (H1 : snd (readTextBlock 1 (clip 1) emptyResult)
               = Ok (set_text emptyResult (mkStr (strlen s) Ttext s))).
  { run_io. rewrite Hhas, Hread. reflexivity. }
  destruct (rtf_block_total 1 (clip 1)
              (set_text emptyResult (mkStr (strlen s) Ttext s)) eq_refl)
    as (r2 & H2 & Ht2).
  destruct (tail_total_from_html 1 (clip 1) r2) as (r & Hr);
    [rewrite Ht2; reflexivity |].
  assert (Hattempt : snd (readAttempt 1 (clip 1)) = Ok r).
  { rewrite readAttempt_from_text, (snd_bind_ok _ _ _ H1).
    unfold readFromRTF. rewrite (snd_bind_ok _ _ _ H2). exact Hr. }
  exists r.
  rewrite retry_cases, Hattempt. cbn [fst snd].
  split; [reflexivity |].
  split.
  { destruct (attempt_slots 1 (clip 1) r Hattempt) as (Ht & _).
    rewrite Ht, Hhas, Hread. reflexivity. }
  split; [apply attempt_starts_once |].
  split; [apply attempt_no_delay |].
  destruct (attempt_trace 1 (clip 1)) as (rest & -> & Hrest).
  simpl. apply inAttempt_filter; [| exact Hrest].
  intros [[] | | | | | | | | |]; simpl; congruence.
Qed.

Section ReadCalls.
Variable attempt : Z.
Variable n : Native.

Lemma text_block_reads (c : Call) (result : ReadClipboard) :
  existsb (isReadCall c) (fst (readTextBlock attempt n result)) = true ->
  c = CReadText /\ hasText n = Ok true.
Proof.
  run_io.
  destruct (hasText n) as [[|] | e1]; [destruct (readText n) as [t | e2] | |];
    destruct c; simpl; intros H; try discriminate; split; reflexivity.
Qed.

Lemma rtf_block_reads (c : Call) (result : ReadClipboard) :
  existsb (isReadCall c) (fst (readRTFBlock attempt n result)) = true ->
  c = CReadRTF /\ hasRTF n = Ok true.
Proof.
  run_io.
  destruct (hasRTF n) as [[|] | e1]; [destruct (readRTF n) as [t | e2] | |];
    destruct (text result); destruct c; simpl; intros H;
    try discriminate; split; reflexivity.
Qed.

Lemma html_block_reads (c : Call) (result : ReadClipboard) :
  existsb (isReadCall c) (fst (readHTMLBlock attempt n result)) = true ->
  c = CReadHTML /\ hasHTML n = Ok true.
Proof.
  run_io.
  destruct (hasHTML n) as [[|] | e1]; [destruct (readHTML n) as [t | e2] | |];
    destruct (text result); destruct c; simpl; intros H;
    try discriminate; split; reflexivity.
Qed.

Lemma image_block_reads (c : Call) (result : ReadClipboard) :
  existsb (isReadCall c) (fst (readImageBlock attempt n result)) = true ->
  c = CReadImage /\ hasImage n = Ok true.
Proof.
  run_io.
  destruct (hasImage n) as [[|] | e1];
    [destruct (readImage n) as [img | e2]
    | destruct (invoke_has_clipboard_image_win n) as [[|] | e3];
      [destruct (invoke_read_clipboard_image_win n) as [[wi |] | e4];
       [destruct (0 <? win_size wi) | |] | |]
    |];
    destruct (text result), (html result), (rtf result); destruct c;
    simpl; intros H; try discriminate; split; reflexivity.
Qed.

Lemma files_block_reads (c : Call) (result : ReadClipboard) :
  existsb (isReadCall c) (fst (readFilesBlock attempt n result)) = true ->
  c = CReadFiles /\ hasFiles n = Ok true.
Proof.
  run_io.
  destruct (hasFiles n) as [[|] | e1]; [destruct (readFiles n) as [t | e2] | |];
    destruct (text result), (html result), (rtf result), (image result);
    destruct c; simpl; intros H; try discriminate; split; reflexivity.
Qed.

End ReadCalls.

(** X5.  Within an attempt a format is read only after its own probe
    answered true: a probe that answers false or throws is never
    followed by the read of that format. *)
Theorem read_only_after_probe (attempt : Z) (n : Native) (c : Call) :
  existsb (isReadCall c) (fst (readAttempt attempt n)) = true ->
  (c = CReadText /\ hasText n = Ok true)
  \/ (c = CReadRTF /\ hasRTF n = Ok true)
  \/ (c = CReadHTML /\ hasHTML n = Ok true)
  \/ (c = CReadImage /\ hasImage n = Ok true)
  \/ (c = CReadFiles /\ hasFiles n = Ok true).
Proof.
  rewrite readAttempt_from_text, fst_bind, existsb_app.
  intros H. apply orb_prop in H. destruct H as [H | H].
  { left. apply (text_block_reads attempt n c emptyResult H). }
  destruct (snd (readTextBlock attempt n emptyResult)) as [r1 |];
    [| discriminate].
  unfold readFromRTF in H. rewrite fst_bind, existsb_app in H.
  apply orb_prop in H. destruct H as [H | H].
  { right. left. apply (rtf_block_reads attempt n c r1 H). }
  destruct (snd (readRTFBlock attempt n r1)) as [r2 |]; [| discriminate].
  unfold readFromHTML in H. rewrite fst_bind, existsb_app in H.
  apply orb_prop in H. destruct H as [H | H].
  { right. right. left. apply (html_block_reads attempt n c r2 H). }
  destruct (snd (readHTMLBlock attempt n r2)) as [r3 |]; [| discriminate].
  unfold readFromImage in H. rewrite fst_bind, existsb_app in H.
  apply orb_prop in H. destruct H as [H | H].
  { right. right. right. left. apply (image_block_reads attempt n c r3 H). }
  destruct (snd (readImageBlock attempt n r3)) as [r4 |]; [| discriminate].
  right. right. right. right. apply (files_block_reads attempt n c r4 H).
Qed.

(* ===================================================================== *)
(** ** The pass: an empty clipboard *)
(* ===================================================================== *)

(** X6.  When every probe of the first attempt answers false, the pass
    is over after the six probes: nothing is read, nothing is logged, no
    warning is shown, and the page and the store are left alone. *)
Theorem cleared_clipboard_is_silent (env : Env) (w : World) :
  hasText (clip env 1) = Ok false ->
  hasRTF (clip env 1) = Ok false ->
  hasHTML (clip env 1) = Ok false ->
  hasImage (clip env 1) = Ok false ->
  invoke_has_clipboard_image_win (clip env 1) = Ok false ->
  hasFiles (clip env 1) = Ok false ->
  processClipboard env w
  = ([EvCall CHasText; EvCall CHasRTF; EvCall CHasHTML; EvCall CHasImage;
      EvCall CHasClipboardImageWin; EvCall CHasFiles],
     w, Ok tt).
Proof.
  intros Ht Hr Hh Hi Hw Hf.
  assert (Hattempt : readAttempt 1 (clip env 1)
                     = ([EvCall CHasText; EvCall CHasRTF; EvCall CHasHTML;
                         EvCall CHasImage; EvCall CHasClipboardImageWin;
                         EvCall CHasFiles], Ok emptyResult)).
  { unfold readAttempt. run_io. rewrite Ht, Hr, Hh, Hi, Hw, Hf. reflexivity. }
  assert (Hread : readClipboardWithRetry (clip env)
                  = ([EvCall CHasText; EvCall CHasRTF; EvCall CHasHTML;
                      EvCall CHasImage; EvCall CHasClipboardImageWin;
                      EvCall CHasFiles], Ok emptyResult)).
  { rewrite retry_cases, Hattempt. reflexivity. }
  rewrite (pass_read_ok env w _ emptyResult Hread).
  unfold processResult, processBody. simpl. reflexivity.
Qed.

(* ===================================================================== *)
(** ** The classifier: what every record it builds satisfies *)
(* ===================================================================== *)

(** X7.  For a well-typed snapshot, the record the classifier builds has
    the fresh id and the time of the pass and is not a favorite; when it
    has a type, its group is a function of the type (files, image, else
    text), it has a value and a count, the value is an array of paths
    exactly for files, width and height are there exactly for an image,
    and a subtype can only be on a text record. *)
Theorem built_record_invariants (env : Env) (result : ReadClipboard) :
  wellTyped result ->
  let data := buildRecord env result in
  h_id data = nanoid env
  /\ h_createTime data = formatDate env
  /\ h_favorite data = false
  /\ forall type,
       h_type data = Some type ->
       h_group data = match type with
                      | Tfiles => "files"
                      | Timage => "image"
                      | _ => "text"
                      end
       /\ (exists count, h_count data = Some count)
       /\ (type = Tfiles <-> exists paths, h_value data = Some (VPaths paths))
       /\ (type <> Tfiles <-> exists s, h_value data = Some (VStr s))
       /\ (type = Timage
           <-> exists width height,
                 h_width data = Some width /\ h_height data = Some height)
       /\ (type <> Timage -> h_width data = None /\ h_height data = None)
       /\ (h_subtype data <> None -> type = Ttext).
Proof.
  intros Hwt data.
  assert (Hcases := classify_cases env result Hwt).
  cbv zeta in Hcases. fold data in Hcases.
  assert (Hfall : copyPlain env = true ->
                  (html result <> None \/ rtf result <> None) ->
                  branchPlainFallback env result (initialData env result)
                  = mkHistory (nanoid env) (Some Ttext) "text"
                      (Some (VStr (fallbackValue (initialData env result)
                                     result)))
                      (option_map s_value (text result))
                      (Some (strlen (fallbackValue (initialData env result)
                                       result)))
                      None None
                      (getClipboardTextSubtype env
                         (fallbackValue (initialData env result) result))
                      false (formatDate env)).
  { intros Ecp Hany. unfold branchPlainFallback. rewrite Ecp.
    assert (Hsome : isSome (html result) || isSome (rtf result) = true).
    { destruct Hany as [H | H];
        [destruct (html result) | destruct (rtf result)];
        try congruence; simpl; auto using orb_true_r. }
    rewrite Hsome. reflexivity. }
  destruct Hcases as
    [ (f & _ & Hd & T) | [ (_ & h & _ & _ & Hd & T)
    | [ (_ & _ & r & _ & _ & Hd & T) | [ (_ & _ & _ & t & _ & Hd & T)
    | [ (_ & _ & _ & _ & i & _ & Hd & T)
    | [ (_ & _ & _ & Ecp & Hany & Hd & T) | (_ & _ & _ & _ & _ & Hd & T) ]]]]]];
    try rewrite (Hfall Ecp Hany) in Hd;
    rewrite Hd in T |- *;
    (split; [reflexivity |]; split; [reflexivity |]; split; [reflexivity |]);
    intros type Hty; simpl in Hty, T;
    try (injection T as T'; rewrite T' in Hty);
    try discriminate; injection Hty as <-; simpl;
    (split; [reflexivity |]); (split; [eauto |]);
    (split; [split; [intros E; try discriminate; eauto
                    | intros (x & E); congruence] |]);
    (split; [split; [intros E; try congruence; eauto
                    | intros (x & E); congruence] |]);
    (split; [split; [intros E; try discriminate; eauto
                    | intros (x & y & E1 & E2); congruence] |]);
    (split; [intros E; try congruence; split; reflexivity |]);
    intros E; try reflexivity; congruence.
Qed.

(** X8.  When a well-typed snapshot gives a typed record, what goes to
    the store has a string for its value, never an array of paths, and
    the type of the candidate. *)
Theorem stored_value_is_a_string (env : Env) (result : ReadClipboard)
    (sqlData : History) (type : ClipType) :
  wellTyped result ->
  h_type (buildRecord env result) = Some type ->
  storageReady env (buildRecord env result) = Ok sqlData ->
  h_type sqlData = Some type
  /\ exists s, h_value sqlData = Some (VStr s).
Proof.
  intros Hwt Hty Hsql.
  split; [rewrite (storageReady_type env _ _ Hsql); exact Hty |].
  assert (Hcases := classify_cases env result Hwt).
  cbv zeta in Hcases.
  unfold storageReady in Hsql. rewrite Hty in Hsql.
  destruct Hcases as
    [ (f & _ & Hd & T) | [ (_ & h & _ & _ & Hd & T)
    | [ (_ & _ & r & _ & _ & Hd & T) | [ (_ & _ & _ & t & _ & Hd & T)
    | [ (_ & _ & _ & _ & i & _ & Hd & T)
    | [ (_ & _ & _ & Ecp & Hany & Hd & T) | (_ & _ & _ & _ & _ & Hd & T) ]]]]]];
    rewrite T in Hty; try discriminate; injection Hty as <-.
  - rewrite Hd in Hsql. injection Hsql as <-. simpl. eauto.
  - rewrite Hd in Hsql. injection Hsql as <-. simpl. eauto.
  - rewrite Hd in Hsql. injection Hsql as <-. simpl. eauto.
  - rewrite Hd in Hsql. injection Hsql as <-. simpl. eauto.
  - rewrite Hd in Hsql. simpl in Hsql.
    destruct (fullName env (i_value i)); [| discriminate].
    injection Hsql as <-. simpl. eauto.
  - injection Hsql as <-. rewrite Hd. unfold branchPlainFallback.
    rewrite Ecp.
    assert (Hsome : isSome (html result) || isSome (rtf result) = true).
    { destruct Hany as [H | H];
        [destruct (html result) | destruct (rtf result)];
        try congruence; simpl; auto using orb_true_r. }
    rewrite Hsome. simpl. eauto.
Qed.

(* ===================================================================== *)
(** ** The pass: what it can and cannot do, on every path *)
(* ===================================================================== *)

Section StoreSteps.

Lemma keepsStore_ret {A} (a : A) : keepsStore (retM a).
Proof. intros w. split; reflexivity. Qed.

Lemma keepsStore_throw {A} (e : Err) : keepsStore (@throwM A e).
Proof. intros w. split; reflexivity. Qed.

Lemma keepsStore_await {A} (r : Res A) : keepsStore (await r).
Proof. intros w. split; reflexivity. Qed.

Lemma keepsStore_emit (e : Event) : keepsStore (emitM e).
Proof. intros w. split; reflexivity. Qed.

Lemma keepsStore_alloc (o : History) : keepsStore (alloc o).
Proof. intros w. split; reflexivity. Qed.

Lemma keepsStore_deref (r : Ref) : keepsStore (deref r).
Proof.
  intros w. unfold deref. destruct (nth_error _ _); split; reflexivity.
Qed.

Lemma keepsStore_assign_value (r : Ref) (v : option Value) :
  keepsStore (assign_value r v).
Proof. intros w. split; reflexivity. Qed.

Lemma keepsStore_get_group : keepsStore get_group.
Proof. intros w. split; reflexivity. Qed.

Lemma keepsStore_list_remove (id : string) : keepsStore (list_remove id).
Proof. intros w. split; reflexivity. Qed.

Lemma keepsStore_list_unshift (r : Ref) : keepsStore (list_unshift r).
Proof. intros w. split; reflexivity. Qed.

Lemma keepsStore_select (env : Env) (p : History -> bool) :
  keepsStore (selectHistory env p).
Proof.
  intros w. unfold selectHistory.
  destruct (selectFault env); split; reflexivity.
Qed.

Lemma keepsStore_liftIO {A} (m : IO A) : keepsStore (liftIO m).
Proof. intros w. split; reflexivity. Qed.

Lemma keepsStore_bind {A B} (m : M A) (k : A -> M B) :
  keepsStore m -> (forall a, keepsStore (k a)) -> keepsStore (bindM m k).
Proof.
  intros Hm Hk w. unfold bindM. specialize (Hm w).
  destruct (m w) as [[tr w1] [a | e]]; simpl in *; [| exact Hm].
  specialize (Hk a w1). destruct (k a w1) as [[tr' w2] r]. simpl in *.
  destruct Hm as [Hdb Hg], Hk as [Hdb' Hg']. split; congruence.
Qed.

Lemma keepsStore_catch {A} (m : M A) (h : Err -> M A) :
  keepsStore m -> (forall e, keepsStore (h e)) -> keepsStore (catchM m h).
Proof.
  intros Hm Hh w. unfold catchM. specialize (Hm w).
  destruct (m w) as [[tr w1] [a | e]]; simpl in *; [exact Hm |].
  specialize (Hh e w1). destruct (h e w1) as [[tr' w2] r]. simpl in *.
  destruct Hm as [Hdb Hg], Hh as [Hdb' Hg']. split; congruence.
Qed.

Lemma stepsStore_keeps {A} (m : M A) : keepsStore m -> stepsStore m.
Proof.
  intros Hm w. destruct (Hm w) as [Hdb Hg].
  split; [left; exact Hdb | exact Hg].
Qed.

Lemma stepsStore_after {A B} (m : M A) (k : A -> M B) :
  keepsStore m -> (forall a, stepsStore (k a)) -> stepsStore (bindM m k).
Proof.
  intros Hm Hk w. unfold bindM. specialize (Hm w).
  destruct (m w) as [[tr w1] [a | e]]; simpl in *.
  - specialize (Hk a w1). destruct (k a w1) as [[tr' w2] r]. simpl in *.
    destruct Hm as [Hdb Hg], Hk as [Hstep Hg'].
    rewrite Hdb in Hstep. split; [exact Hstep | congruence].
  - destruct Hm as [Hdb Hg]. split; [left; exact Hdb | exact Hg].
Qed.

Lemma stepsStore_before {A B} (m : M A) (k : A -> M B) :
  stepsStore m -> (forall a, keepsStore (k a)) -> stepsStore (bindM m k).
Proof.
  intros Hm Hk w. unfold bindM. specialize (Hm w).
  destruct (m w) as [[tr w1] [a | e]]; simpl in *; [| exact Hm].
  specialize (Hk a w1). destruct (k a w1) as [[tr' w2] r]. simpl in *.
  destruct Hk as [Hdb Hg], Hm as [Hstep Hg'].
  rewrite Hdb. split; [exact Hstep | congruence].
Qed.

Lemma stepsStore_catch {A} (m : M A) (h : Err -> M A) :
  stepsStore m -> (forall e, keepsStore (h e)) -> stepsStore (catchM m h).
Proof.
  intros Hm Hh w. unfold catchM. specialize (Hm w).
  destruct (m w) as [[tr w1] [a | e]]; simpl in *; [exact Hm |].
  specialize (Hh e w1). destruct (h e w1) as [[tr' w2] r]. simpl in *.
  destruct Hh as [Hdb Hg], Hm as [Hstep Hg'].
  rewrite Hdb. split; [exact Hstep | congruence].
Qed.

Lemma stepsStore_insert (env : Env) (r : Ref) :
  stepsStore (insertHistory env r).
Proof.
  intros w. unfold insertHistory, bindM, deref.
  destruct (nth_error (w_heap w) r) as [row |]; simpl;
    [| split; [left |]; reflexivity].
  destruct (insertFault env); simpl; split; try reflexivity.
  - left. reflexivity.
  - right. left. exists row. reflexivity.
Qed.

Lemma stepsStore_update (env : Env) (id createTime : string) :
  stepsStore (updateHistory env id [SetCreateTime createTime]).
Proof.
  intros w. unfold updateHistory.
  destruct (updateFault env); simpl; split; try reflexivity.
  - left. reflexivity.
  - right. right. exists id, createTime. reflexivity.
Qed.

End StoreSteps.

Ltac keeps_store :=
  repeat first
    [ apply keepsStore_ret | apply keepsStore_throw | apply keepsStore_await
    | apply keepsStore_emit | apply keepsStore_alloc
    | apply keepsStore_deref | apply keepsStore_assign_value
    | apply keepsStore_get_group | apply keepsStore_list_remove
    | apply keepsStore_list_unshift | apply keepsStore_select
    | apply keepsStore_liftIO
    | apply keepsStore_bind; [| intros ?]
    | apply keepsStore_catch; [| intros ?]
    | match goal with
      | |- keepsStore (if ?c then _ else _) => destruct c
      | |- keepsStore (match ?x with _ => _ end) => destruct x
      end ].

Lemma upsert_stepsStore (env : Env) (data : History) (type : ClipType) :
  stepsStore (upsert env data type).
Proof.
  unfold upsert, cloneDeep.
  repeat (apply stepsStore_after; [keeps_store | intros ?]).
  match goal with
  | |- stepsStore (match ?x with _ => _ end) => destruct x
  end.
  - apply stepsStore_after; [keeps_store |]. intros _.
    apply stepsStore_before; [apply stepsStore_insert | intros ?; keeps_store].
  - apply stepsStore_after; [keeps_store |]. intros _.
    apply stepsStore_update.
Qed.

Lemma processClipboard_stepsStore (env : Env) :
  stepsStore (processClipboard env).
Proof.
  unfold processClipboard.
  apply stepsStore_after; [unfold message_warning; keeps_store |].
  intros [result |]; [| apply stepsStore_keeps; keeps_store].
  unfold processResult.
  apply stepsStore_before.
  - apply stepsStore_catch; [| intros ?; unfold message_warning; keeps_store].
    unfold processBody.
    destruct (nothingRead result); [apply stepsStore_keeps; keeps_store |].
    cbv zeta.
    destruct (h_type (buildRecord env result)) as [type |];
      [| apply stepsStore_keeps; keeps_store].
    destruct (ClipType_eqb type Timage
              && count_is_zero (h_count (buildRecord env result)));
      [apply stepsStore_keeps; keeps_store | apply upsert_stepsStore].
  - intros [u | e]; keeps_store.
Qed.

Lemma firstn_length_app {A} (l more : list A) :
  firstn (List.length l) (l ++ more) = l.
Proof.
  rewrite firstn_app, Nat.sub_diag, firstn_all. simpl.
  apply app_nil_r.
Qed.

Lemma sameButCreateTime_refl (row : History) : sameButCreateTime row row.
Proof. repeat split. Qed.

(** X9.  On every path, faults included, a pass does to the stored rows
    one of three things: nothing, append one row, or refresh the
    createTime of the rows with one id.  So it never deletes a row, adds
    at most one, keeps every field but createTime of the rows that were
    there, and never changes the page's group filter. *)
Theorem pass_never_rewrites_rows (env : Env) (w : World) :
  let w' := snd (fst (processClipboard env w)) in
  storeStep (w_db w) (w_db w')
  /\ (List.length (w_db w) <= List.length (w_db w')
      <= S (List.length (w_db w)))%nat
  /\ Forall2 sameButCreateTime (w_db w)
       (firstn (List.length (w_db w)) (w_db w'))
  /\ st_group (w_state w') = st_group (w_state w).
Proof.
  intros w'.
  destruct (processClipboard_stepsStore env w) as [Hstep Hg].
  fold w' in Hstep, Hg.
  split; [exact Hstep |]. split; [| split; [| exact Hg]].
  - destruct Hstep as [-> | [(row & ->) | (id & t & ->)]].
    + lia.
    + rewrite length_app. simpl. lia.
    + unfold refreshCreateTime. rewrite length_map. lia.
  - destruct Hstep as [-> | [(row & ->) | (id & t & ->)]].
    + rewrite firstn_all.
      induction (w_db w); constructor;
        [apply sameButCreateTime_refl | assumption].
    + rewrite firstn_length_app.
      induction (w_db w); constructor;
        [apply sameButCreateTime_refl | assumption].
    + replace (List.length (w_db w))
        with (List.length (refreshCreateTime id t (w_db w)))
        by (unfold refreshCreateTime; apply length_map).
      rewrite firstn_all.
      assert (H := refresh_sameButCreateTime id t (w_db w)).
      induction H as [| row row' db db' (Hsame & _) _ IH]; constructor;
        assumption.
Qed.

Lemma processBody_no_warning (env : Env) (result : ReadClipboard) :
  emitsOnly notUserWarning (processBody env result).
Proof.
  unfold processBody, upsert.
  repeat first
    [ apply emitsOnly_ret | apply emitsOnly_throw | apply emitsOnly_await
    | apply emitsOnly_alloc | apply emitsOnly_deref
    | apply emitsOnly_cloneDeep
    | apply emitsOnly_assign_value | apply emitsOnly_get_group
    | apply emitsOnly_emit; reflexivity
    | apply emitsOnly_bind; [| intros ?]
    | match goal with
      | |- emitsOnly _ (if ?c then _ else _) => destruct c
      | |- emitsOnly _ (match ?x with _ => _ end) => destruct x
      | |- emitsOnly _ (let _ := _ in _) => cbv zeta
      end
    | (intros w0; unfold list_remove, list_unshift, selectHistory,
         insertHistory, updateHistory, bindM, deref; simpl;
       repeat match goal with
              | |- context [match ?x with _ => _ end] => destruct x; simpl
              end; reflexivity) ].
Qed.

(** What the second [try] makes of the three ways its body can end. *)
Lemma processResult_cases (env : Env) (result : ReadClipboard) (w : World) :
  processResult env result w
  = match processBody env result w with
    | (tr, w', Ok (Ok _)) => (tr, w', Ok tt)
    | (tr, w', Ok (Throw e)) => (tr, w', Throw e)
    | (tr, w', Throw e) =>
        (tr ++ [EvLogError (ProcessingFailed e);
                EvMessageWarning "clipboard.hints.clipboard_process_failed"],
         w', Ok tt)
    end.
Proof.
  unfold processResult, bindM at 1, catchM.
  destruct (processBody env result w) as [[tr w'] [[u | e] | e]]; simpl;
    rewrite ?app_nil_r; reflexivity.
Qed.

(** X10.  A pass shows at most one warning, and which one tells what
    failed: the read-failure warning exactly when the read threw (and
    then the world is as it was), the processing warning exactly when
    the second [try] caught a throw; a pass that shows a warning never
    rejects. *)
Theorem one_warning_per_pass (env : Env) (w : World) :
  let pass := processClipboard env w in
  match snd (readClipboardWithRetry (clip env)) with
  | Throw _ =>
      filter isUserWarning (fst (fst pass))
      = [EvMessageWarning "clipboard.hints.clipboard_read_failed"]
      /\ snd (fst pass) = w /\ snd pass = Ok tt
  | Ok result =>
      match snd (processBody env result w) with
      | Throw _ =>
          filter isUserWarning (fst (fst pass))
          = [EvMessageWarning "clipboard.hints.clipboard_process_failed"]
          /\ snd pass = Ok tt
      | Ok settled =>
          filter isUserWarning (fst (fst pass)) = []
          /\ snd pass = match settled with
                        | Ok _ => Ok tt
                        | Throw e => Throw e
                        end
      end
  end.
Proof.
  intros pass. unfold pass.
  assert (Hr := read_reader_events (clip env)).
  destruct (readClipboardWithRetry (clip env)) as [tr [result | e]] eqn:Hread;
    cbn [fst snd] in *.
  - assert (Htr : filter isUserWarning tr = []).
    { apply reader_filter; [| exact Hr]. intros []; cbv; congruence. }
    rewrite (pass_read_ok env w tr result Hread), processResult_cases.
    assert (Hb := processBody_no_warning env result w).
    destruct (processBody env result w) as [[tb wb] [[u | e] | e]];
      cbn [fst snd] in *;
      assert (Htb : filter isUserWarning tb = [])
        by (apply forallb_filter_negb; exact Hb);
      rewrite !filter_app, ?Htr, ?Htb; repeat split.
  - assert (Htr : filter isUserWarning tr = []).
    { apply reader_filter; [| exact Hr]. intros []; cbv; congruence. }
    rewrite (pass_read_failed env w tr e Hread). cbn [fst snd].
    rewrite filter_app, Htr. repeat split.
Qed.

(* ===================================================================== *)
(** ** The pass: when the store or [fullName] fails *)
(* ===================================================================== *)

Lemma processBody_upsert (env : Env) (result : ReadClipboard)
    (type : ClipType) (w : World) :
  h_type (buildRecord env result) = Some type ->
  ClipType_eqb type Timage
  && count_is_zero (h_count (buildRecord env result)) = false ->
  processBody env result w = upsert env (buildRecord env result) type w.
Proof.
  intros Hty Hguard. unfold processBody.
  rewrite (typed_not_empty env result type Hty). cbv zeta.
  rewrite Hty, Hguard. reflexivity.
Qed.

Section UpsertFaults.
Variable env : Env.
Variables data sqlData : History.
Variable type : ClipType.
Variable w : World.
Hypothesis Htype : h_type data = Some type.
Hypothesis Hsql : storageReady env data = Ok sqlData.

Lemma upsert_select_fault (e : Err) :
  selectFault env = Some e ->
  upsert env data type w
  = ([EvSelect],
     mkWorld (w_heap w ++ [data; sqlData]) (w_state w) (w_db w), Throw e).
Proof.
  intros Hselect. unfold upsert. cbv zeta.
  etransitivity; [apply (upsert_objects env data sqlData type w Htype Hsql) |].
  unfold bindM at 1. unfold deref at 1. cbn [w_heap w_state w_db].
  rewrite nth_error_second.
  unfold bindM at 1. unfold deref at 1. cbn [w_heap w_state w_db].
  rewrite nth_error_fresh.
  unfold bindM at 1. unfold selectHistory at 1. rewrite Hselect.
  reflexivity.
Qed.

Lemma upsert_insert_fault (e : Err) :
  selectFault env = None ->
  insertFault env = Some e ->
  selected sqlData data w = [] ->
  upsert env data type w
  = if visible w data then
      ([EvSelect; EvListUnshift (List.length (w_heap w)); EvInsert sqlData],
       mkWorld (w_heap w ++ [data; sqlData])
         (mkState (st_group (w_state w))
            (List.length (w_heap w) :: st_list (w_state w)))
         (w_db w),
       Throw e)
    else
      ([EvSelect; EvInsert sqlData],
       mkWorld (w_heap w ++ [data; sqlData]) (w_state w) (w_db w),
       Throw e).
Proof.
  intros Hselect Hinsert Hrows. unfold upsert. cbv zeta.
  etransitivity; [apply (upsert_objects env data sqlData type w Htype Hsql) |].
  unfold selected in Hrows.
  unfold bindM at 1. unfold deref at 1. cbn [w_heap w_state w_db].
  rewrite nth_error_second.
  unfold bindM at 1. unfold deref at 1. cbn [w_heap w_state w_db].
  rewrite nth_error_fresh.
  unfold bindM at 1. unfold selectHistory at 1. rewrite Hselect.
  cbn [w_heap w_state w_db]. rewrite Hrows.
  unfold bindM at 1. unfold get_group at 1. cbn [w_heap w_state w_db].
  unfold visible.
  destruct (String.eqb (st_group (w_state w)) "all"
            || String.eqb (st_group (w_state w)) (h_group data)).
  - unfold bindM, retM, list_unshift, insertHistory, bindM, deref.
    cbn [w_heap w_state w_db st_group st_list].
    rewrite nth_error_second. rewrite Hinsert. reflexivity.
  - unfold bindM, retM, insertHistory, bindM, deref.
    cbn [w_heap w_state w_db st_group st_list].
    rewrite nth_error_second. rewrite Hinsert. reflexivity.
Qed.

Lemma upsert_update_fault (e : Err) (matched : History)
    (rest : list History) :
  selectFault env = None ->
  updateFault env = Some e ->
  selected sqlData data w = matched :: rest ->
  upsert env data type w
  = if visible w data then
      ([EvSelect; EvListRemove (h_id matched);
        EvListUnshift (List.length (w_heap w ++ [data; sqlData]));
        EvUpdate (h_id matched) [SetCreateTime (h_createTime data)]],
       mkWorld ((w_heap w ++ [data; sqlData])
                ++ [with_id data (h_id matched)])
         (mkState (st_group (w_state w))
            (List.length (w_heap w ++ [data; sqlData])
             :: filter (fun r => negb (id_is (w_heap w ++ [data; sqlData])
                                         (h_id matched) r))
                  (st_list (w_state w))))
         (w_db w),
       Ok (Throw e))
    else
      ([EvSelect;
        EvUpdate (h_id matched) [SetCreateTime (h_createTime data)]],
       mkWorld (w_heap w ++ [data; sqlData]) (w_state w) (w_db w),
       Ok (Throw e)).
Proof.
  intros Hselect Hupdate Hrows. unfold upsert. cbv zeta.
  etransitivity; [apply (upsert_objects env data sqlData type w Htype Hsql) |].
  unfold selected in Hrows.
  unfold bindM at 1. unfold deref at 1. cbn [w_heap w_state w_db].
  rewrite nth_error_second.
  unfold bindM at 1. unfold deref at 1. cbn [w_heap w_state w_db].
  rewrite nth_error_fresh.
  unfold bindM at 1. unfold selectHistory at 1. rewrite Hselect.
  cbn [w_heap w_state w_db]. rewrite Hrows.
  unfold bindM at 1. unfold get_group at 1. cbn [w_heap w_state w_db].
  unfold visible.
  destruct (String.eqb (st_group (w_state w)) "all"
            || String.eqb (st_group (w_state w)) (h_group data)).
  - unfold bindM, list_remove, list_unshift, deref, alloc, updateHistory.
    cbn [w_heap w_state w_db st_group st_list].
    rewrite nth_error_fresh. rewrite Hupdate. reflexivity.
  - unfold bindM, retM, updateHistory. cbn [w_heap w_state w_db].
    rewrite Hupdate. reflexivity.
Qed.

End UpsertFaults.

Lemma upsert_fullName_fault (env : Env) (data : History) (w : World)
    (e : Err) :
  fullNameOf env (h_value data) = Throw e ->
  upsert env data Timage w
  = ([], mkWorld (w_heap w ++ [data; data]) (w_state w) (w_db w), Throw e).
Proof.
  intros Hfull. unfold upsert. cbv zeta.
  unfold bindM at 1. unfold alloc at 1. cbn [w_heap w_state w_db].
  unfold bindM at 1. unfold cloneDeep, bindM at 1, deref.
  cbn [w_heap w_state w_db].
  rewrite nth_error_fresh. unfold alloc. cbn [w_heap w_state w_db].
  cbn [ClipType_eqb]. unfold bindM, await. rewrite Hfull.
  cbn. rewrite <- app_assoc. reflexivity.
Qed.

Lemma pass_by_upsert (env : Env) (w : World) (tr : Trace)
    (result : ReadClipboard) (type : ClipType) :
  readClipboardWithRetry (clip env) = (tr, Ok result) ->
  h_type (buildRecord env result) = Some type ->
  ClipType_eqb type Timage
  && count_is_zero (h_count (buildRecord env result)) = false ->
  processClipboard env w
  = match upsert env (buildRecord env result) type w with
    | (t2, w2, Ok (Ok _)) => (tr ++ t2, w2, Ok tt)
    | (t2, w2, Ok (Throw e)) => (tr ++ t2, w2, Throw e)
    | (t2, w2, Throw e) =>
        (tr ++ t2
         ++ [EvLogError (ProcessingFailed e);
             EvMessageWarning "clipboard.hints.clipboard_process_failed"],
         w2, Ok tt)
    end.
Proof.
  intros Hread Hty Hguard.
  rewrite (pass_read_ok env w tr result Hread), processResult_cases.
  rewrite (processBody_upsert env result type w Hty Hguard).
  destruct (upsert env (buildRecord env result) type w)
    as [[t2 w2] [[u | e] | e]]; reflexivity.
Qed.

(** X11.  When [fullName] throws for an image, or the query is
    rejected, the failure is caught inside the pass: it is logged, the
    processing warning is shown once, the pass completes, and the page
    state and the stored rows are as they were; nothing was put in the
    list and nothing was written. *)
Theorem failure_before_the_list (env : Env) (w : World) (tr : Trace)
    (result : ReadClipboard) (type : ClipType) (e : Err) :
  readClipboardWithRetry (clip env) = (tr, Ok result) ->
  h_type (buildRecord env result) = Some type ->
  ClipType_eqb type Timage
  && count_is_zero (h_count (buildRecord env result)) = false ->
  storageReady env (buildRecord env result) = Throw e
  \/ (exists sqlData,
        storageReady env (buildRecord env result) = Ok sqlData
        /\ selectFault env = Some e) ->
  exists query w',
    processClipboard env w
    = (tr ++ query
       ++ [EvLogError (ProcessingFailed e);
           EvMessageWarning "clipboard.hints.clipboard_process_failed"],
       w', Ok tt)
    /\ (query = [] \/ query = [EvSelect])
    /\ w_state w' = w_state w
    /\ w_db w' = w_db w.
Proof.
  intros Hread Hty Hguard Hfail.
  rewrite (pass_by_upsert env w tr result type Hread Hty Hguard).
  destruct Hfail as [Hthrow | (sqlData & Hsql & Hselect)].
  - unfold storageReady in Hthrow. rewrite Hty in Hthrow.
    destruct type; try discriminate.
    destruct (fullNameOf env (h_value (buildRecord env result)))
      as [durable | e'] eqn:Hfull; [discriminate |].
    injection Hthrow as ->.
    rewrite (upsert_fullName_fault env _ w e Hfull).
    eexists [], _. repeat split. left. reflexivity.
  - rewrite (upsert_select_fault env _ sqlData type w Hty Hsql e Hselect).
    eexists [EvSelect], _. repeat split. right. reflexivity.
Qed.

(** X12.  When the insert of a new record is rejected and the
    candidate's group is visible, the candidate is already in front of
    the list and stays there: the failure is logged and the processing
    warning shown, the pass completes, and the store has no row for the
    entry the list now shows. *)
Theorem failed_insert_keeps_the_entry (env : Env) (w : World) (tr : Trace)
    (data sqlData : History) (e : Err) :
  reachesUpsert env tr data sqlData ->
  insertFault env = Some e ->
  selected sqlData data w = [] ->
  visible w data = true ->
  heap_ok w ->
  let pass := processClipboard env w in
  fst (fst pass)
  = tr ++ [EvSelect; EvListUnshift (List.length (w_heap w));
           EvInsert sqlData; EvLogError (ProcessingFailed e);
           EvMessageWarning "clipboard.hints.clipboard_process_failed"]
  /\ snd pass = Ok tt
  /\ w_db (snd (fst pass)) = w_db w
  /\ entries (snd (fst pass)) = Some data :: entries w.
Proof.
  intros (result & type & Hread & Hdata & Hty & Hguard & Hsql & Hselect)
    Hinsert Hrows Hvis Hok pass.
  subst data. unfold pass.
  rewrite (pass_by_upsert env w tr result type Hread Hty Hguard).
  rewrite (upsert_insert_fault env _ sqlData type w Hty Hsql e
             Hselect Hinsert Hrows), Hvis.
  cbn [fst snd w_db]. repeat split.
  unfold entries. cbn [w_heap w_state st_list map].
  rewrite nth_error_fresh. f_equal.
  unfold heap_ok in Hok.
  apply (map_ext_Forall _ _ _ _
           (fun r Hr => nth_error_old (w_heap w) _ r Hr) Hok).
Qed.

(** X13.  When the createTime update of a matched record is rejected,
    the rejection is not caught by the pass: the pass itself rejects
    with that error, nothing is logged as an error and no warning is
    shown; the rows are as they were, and if the group is visible the
    list has been reconciled all the same. *)
Theorem rejected_update_is_not_caught (env : Env) (w : World) (tr : Trace)
    (data sqlData matched : History) (rest : list History) (e : Err) :
  reachesUpsert env tr data sqlData ->
  updateFault env = Some e ->
  selected sqlData data w = matched :: rest ->
  heap_ok w ->
  let pass := processClipboard env w in
  snd pass = Throw e
  /\ filter isUserWarning (fst (fst pass)) = []
  /\ filter (fun ev => match ev with EvLogError _ => true | _ => false end)
       (fst (fst pass))
     = filter (fun ev => match ev with EvLogError _ => true | _ => false end)
         tr
  /\ w_db (snd (fst pass)) = w_db w
  /\ (visible w data = true ->
      entries (snd (fst pass))
      = Some (with_id data (h_id matched))
        :: filter (fun o => negb (entryHasId (h_id matched) o)) (entries w)).
Proof.
  intros Hreach Hupdate Hrows Hok pass.
  assert (Htr := reached_trace env tr data sqlData Hreach).
  destruct Hreach as (result & type & Hread & Hdata & Hty & Hguard
                      & Hsql & Hselect).
  subst data. unfold pass.
  rewrite (pass_by_upsert env w tr result type Hread Hty Hguard).
  rewrite (upsert_update_fault env _ sqlData type w Hty Hsql e matched rest
             Hselect Hupdate Hrows).
  assert (Hw : filter isUserWarning tr = []).
  { apply reader_filter; [| exact Htr]. intros []; cbv; congruence. }
  destruct (visible w (buildRecord env result)); cbn [fst snd w_db];
    rewrite !filter_app, Hw; cbn [filter isUserWarning app];
    rewrite ?app_nil_r; repeat split; try discriminate.
  intros _. apply entries_reconciled. exact Hok.
Qed.

(* ===================================================================== *)
(** ** The pass: capturing the same content again *)
(* ===================================================================== *)

Lemma buildRecord_recapture (env : Env) (id time : string)
    (result : ReadClipboard) :
  buildRecord (recapture env id time) result
  = with_createTime (with_id (buildRecord env result) id) time.
Proof.
  destruct result as [[t |] [r |] [h |] [i |] [f |]];
    unfold buildRecord, branchFiles, branchHTML, branchRTF, branchText,
      branchImage, branchPlainFallback; simpl;
    destruct (copyPlain env); reflexivity.
Qed.

Lemma storageReady_recapture (env : Env) (id time : string)
    (data sqlData : History) :
  storageReady env data = Ok sqlData ->
  storageReady (recapture env id time)
    (with_createTime (with_id data id) time)
  = Ok (with_createTime (with_id sqlData id) time).
Proof.
  unfold storageReady. simpl.
  destruct (h_type data) as [[] |]; intros H;
    try (injection H as <-; reflexivity).
  unfold fullNameOf in *. simpl.
  destruct (h_value data) as [[path | paths] |]; try discriminate.
  destruct (fullName env path); [| discriminate].
  injection H as <-. reflexivity.
Qed.

Lemma typed_has_value (env : Env) (result : ReadClipboard)
    (type : ClipType) :
  h_type (buildRecord env result) = Some type ->
  exists v, h_value (buildRecord env result) = Some v.
Proof.
  destruct result as [[t |] [r |] [h |] [i |] [f |]];
    unfold buildRecord, branchFiles, branchHTML, branchRTF, branchText,
      branchImage, branchPlainFallback; simpl;
    destruct (copyPlain env); simpl; intros H; try discriminate; eauto.
Qed.

Lemma storageReady_has_value (env : Env) (data sqlData : History) :
  (exists v, h_value data = Some v) ->
  storageReady env data = Ok sqlData ->
  exists v, h_value sqlData = Some v.
Proof.
  intros (v & Hv). unfold storageReady.
  destruct (h_type data) as [[] |]; intros H;
    try (injection H as <-; simpl; rewrite ?Hv; simpl; eauto).
  destruct (fullNameOf env (h_value data)); [| discriminate].
  injection H as <-. simpl. eauto.
Qed.

(** The query of a candidate selects the candidate's own storage-ready
    record. *)
Lemma dedupWhere_own (sqlData data : History) (type : ClipType)
    (v : Value) :
  h_type sqlData = Some type ->
  h_value sqlData = Some v ->
  dedupWhere sqlData data sqlData = true.
Proof.
  intros Hty Hv. unfold dedupWhere. rewrite Hty, Hv.
  assert (Hvv : Value_eqb v v = true) by (apply Value_eqb_eq; reflexivity).
  destruct type; simpl; rewrite Hvv; reflexivity.
Qed.

(** X14.  Capturing the same clipboard content again, right after the
    pass that stored it, adds no row: the second pass finds the row the
    first one inserted, and only refreshes createTime for the first
    capture's id.  The stored record keeps the id, the value and every
    other field of the first capture. *)
Theorem recapture_is_deduplicated (env : Env) (w : World) (tr : Trace)
    (data sqlData : History) (id2 time2 : string) :
  reachesUpsert env tr data sqlData ->
  insertFault env = None ->
  updateFault env = None ->
  selected sqlData data w = [] ->
  let w1 := snd (fst (processClipboard env w)) in
  let w2 := snd (fst (processClipboard (recapture env id2 time2) w1)) in
  w_db w1 = w_db w ++ [sqlData]
  /\ w_db w2 = refreshCreateTime (h_id data) time2 (w_db w1)
  /\ List.length (w_db w2) = List.length (w_db w1)
  /\ last (w_db w2) data = with_createTime sqlData time2.
Proof.
  intros Hreach Hinsert Hupdate Hrows w1 w2.
  assert (Hdb1 : w_db w1 = w_db w ++ [sqlData]).
  { unfold w1.
    rewrite (pass_insert env w tr data sqlData Hreach Hinsert Hrows).
    destruct (visible w data); reflexivity. }
  destruct Hreach as (result & type & Hread & Hdata & Hty & Hguard
                      & Hsql & Hselect).
  assert (Hid : h_id sqlData = h_id data).
  { destruct (storageReady_sameButValue env data sqlData Hsql) as (H & _).
    symmetry. exact H. }
  assert (Hval : exists v, h_value sqlData = Some v).
  { apply (storageReady_has_value env data sqlData); [| exact Hsql].
    subst data. apply (typed_has_value env result type Hty). }
  destruct Hval as (v & Hv).
  assert (Htys : h_type sqlData = Some type)
    by (rewrite (storageReady_type env data sqlData Hsql); exact Hty).
  set (data2 := with_createTime (with_id data id2) time2).
  set (sql2 := with_createTime (with_id sqlData id2) time2).
  assert (Hreach2 : reachesUpsert (recapture env id2 time2) tr data2 sql2).
  { exists result, type. split; [exact Hread |].
    split; [rewrite buildRecord_recapture, Hdata; reflexivity |].
    split; [exact Hty |]. split; [exact Hguard |].
    split; [apply storageReady_recapture; exact Hsql | exact Hselect]. }
  assert (Hrows2 : selected sql2 data2 w1 = [sqlData]).
  { unfold selected. rewrite Hdb1, filter_app.
    change (dedupWhere sql2 data2) with (dedupWhere sqlData data).
    unfold selected in Hrows. rewrite Hrows. simpl.
    rewrite (dedupWhere_own sqlData data type v Htys Hv). reflexivity. }
  assert (Hdb2 : w_db w2 = refreshCreateTime (h_id data) time2 (w_db w1)).
  { unfold w2.
    rewrite (pass_match (recapture env id2 time2) w1 tr data2 sql2 sqlData []
               Hreach2 Hupdate Hrows2).
    rewrite Hid. destruct (visible w1 data2); reflexivity. }
  split; [exact Hdb1 |]. split; [exact Hdb2 |]. split.
  - rewrite Hdb2. unfold refreshCreateTime. apply length_map.
  - rewrite Hdb2, Hdb1. unfold refreshCreateTime.
    rewrite map_app. simpl. rewrite last_last.
    rewrite Hid, String.eqb_refl. reflexivity.
Qed.

(** X15.  After a pass that reconciles a visible record, exactly one
    entry of the list has the matched id, the one in front, however
    many had it before; the entries with other ids follow in their old
    order. *)
Theorem reconcile_leaves_one_entry (env : Env) (w : World) (tr : Trace)
    (data sqlData matched : History) (rest : list History) :
  reachesUpsert env tr data sqlData ->
  updateFault env = None ->
  heap_ok w ->
  selected sqlData data w = matched :: rest ->
  visible w data = true ->
  let w' := snd (fst (processClipboard env w)) in
  filter (entryHasId (h_id matched)) (entries w')
  = [Some (with_id data (h_id matched))]
  /\ filter (fun o => negb (entryHasId (h_id matched) o)) (entries w')
     = filter (fun o => negb (entryHasId (h_id matched) o)) (entries w)
  /\ (List.length (entries w') <= S (List.length (entries w)))%nat
  /\ hd_error (entries w') = Some (Some (with_id data (h_id matched)))
  /\ h_id (with_id data (h_id matched)) = h_id matched
  /\ tl (entries w')
     = filter (fun o => negb (entryHasId (h_id matched) o)) (entries w).
Proof.
  intros Hreach Hupdate Hok Hrows Hvis w'.
  assert (He : entries w'
               = Some (with_id data (h_id matched))
                 :: filter (fun o => negb (entryHasId (h_id matched) o))
                      (entries w)).
  { unfold w'.
    rewrite (pass_match env w tr data sqlData matched rest
               Hreach Hupdate Hrows), Hvis.
    cbn [fst snd]. apply entries_reconciled. exact Hok. }
  rewrite He. cbn [filter entryHasId with_id h_id].
  rewrite String.eqb_refl. cbn [negb].
  assert (Hnone : forall l,
            filter (entryHasId (h_id matched))
              (filter (fun o => negb (entryHasId (h_id matched) o)) l) = []).
  { induction l as [| o l IH]; simpl; [reflexivity |].
    destruct (entryHasId (h_id matched) o) eqn:E; simpl;
      [| rewrite E]; exact IH. }
  assert (Hidem : forall l,
            filter (fun o => negb (entryHasId (h_id matched) o))
              (filter (fun o => negb (entryHasId (h_id matched) o)) l)
            = filter (fun o => negb (entryHasId (h_id matched) o)) l).
  { induction l as [| o l IH]; simpl; [reflexivity |].
    destruct (entryHasId (h_id matched) o) eqn:E; simpl;
      [| rewrite E; simpl; f_equal]; exact IH. }
  assert (Hlen : forall l,
            (List.length
               (filter (fun o => negb (entryHasId (h_id matched) o)) l)
             <= List.length l)%nat).
  { induction l as [| o l IH]; simpl; [lia |].
    destruct (negb (entryHasId (h_id matched) o)); simpl; lia. }
  rewrite Hnone, Hidem.
  split; [reflexivity |]. split; [reflexivity |].
  split; [simpl; specialize (Hlen (entries w)); lia |].
  split; [reflexivity |]. split; reflexivity.
Qed.

(* ===================================================================== *)
(** ** The debounce timer and the lock: counting passes *)
(* ===================================================================== *)

(** Time passing, for a listener with at most one timeout: either none
    is due and nothing happens, or the one timeout fires. *)
Lemma advance_cases (now : Z) (l : Loop) :
  singleTimer l ->
  (advance now l = ([], l)
   /\ forall handle due, In (handle, due) (timers l) -> now < due)
  \/ (exists handle due,
        timers l = [(handle, due)] /\ due <= now
        /\ advance now l
           = ((if isProcessing l then [] else [ProcessClipboard]),
              mkLoop None true [] (nextHandle l)
                (if isProcessing l then inFlight l else S (inFlight l)))).
Proof.
  intros Hsingle. unfold singleTimer in Hsingle. unfold advance.
  destruct (debounceTimer l) as [handle |].
  - destruct Hsingle as (due & Ht). rewrite Ht. simpl.
    destruct (Z.leb_spec due now) as [Hle | Hlt].
    + right. exists handle, due. split; [reflexivity |]. split; [exact Hle |].
      rewrite (fire_kept_timer l handle due Ht).
      destruct (isProcessing l); reflexivity.
    + left. split; [reflexivity |].
      intros h d [H | []]. injection H as _ <-. exact Hlt.
  - rewrite Hsingle. left. split; [reflexivity |]. intros h d [].
Qed.

Lemma fire_pending (l : Loop) :
  singleTimer l ->
  fire (timers l) l
  = match timers l with
    | [] => ([], l)
    | _ :: _ =>
        ((if isProcessing l then [] else [ProcessClipboard]),
         mkLoop None true [] (nextHandle l)
           (if isProcessing l then inFlight l else S (inFlight l)))
    end.
Proof.
  intros Hsingle. unfold singleTimer in Hsingle.
  destruct (debounceTimer l) as [handle |].
  - destruct Hsingle as (due & Ht). rewrite Ht.
    rewrite <- Ht at 1. rewrite Ht at 1.
    rewrite (fire_kept_timer l handle due Ht).
    destruct (isProcessing l); reflexivity.
  - rewrite Hsingle. reflexivity.
Qed.

(** One input: the passes it starts and the timeouts it leaves are paid
    for by the timeouts that were pending and by the notification. *)
Lemma step_budget (hook : bool) (l : Loop) (i : Input) :
  singleTimer l ->
  (invocations (fst (step hook l i))
   + List.length (timers (snd (step hook l i)))
   <= List.length (timers l) + notified [i])%nat.
Proof.
  intros Hsingle.
  destruct i as [now | now]; unfold step, notified; simpl.
  - destruct (advance_cases now l Hsingle)
      as [[-> Hlater] | (handle & due & Ht & Hle & ->)].
    + unfold onClipboardChanged, setTimeout.
      unfold singleTimer in Hsingle.
      destruct (debounceTimer l) as [handle |].
      * destruct Hsingle as (due & Ht).
        rewrite (clear_kept_timer l handle due Ht), Ht. simpl.
        destruct hook; simpl; lia.
      * rewrite Hsingle. simpl. destruct hook; simpl; lia.
    + rewrite Ht. unfold onClipboardChanged, setTimeout. simpl.
      rewrite invocations_app.
      destruct (isProcessing l), hook; simpl; lia.
  - destruct (advance_cases now l Hsingle)
      as [[-> Hlater] | (handle & due & Ht & Hle & ->)].
    + simpl. destruct (inFlight l); simpl; lia.
    + rewrite Ht. destruct (isProcessing l); simpl;
        try destruct (inFlight l); simpl; lia.
Qed.

Lemma run_budget (hook : bool) (inputs : list Input) :
  forall l,
    singleTimer l -> lockHeld l ->
    (invocations (fst (run hook l inputs))
     + List.length (timers (snd (run hook l inputs)))
     <= List.length (timers l) + notified inputs)%nat.
Proof.
  induction inputs as [| i inputs IH]; intros l Hs Hl.
  - simpl. unfold notified. simpl. lia.
  - assert (Hb := step_budget hook l i Hs).
    destruct (step_preserves hook l i Hs Hl) as [Hs1 Hl1].
    cbn [run].
    destruct (step hook l i) as [s1 l1]. cbn [fst snd] in *.
    specialize (IH l1 Hs1 Hl1).
    destruct (run hook l1 inputs) as [s2 l2]. cbn [fst snd] in *.
    rewrite invocations_app.
    assert (Hn : notified (i :: inputs)
                 = (notified [i] + notified inputs)%nat).
    { unfold notified. destruct i; reflexivity. }
    rewrite Hn. lia.
Qed.

(** From a free lock, a pending timeout or a notification to come is
    enough for a pass to start. *)
Lemma some_pass_starts (hook : bool) (inputs : list Input) :
  forall l,
    singleTimer l -> lockHeld l -> isProcessing l = false ->
    timers l <> [] \/ (0 < notified inputs)%nat ->
    (1 <= invocations (fst (quiesce hook l inputs)))%nat.
Proof.
  induction inputs as [| i inputs IH]; intros l Hs Hl Hfree Hwork.
  - unfold quiesce. cbn [run]. rewrite (fire_pending l Hs), Hfree.
    destruct Hwork as [Hpending | Hn];
      [| unfold notified in Hn; simpl in Hn; lia].
    destruct (timers l); [contradiction | reflexivity].
  - unfold quiesce. cbn [run].
    assert (Hinv : forall (s1 : list Signal) (l1 : Loop),
              (1 <= invocations s1)%nat ->
              (1 <= invocations
                      (fst (let (s2, l2) := run hook l1 inputs in
                            let (s3, l3) := fire (timers l2) l2 in
                            ((s1 ++ s2) ++ s3, l3))))%nat).
    { intros s1 l1 H1. destruct (run hook l1 inputs) as [s2 l2].
      destruct (fire (timers l2) l2) as [s3 l3]. cbn [fst].
      rewrite !invocations_app. lia. }
    assert (Hnext : forall (s1 : list Signal) (l1 : Loop),
              singleTimer l1 -> lockHeld l1 -> isProcessing l1 = false ->
              timers l1 <> [] \/ (0 < notified inputs)%nat ->
              (1 <= invocations
                      (fst (let (s2, l2) := run hook l1 inputs in
                            let (s3, l3) := fire (timers l2) l2 in
                            ((s1 ++ s2) ++ s3, l3))))%nat).
    { intros s1 l1 Hs1 Hl1 Hf1 Hw1.
      specialize (IH l1 Hs1 Hl1 Hf1 Hw1). unfold quiesce in IH.
      destruct (run hook l1 inputs) as [s2 l2].
      destruct (fire (timers l2) l2) as [s3 l3]. cbn [fst] in *.
      rewrite !invocations_app in *. lia. }
    destruct (step_preserves hook l i Hs Hl) as [Hs1 Hl1].
    destruct i as [now | now]; unfold step in *.
    + destruct (advance_cases now l Hs)
        as [[Ha Hlater] | (handle & due & Ht & Hle & Ha)];
        rewrite Ha in *.
      * destruct (onClipboardChanged hook now l) as [s2 l2] eqn:Hc.
        cbn [fst snd] in *.
        assert (Hshape : isProcessing l2 = false /\ timers l2 <> []).
        { unfold onClipboardChanged, setTimeout in Hc.
          injection Hc as _ <-. simpl.
          split; [destruct (debounceTimer l); exact Hfree |].
          destruct (timers match debounceTimer l with
                           | Some handle => clearTimeout handle l
                           | None => l
                           end); discriminate. }
        assert (Hgoal := Hnext ([] ++ s2) l2 Hs1 Hl1 (proj1 Hshape)
                           (or_introl (proj2 Hshape))).
        destruct (run hook l2 inputs) as [s3 l3].
        destruct (fire (timers l3) l3) as [s4 l4]. exact Hgoal.
      * rewrite Hfree in *.
        destruct (onClipboardChanged hook now
                    (mkLoop None true [] (nextHandle l) (S (inFlight l))))
          as [s2 l2].
        assert (Hgoal := Hinv ([ProcessClipboard] ++ s2) l2
                           ltac:(rewrite invocations_app;
                                 unfold invocations at 1; simpl; lia)).
        destruct (run hook l2 inputs) as [s3 l3].
        destruct (fire (timers l3) l3) as [s4 l4]. exact Hgoal.
    + destruct (advance_cases now l Hs)
        as [[Ha Hlater] | (handle & due & Ht & Hle & Ha)];
        rewrite Ha in *.
      * unfold lockHeld in Hl. rewrite Hfree in Hl. rewrite Hl in *.
        cbn [fst snd] in *.
        assert (Hw1 : timers l <> [] \/ (0 < notified inputs)%nat).
        { destruct Hwork as [H | H]; [left; exact H | right; exact H]. }
        assert (Hgoal := Hnext [] l Hs1 Hl1 Hfree Hw1).
        destruct (run hook l inputs) as [s3 l3].
        destruct (fire (timers l3) l3) as [s4 l4]. exact Hgoal.
      * rewrite Hfree in *. cbn [fst snd inFlight] in *.
        assert (Hgoal := Hinv [ProcessClipboard]
                           (onSettled
                              (mkLoop None true [] (nextHandle l)
                                 (S (inFlight l))))
                           ltac:(unfold invocations; simpl; lia)).
        destruct (run hook _ inputs) as [s3 l3].
        destruct (fire (timers l3) l3) as [s4 l4]. exact Hgoal.
Qed.

(** X16.  Whatever the inputs, the pipeline is invoked at most once per
    notification and, if there was a notification at all, at least once;
    and when time has passed no timeout is left pending. *)
Theorem passes_bounded_by_notifications (hook : bool)
    (inputs : list Input) :
  let sigs := fst (runToQuiescence hook inputs) in
  let l := snd (runToQuiescence hook inputs) in
  (invocations sigs <= notified inputs)%nat
  /\ ((0 < notified inputs)%nat -> (1 <= invocations sigs)%nat)
  /\ timers l = [] /\ debounceTimer l = None.
Proof.
  intros sigs l.
  assert (Hq : runToQuiescence hook inputs = quiesce hook mounted inputs)
    by reflexivity.
  assert (Hb := run_budget hook inputs mounted eq_refl eq_refl).
  destruct (run_preserves hook inputs mounted eq_refl eq_refl) as [Hs Hl].
  split; [| split].
  - unfold sigs, runToQuiescence.
    destruct (run hook mounted inputs) as [s1 l1]. cbn [fst snd] in *.
    rewrite (fire_pending l1 Hs). simpl in Hb.
    destruct (timers l1) as [| t ts]; cbn [fst].
    + rewrite invocations_app. simpl in *. unfold invocations at 2. simpl.
      lia.
    + rewrite invocations_app. simpl in Hb.
      destruct (isProcessing l1); unfold invocations at 2; simpl; lia.
  - intros Hn. unfold sigs. rewrite Hq.
    apply some_pass_starts; try reflexivity. right. exact Hn.
  - unfold l, runToQuiescence.
    destruct (run hook mounted inputs) as [s1 l1]. cbn [fst snd] in *.
    rewrite (fire_pending l1 Hs).
    unfold singleTimer in Hs.
    destruct (timers l1) as [| t ts] eqn:Ht; cbn [snd].
    + split; [exact Ht |].
      destruct (debounceTimer l1) as [h |]; [| reflexivity].
      destruct Hs as (d & Hd). discriminate.
    + split; reflexivity.
Qed.

Lemma idle_ignores_settling (hook : bool) (later : list Z) (nh : nat) :
  run hook (mkLoop None false [] nh 0) (map Settled later)
  = ([], mkLoop None false [] nh 0).
Proof.
  induction later as [| s later IH]; [reflexivity |].
  cbn [map run]. unfold step, advance. cbn [timers filter fire inFlight].
  rewrite IH. reflexivity.
Qed.

Lemma run_app (hook : bool) (a b : list Input) (l : Loop) :
  run hook l (a ++ b)
  = (fst (run hook l a) ++ fst (run hook (snd (run hook l a)) b),
     snd (run hook (snd (run hook l a)) b)).
Proof.
  revert l. induction a as [| i a IH]; intros l.
  - simpl. destruct (run hook l b). reflexivity.
  - cbn [app run]. destruct (step hook l i) as [s1 l1].
    rewrite IH. destruct (run hook l1 a) as [s2 l2]. cbn [fst snd].
    destruct (run hook l2 b) as [s3 l3]. cbn [fst snd].
    rewrite app_assoc. reflexivity.
Qed.

(** X17.  A notification that arrives while a pass is in flight, and
    whose timeout comes due before that pass settles, is dropped for
    good: its timeout fires into the held lock and starts nothing, and
    once the pass has settled the listener is idle with no timeout left,
    so without a further notification no pass ever runs for it. *)
Theorem notification_during_pass_is_dropped (hook : bool) (l : Loop)
    (t s : Z) (later : list Z) :
  singleTimer l -> lockHeld l ->
  isProcessing l = true ->
  (forall handle due, In (handle, due) (timers l) -> t < due) ->
  t + DEBOUNCE_MS <= s ->
  run hook l [Changed t; Settled s]
  = ((if hook then [BeforeRead] else []),
     mkLoop None false [] (S (nextHandle l)) 0)
  /\ invocations
       (fst (quiesce hook l ([Changed t; Settled s] ++ map Settled later)))
     = 0%nat.
Proof.
  intros Hsingle Hlock Hbusy Hlater Hts.
  assert (Hin : inFlight l = 1%nat)
    by (unfold lockHeld in Hlock; rewrite Hbusy in Hlock; exact Hlock).
  assert (Hrun : run hook l [Changed t; Settled s]
                 = ((if hook then [BeforeRead] else []),
                    mkLoop None false [] (S (nextHandle l)) 0)).
  { cbn [run].
    rewrite (step_changed_quiet hook l t Hsingle Hlater), Hbusy, Hin.
    unfold step, advance. cbn [timers filter snd].
    destruct (Z.leb_spec (t + DEBOUNCE_MS) s) as [_ | Hlt]; [| lia].
    rewrite (fire_kept_timer
               (mkLoop (Some (nextHandle l)) true
                  [(nextHandle l, t + DEBOUNCE_MS)] (S (nextHandle l)) 1)
               _ _ eq_refl).
    cbn [isProcessing inFlight onSettled]. simpl.
    rewrite !app_nil_r. reflexivity. }
  split; [exact Hrun |].
  unfold quiesce. rewrite run_app, Hrun. cbn [fst snd].
  rewrite idle_ignores_settling. cbn [fst snd timers fire].
  rewrite !app_nil_r. destruct hook; reflexivity.
Qed.

(* ===================================================================== *)
(** ** Writing a record back, pasting, and the header of an entry *)
(* ===================================================================== *)


(** X19.  Every button click stops the event first.  The paste-plain
    button pastes text whatever the [pastePlain] preference says: the
    only write it can make is [writeText], and the preference does not
    change what it does. *)
Theorem paste_plain_button_writes_text (penv : PasteEnv) (data : History) :
  (forall key, hd_error (fst (handleClick penv data key))
               = Some UiStopPropagation)
  /\ (forall c,
        In (UiClipboard (ActWrite c))
          (fst (handleClick penv data BtnPastePlain)) ->
        exists text, c = WriteText text)
  /\ (forall preference,
        handleClick (mkPasteEnv preference (writes penv) (paste penv)) data
          BtnPastePlain
        = handleClick penv data BtnPastePlain).
Proof.
  split; [| split].
  - intros []; unfold handleClick;
      try destruct (writeToClipboard penv data);
      try destruct (pasteToClipboard penv data (Some true)); reflexivity.
  - intros c. unfold handleClick, pasteToClipboard, plainWanted, write,
      joinLines.
    destruct (h_type data) as [[] |];
      try destruct (h_value data) as [[s | paths] |];
      match goal with
      | |- context [writes penv ?w] => destruct (writes penv w)
      | _ => idtac
      end;
      simpl; intros H;
      repeat (destruct H as [H | H]; try discriminate;
              try (injection H as <-; eauto));
      try contradiction.
  - intros preference. reflexivity.
Qed.

Lemma built_search (env : Env) (result : ReadClipboard) :
  files result = None ->
  h_search (buildRecord env result) = option_map s_value (text result).
Proof.
  intros Ef. unfold buildRecord, branchFiles. rewrite Ef.
  unfold branchHTML, branchRTF, branchText, branchImage,
    branchPlainFallback, initialData.
  destruct (html result), (rtf result), (text result), (image result),
    (copyPlain env); reflexivity.
Qed.

(** X20.  Pasting a captured entry as plain text writes, for files, the
    captured paths joined by newlines, and for every other entry the
    payload of the text slot of its capture: the text itself for a text
    entry, the plain alternative for HTML or rich text, and an undefined
    text when the capture had no text slot (an image, HTML alone). *)
Theorem plain_paste_of_a_capture (env : Env) (penv : PasteEnv)
    (result : ReadClipboard) (type : ClipType) :
  wellTyped result ->
  h_type (buildRecord env result) = Some type ->
  let out := pasteToClipboard penv (buildRecord env result) (Some true) in
  hd_error (fst out)
  = Some (ActWrite
            (WriteText
               match files result with
               | Some f => Some (VStr (String.concat newline (f_value f)))
               | None => option_map (fun t => VStr (s_value t)) (text result)
               end)).
Proof.
  intros Hwt Hty out. unfold out.
  assert (Hcases := classify_cases env result Hwt). cbv zeta in Hcases.
  destruct (files result) as [f |] eqn:Ef.
  - destruct Hcases as [(f' & Ef' & Hd & T) | Hrest].
    + injection Ef' as <-.
      unfold pasteToClipboard, plainWanted. rewrite T, Hd. simpl.
      destruct (writes penv _); reflexivity.
    + destruct Hrest as
        [ (E & _) | [ (E & _) | [ (E & _) | [ (E & _)
        | [ (E & _) | (E & _) ]]]]]; discriminate.
  - assert (Hs := built_search env result Ef).
    assert (Hnf : type <> Tfiles).
    { destruct Hcases as
        [ (f & E & _) | [ (_ & h & _ & _ & _ & T)
        | [ (_ & _ & r & _ & _ & _ & T) | [ (_ & _ & _ & t & _ & _ & T)
        | [ (_ & _ & _ & _ & i & _ & _ & T)
        | [ (_ & _ & _ & _ & _ & _ & T) | (_ & _ & _ & _ & _ & _ & T) ]]]]]];
        congruence. }
    unfold pasteToClipboard, plainWanted. rewrite Hty, Hs.
    destruct type; try congruence; unfold write;
      destruct (text result); simpl;
      destruct (writes penv _); reflexivity.
Qed.

(** X21.  Copying a captured entry writes the captured payload back in
    its own format: the array of paths for files, the transient path for
    an image, the text for a text entry, and HTML or rich text together
    with the text slot's payload as its plain alternative. *)
Theorem copy_writes_the_capture (env : Env) (penv : PasteEnv)
    (result : ReadClipboard) :
  wellTyped result ->
  let data := buildRecord env result in
  let plainPart := option_map s_value (text result) in
  (forall f, files result = Some f ->
     fst (writeToClipboard penv data)
     = [ActWrite (WriteFiles (Some (VPaths (f_value f))))])
  /\ (files result = None ->
      forall value,
        h_value data = Some value ->
        (h_type data = Some Ttext ->
         fst (writeToClipboard penv data)
         = [ActWrite (WriteText (Some value))])
        /\ (h_type data = Some Thtml ->
            fst (writeToClipboard penv data)
            = [ActWrite (WriteHTML plainPart (Some value))])
        /\ (h_type data = Some Trtf ->
            fst (writeToClipboard penv data)
            = [ActWrite (WriteRTF plainPart (Some value))])
        /\ (h_type data = Some Timage ->
            fst (writeToClipboard penv data)
            = [ActWrite (WriteImage (Some value))]
            /\ exists i, image result = Some i /\ value = VStr (i_value i)))
  /\ (h_type data = None -> writeToClipboard penv data = ([], Ok tt)).
Proof.
  intros Hwt data plainPart.
  assert (Hcases := classify_cases env result Hwt). cbv zeta in Hcases.
  fold data in Hcases.
  split; [| split].
  - intros f Ef.
    destruct Hcases as [(f' & Ef' & Hd & T) | Hrest].
    + rewrite Ef in Ef'. injection Ef' as <-.
      unfold writeToClipboard. rewrite T, Hd. reflexivity.
    + destruct Hrest as
        [ (E & _) | [ (E & _) | [ (E & _) | [ (E & _)
        | [ (E & _) | (E & _) ]]]]]; congruence.
  - intros Ef value Hv.
    assert (Hs : h_search data = plainPart)
      by (apply built_search; exact Ef).
    unfold writeToClipboard. rewrite Hs, Hv.
    split; [intros ->; reflexivity |].
    split; [intros ->; reflexivity |].
    split; [intros ->; reflexivity |].
    intros Hty.
    destruct Hcases as
      [ (f & E & _) | [ (_ & h & _ & _ & _ & T)
      | [ (_ & _ & r & _ & _ & _ & T) | [ (_ & _ & _ & t & _ & _ & T)
      | [ (_ & _ & _ & _ & i & Ei & Hd & T)
      | [ (_ & _ & _ & _ & _ & _ & T) | (_ & _ & _ & _ & _ & _ & T) ]]]]]];
      try congruence.
    split; [rewrite Hty; reflexivity |].
    exists i. split; [exact Ei |].
    rewrite Hd in Hv. simpl in Hv. congruence.
  - intros Hty. unfold writeToClipboard. rewrite Hty. reflexivity.
Qed.

(** X22.  The header of a captured entry always has a type label and
    never fails on [value.length]: a files entry is labelled with the
    number of captured paths; a link, email, color or path label is shown
    for text entries only; width and height are shown exactly for an
    image, and they are the captured ones; files and images show a file
    size, every other entry a character count. *)
Theorem header_of_a_capture (env : Env) (result : ReadClipboard)
    (type : ClipType) :
  wellTyped result ->
  let data := buildRecord env result in
  h_type data = Some type ->
  (exists label, renderType data = Ok (Some label))
  /\ (forall f, files result = Some f ->
        renderType data
        = Ok (Some (Lbl "clipboard.label.n_files"
                      [Z.of_nat (List.length (f_value f))])))
  /\ (h_subtype data <> None -> type = Ttext)
  /\ (forall i, type = Timage -> image result = Some i ->
        renderPixel data = Some (Some (i_width i), Some (i_height i)))
  /\ (type <> Timage -> renderPixel data = None)
  /\ (renderCount data
      = if ClipType_eqb type Tfiles || ClipType_eqb type Timage
        then FileSize (h_count data) else NChars (h_count data)).
Proof.
  intros Hwt data Hty.
  assert (Hcases := classify_cases env result Hwt). cbv zeta in Hcases.
  fold data in Hcases.
  assert (Hpix : type <> Timage -> renderPixel data = None).
  { intros Hne. unfold renderPixel. rewrite Hty.
    destruct type; congruence. }
  assert (Hcount : renderCount data
      = if ClipType_eqb type Tfiles || ClipType_eqb type Timage
        then FileSize (h_count data) else NChars (h_count data)).
  { unfold renderCount. rewrite Hty. destruct type; reflexivity. }
  destruct Hcases as
    [ (f & Ef & Hd & T) | [ (Ef & h & Eh & _ & Hd & T)
    | [ (Ef & _ & r & Er & _ & Hd & T) | [ (Ef & _ & _ & t & Et & Hd & T)
    | [ (Ef & _ & _ & _ & i & Ei & Hd & T)
    | [ (Ef & _ & Ei & _ & _ & Hd & T) | (_ & _ & _ & _ & _ & _ & T) ]]]]]];
    try congruence.
  - (* files *)
    assert (Etype : type = Tfiles) by congruence. subst type.
    assert (Hlabel : renderType data
        = Ok (Some (Lbl "clipboard.label.n_files"
                      [Z.of_nat (List.length (f_value f))]))).
    { unfold renderType. rewrite T, Hd. reflexivity. }
    split; [| split; [| split; [| split; [| split]]]]; auto.
    + eexists. exact Hlabel.
    + intros f' Ef'. rewrite Ef in Ef'. injection Ef' as <-. exact Hlabel.
    + rewrite Hd. simpl. congruence.
    + congruence.
  - (* html *)
    assert (Etype : type = Thtml) by congruence. subst type.
    assert (Hsub : h_subtype data = None) by (rewrite Hd; reflexivity).
    split; [| split; [| split; [| split; [| split]]]]; auto;
      try congruence.
    unfold renderType. rewrite Hsub, T. eexists. reflexivity.
  - (* rtf *)
    assert (Etype : type = Trtf) by congruence. subst type.
    assert (Hsub : h_subtype data = None) by (rewrite Hd; reflexivity).
    split; [| split; [| split; [| split; [| split]]]]; auto;
      try congruence.
    unfold renderType. rewrite Hsub, T. eexists. reflexivity.
  - (* text *)
    assert (Etype : type = Ttext) by congruence. subst type.
    split; [| split; [| split; [| split; [| split]]]]; auto;
      try congruence.
    unfold renderType. rewrite T.
    destruct (h_subtype data) as [[] |]; eexists; reflexivity.
  - (* image *)
    assert (Etype : type = Timage) by congruence. subst type.
    assert (Hsub : h_subtype data = None) by (rewrite Hd; reflexivity).
    split; [| split; [| split; [| split; [| split]]]]; auto;
      try congruence.
    + unfold renderType. rewrite Hsub, T. eexists. reflexivity.
    + intros i' _ Ei'. rewrite Ei in Ei'. injection Ei' as <-.
      unfold renderPixel. rewrite T, Hd. reflexivity.
  - (* plain fallback *)
    assert (Etype : type = Ttext) by congruence. subst type.
    split; [| split; [| split; [| split; [| split]]]]; auto;
      try congruence.
    unfold renderType. rewrite T.
    destruct (h_subtype data) as [[] |]; eexists; reflexivity.
Qed.

(* ===================================================================== *)
(** ** The two revisions *)
(* ===================================================================== *)

Section Revisions.
Variable attempt : Z.
Variable n : Native.

Lemma earlier_image_block_same (result : ReadClipboard) :
  hasImage n <> Ok false ->
  Earlier.readImageBlock attempt n result = readImageBlock attempt n result.
Proof.
  intros Hne. unfold Earlier.readImageBlock, readImageBlock.
  destruct (hasImage n) as [[|] | e]; try reflexivity.
  congruence.
Qed.

Lemma earlier_image_block_later (result r4 : ReadClipboard) :
  snd (Earlier.readImageBlock attempt n result) = Ok r4 ->
  (hasImage n <> Ok false /\ snd (readImageBlock attempt n result) = Ok r4)
  \/ (hasImage n = Ok false /\ r4 = result
      /\ snd (readImageBlock attempt n result)
         = Ok match fallbackImage n with
              | Some e => set_image result e
              | None => result
              end).
Proof.
  intros H.
  destruct (hasImage n) as [[|] | e] eqn:Hprobe.
  - left. split; [discriminate |].
    rewrite <- earlier_image_block_same by congruence. exact H.
  - right. split; [reflexivity |]. split.
    + revert H. unfold Earlier.readImageBlock. run_io. rewrite Hprobe.
      simpl. congruence.
    + unfold fallbackImage. run_io. rewrite Hprobe.
      destruct (invoke_has_clipboard_image_win n) as [[|] | e3];
        [destruct (invoke_read_clipboard_image_win n) as [[wi |] | e4];
         [destruct (0 <? win_size wi) | |] | |];
        reflexivity.
  - left. split; [discriminate |].
    rewrite <- earlier_image_block_same by congruence. exact H.
Qed.

(** The files block returns at least as often on a snapshot that has an
    image more. *)
Lemma files_block_with_image (result r : ReadClipboard) (e : ImageEntry) :
  snd (readFilesBlock attempt n result) = Ok r ->
  snd (readFilesBlock attempt n (set_image result e))
  = Ok (set_image r e).
Proof.
  run_io.
  destruct (hasFiles n) as [[|] | e1]; [destruct (readFiles n) as [s | e2] | |];
    cbn [fst snd text html rtf image set_image];
    destruct (isSome (text result)), (isSome (html result)),
      (isSome (rtf result)), (isSome (image result));
    simpl; intros H; try discriminate; injection H as <-; reflexivity.
Qed.

Lemma earlier_attempt_later (r : ReadClipboard) :
  snd (Earlier.readAttempt attempt n) = Ok r ->
  (hasImage n <> Ok false /\ snd (readAttempt attempt n) = Ok r)
  \/ (hasImage n = Ok false /\ image r = None
      /\ snd (readAttempt attempt n)
         = Ok match fallbackImage n with
              | Some e => set_image r e
              | None => r
              end).
Proof.
  unfold Earlier.readAttempt. intros H.
  apply snd_bind_inv in H. destruct H as (r1 & H1 & H).
  apply snd_bind_inv in H. destruct H as (r2 & H2 & H).
  apply snd_bind_inv in H. destruct H as (r3 & H3 & H).
  apply snd_bind_inv in H. destruct H as (r4 & H4 & H5).
  assert (Hstep : forall r',
            snd (readImageBlock attempt n r3) = Ok r' ->
            snd (readAttempt attempt n) = snd (readFilesBlock attempt n r')).
  { intros r' H'. unfold readAttempt.
    rewrite (snd_bind_ok _ _ r1 H1), (snd_bind_ok _ _ r2 H2),
      (snd_bind_ok _ _ r3 H3), (snd_bind_ok _ _ r' H').
    reflexivity. }
  assert (Hi3 : image r3 = None).
  { apply text_block_inv in H1. apply rtf_block_inv in H2.
    apply html_block_inv in H3. subst r1 r2 r3.
    destruct (hasText n) as [[|] | ?]; [destruct (readText n) | |];
      (destruct (hasRTF n) as [[|] | ?]; [destruct (readRTF n) | |]);
      (destruct (hasHTML n) as [[|] | ?]; [destruct (readHTML n) | |]);
      reflexivity. }
  destruct (earlier_image_block_later r3 r4 H4)
    as [(Hne & Hlater) | (Hfalse & -> & Hlater)].
  - left. split; [exact Hne |]. rewrite (Hstep r4 Hlater). exact H5.
  - right. split; [exact Hfalse |]. split.
    + apply files_block_inv in H5. rewrite H5.
      destruct (hasFiles n) as [[|] | ?]; [destruct (readFiles n) | |];
        exact Hi3.
    + rewrite (Hstep _ Hlater).
      destruct (fallbackImage n) as [e |]; [| exact H5].
      apply files_block_with_image. exact H5.
Qed.

End Revisions.

Lemma earlier_retry_cases (clip : Z -> Native) :
  (forall attempt, Earlier.readAttempt attempt (clip attempt)
                   = readAttempt attempt (clip attempt)) ->
  Earlier.readClipboardWithRetry clip = readClipboardWithRetry clip.
Proof.
  intros H.
  unfold Earlier.readClipboardWithRetry, readClipboardWithRetry.
  generalize (Z.to_nat RETRY_COUNT) 1 (@None Err).
  intros remaining. induction remaining as [| remaining IH];
    intros attempt lastError; simpl.
  - reflexivity.
  - rewrite H. unfold catch.
    destruct (readAttempt attempt (clip attempt)) as [tr [r | e]];
      [reflexivity |].
    rewrite IH. reflexivity.
Qed.

(** X23.  The Windows fallback of the later reader only adds an image.
    While the primary image probe answers true or throws, an attempt of
    the two revisions is the same, calls and log lines included, and so
    is the whole read.  When it answers false, an attempt that returned
    before still returns, with the same text, rich text, HTML and files;
    the earlier snapshot has no image, the later one the fallback's, if
    any. *)
Theorem fallback_only_adds_an_image (clip : Z -> Native) :
  (forall attempt,
     hasImage (clip attempt) <> Ok false ->
     Earlier.readAttempt attempt (clip attempt)
     = readAttempt attempt (clip attempt))
  /\ ((forall attempt, hasImage (clip attempt) <> Ok false) ->
      Earlier.readClipboardWithRetry clip = readClipboardWithRetry clip)
  /\ (forall attempt r,
        hasImage (clip attempt) = Ok false ->
        snd (Earlier.readAttempt attempt (clip attempt)) = Ok r ->
        image r = None
        /\ exists r',
             snd (readAttempt attempt (clip attempt)) = Ok r'
             /\ text r' = text r /\ rtf r' = rtf r /\ html r' = html r
             /\ files r' = files r
             /\ image r' = fallbackImage (clip attempt)).
Proof.
  assert (Hsame : forall attempt,
            hasImage (clip attempt) <> Ok false ->
            Earlier.readAttempt attempt (clip attempt)
            = readAttempt attempt (clip attempt)).
  { intros attempt Hne.
    unfold Earlier.readAttempt, readAttempt, Earlier.readImageBlock,
      readImageBlock.
    destruct (hasImage (clip attempt)) as [[|] | e];
      [reflexivity | congruence | reflexivity]. }
  split; [exact Hsame |]. split.
  - intros Hall. apply earlier_retry_cases.
    intros attempt. apply Hsame, Hall.
  - intros attempt r Hfalse H.
    destruct (earlier_attempt_later attempt (clip attempt) r H)
      as [(Hne & _) | (_ & Hnone & Hlater)]; [congruence |].
    split; [exact Hnone |].
    eexists. split; [exact Hlater |].
    destruct (fallbackImage (clip attempt)) as [e |];
      repeat split; try reflexivity; exact Hnone.
Qed.

Lemma bindM_deref {A} (r : Ref) (o : History) (k : History -> M A)
    (w : World) :
  nth_error (w_heap w) r = Some o ->
  bindM (deref r) k w = k o w.
Proof.
  intros H. unfold bindM, deref. rewrite H.
  destruct (k o w) as [[tr w2] res]. reflexivity.
Qed.

Lemma bindM_select_ext {A} (env : Env) (f g : History -> bool)
    (k : list History -> M A) (w : World) :
  filter f (w_db w) = filter g (w_db w) ->
  bindM (selectHistory env f) k w = bindM (selectHistory env g) k w.
Proof.
  intros H. unfold bindM, selectHistory.
  destruct (selectFault env); [reflexivity |]. rewrite H. reflexivity.
Qed.

(** The two revisions' upserts do the same when their queries select the
    same rows. *)
Lemma upsert_agree (env : Env) (data : History) (type : ClipType)
    (w : World) :
  h_type data = Some type ->
  (forall sqlData,
     storageReady env data = Ok sqlData ->
     filter (Earlier.dedupWhere sqlData) (w_db w) = selected sqlData data w) ->
  Earlier.upsert env data type w = upsert env data type w.
Proof.
  intros Hty Hrows.
  destruct (storageReady env data) as [sqlData | e] eqn:Hsql.
  - specialize (Hrows sqlData eq_refl). unfold selected in Hrows.
    unfold Earlier.upsert, upsert. cbv zeta.
    etransitivity;
      [apply (upsert_objects env data sqlData type w Hty Hsql) |].
    symmetry.
    etransitivity;
      [apply (upsert_objects env data sqlData type w Hty Hsql) |].
    rewrite !(bindM_deref (S (List.length (w_heap w))) sqlData)
      by (cbn [w_heap]; apply nth_error_second).
    rewrite (bindM_deref (List.length (w_heap w)) data)
      by (cbn [w_heap]; apply nth_error_fresh).
    apply bindM_select_ext. cbn [w_db]. symmetry. exact Hrows.
  - unfold storageReady in Hsql. rewrite Hty in Hsql.
    destruct type; try discriminate.
    destruct (fullNameOf env (h_value data)) as [durable | e'] eqn:Hfull;
      [discriminate |].
    unfold Earlier.upsert, upsert. cbv zeta.
    unfold bindM, alloc, cloneDeep, bindM, deref, await.
    cbn [w_heap w_state w_db ClipType_eqb].
    rewrite nth_error_fresh, Hfull. reflexivity.
Qed.

Lemma earlier_query_on_other_types (sqlData data row : History) :
  h_type sqlData <> Some Timage ->
  Earlier.dedupWhere sqlData row = dedupWhere sqlData data row.
Proof.
  intros Hne. unfold Earlier.dedupWhere, dedupWhere.
  destruct (h_type sqlData) as [[] |]; try reflexivity. congruence.
Qed.

(** X24.  The later revision changes the second [try] block for images
    only.  For a snapshot whose record is not an image the two revisions
    do the same: same effects in the same order, same page and store,
    same settlement.  For an image they differ by the zero-byte guard and
    by the query at most: they do the same when the count is not zero and
    the two queries select the same rows; and every row the earlier query
    selects the later one selects too. *)
Theorem revisions_differ_on_images_only (env : Env)
    (result : ReadClipboard) (w : World) :
  let data := buildRecord env result in
  (h_type data <> Some Timage ->
   Earlier.processResult env result w = processResult env result w)
  /\ (forall type,
        h_type data = Some type ->
        ClipType_eqb type Timage && count_is_zero (h_count data) = false ->
        (forall sqlData,
           storageReady env data = Ok sqlData ->
           filter (Earlier.dedupWhere sqlData) (w_db w)
           = selected sqlData data w) ->
        Earlier.processResult env result w = processResult env result w)
  /\ (forall sqlData row,
        Earlier.dedupWhere sqlData row = true ->
        dedupWhere sqlData data row = true).
Proof.
  intros data.
  assert (Hguarded : forall type,
            h_type data = Some type ->
            ClipType_eqb type Timage && count_is_zero (h_count data) = false ->
            (forall sqlData,
               storageReady env data = Ok sqlData ->
               filter (Earlier.dedupWhere sqlData) (w_db w)
               = selected sqlData data w) ->
            Earlier.processResult env result w = processResult env result w).
  { intros type Hty Hguard Hrows.
    unfold Earlier.processResult, processResult, Earlier.processBody,
      processBody.
    destruct (nothingRead result); [reflexivity |].
    cbv zeta. fold data. rewrite Hty, Hguard.
    unfold bindM at 1. unfold bindM at 2. unfold catchM.
    rewrite (upsert_agree env data type w Hty Hrows). reflexivity. }
  split; [| split; [exact Hguarded |]].
  - intros Hne.
    destruct (h_type data) as [type |] eqn:Hty.
    + apply (Hguarded type eq_refl).
      * destruct type; try reflexivity. congruence.
      * intros sqlData Hsql. unfold selected.
        apply filter_ext. intros row.
        apply earlier_query_on_other_types.
        rewrite (storageReady_type env data sqlData Hsql), Hty. exact Hne.
    + unfold Earlier.processResult, processResult, Earlier.processBody,
        processBody.
      cbv zeta. fold data. rewrite Hty. reflexivity.
  - intros sqlData row. unfold Earlier.dedupWhere, dedupWhere.
    destruct (h_type sqlData) as [[] |]; try (intros H; exact H).
    intros H. apply andb_prop in H. destruct H as [H1 H2].
    rewrite H1, H2. reflexivity.
Qed.

Section EarlierUpsert.
Variable env : Env.
Variables data sqlData : History.
Variable type : ClipType.
Variable w : World.
Hypothesis Htype : h_type data = Some type.
Hypothesis Hsql : storageReady env data = Ok sqlData.
Hypothesis Hselect : selectFault env = None.

Lemma earlier_upsert_insert :
  insertFault env = None ->
  filter (Earlier.dedupWhere sqlData) (w_db w) = [] ->
  Earlier.upsert env data type w
  = if visible w data then
      ([EvSelect; EvListUnshift (List.length (w_heap w)); EvInsert sqlData],
       mkWorld (w_heap w ++ [data; sqlData])
         (mkState (st_group (w_state w))
            (List.length (w_heap w) :: st_list (w_state w)))
         (w_db w ++ [sqlData]),
       Ok (Ok tt))
    else
      ([EvSelect; EvInsert sqlData],
       mkWorld (w_heap w ++ [data; sqlData]) (w_state w) (w_db w ++ [sqlData]),
       Ok (Ok tt)).
Proof.
  intros Hinsert Hrows. unfold Earlier.upsert. cbv zeta.
  etransitivity; [apply (upsert_objects env data sqlData type w Htype Hsql) |].
  rewrite (bindM_deref (S (List.length (w_heap w))) sqlData)
    by (cbn [w_heap]; apply nth_error_second).
  unfold bindM at 1. unfold selectHistory at 1. rewrite Hselect.
  cbn [w_heap w_state w_db]. rewrite Hrows.
  unfold bindM at 1. unfold get_group at 1. cbn [w_heap w_state w_db].
  unfold visible.
  destruct (String.eqb (st_group (w_state w)) "all"
            || String.eqb (st_group (w_state w)) (h_group data)).
  - unfold bindM, retM, list_unshift, insertHistory, bindM, deref.
    cbn [w_heap w_state w_db st_group st_list].
    rewrite nth_error_second. rewrite Hinsert. reflexivity.
  - unfold bindM, retM, insertHistory, bindM, deref.
    cbn [w_heap w_state w_db st_group st_list].
    rewrite nth_error_second. rewrite Hinsert. reflexivity.
Qed.

End EarlierUpsert.

Lemma earlier_processResult_upsert (env : Env) (w : World)
    (result : ReadClipboard) (type : ClipType) :
  h_type (buildRecord env result) = Some type ->
  snd (Earlier.upsert env (buildRecord env result) type w) = Ok (Ok tt) ->
  snd (fst (Earlier.processResult env result w))
  = snd (fst (Earlier.upsert env (buildRecord env result) type w))
  /\ snd (Earlier.processResult env result w) = Ok tt.
Proof.
  intros Hty Hup.
  unfold Earlier.processResult, Earlier.processBody.
  rewrite (typed_not_empty env result type Hty). cbv zeta.
  rewrite Hty.
  unfold bindM, catchM.
  destruct (Earlier.upsert env (buildRecord env result) type w)
    as [[t2 w2] r2].
  simpl in Hup. subst r2. split; reflexivity.
Qed.

(** X25.  What the later revision stopped storing.  For an image whose
    durable path no stored row has, without store faults: when its count
    is zero, the earlier revision inserts it and the later one leaves the
    store as it was; when its count is not zero and a stored image has
    its width, height and count, the earlier revision inserts a second
    row and the later one only refreshes the createTime of the stored
    one. *)
Theorem earlier_revision_stores_more (env : Env) (result : ReadClipboard)
    (w : World) (sqlData : History) :
  let data := buildRecord env result in
  let earlier := snd (fst (Earlier.processResult env result w)) in
  let later := snd (fst (processResult env result w)) in
  h_type data = Some Timage ->
  storageReady env data = Ok sqlData ->
  selectFault env = None -> insertFault env = None ->
  updateFault env = None ->
  filter (Earlier.dedupWhere sqlData) (w_db w) = [] ->
  w_db earlier = w_db w ++ [sqlData]
  /\ (count_is_zero (h_count data) = true -> w_db later = w_db w)
  /\ (count_is_zero (h_count data) = false ->
      forall matched rest,
        selected sqlData data w = matched :: rest ->
        w_db later
        = refreshCreateTime (h_id matched) (h_createTime data) (w_db w)
        /\ List.length (w_db later) = List.length (w_db w)
        /\ List.length (w_db earlier) = S (List.length (w_db w))).
Proof.
  intros data earlier later Hty Hsql Hselect Hinsert Hupdate Hnone.
  assert (Hup := earlier_upsert_insert env data sqlData Timage w Hty Hsql
                    Hselect Hinsert Hnone).
  assert (Hdb : w_db (snd (fst (Earlier.upsert env data Timage w)))
                = w_db w ++ [sqlData])
    by (rewrite Hup; destruct (visible w data); reflexivity).
  assert (Hok : snd (Earlier.upsert env data Timage w) = Ok (Ok tt))
    by (rewrite Hup; destruct (visible w data); reflexivity).
  clear Hup.
  destruct (earlier_processResult_upsert env w result Timage Hty Hok)
    as (Hworld & _).
  assert (Hearlier : w_db earlier = w_db w ++ [sqlData]).
  { unfold earlier. rewrite Hworld. exact Hdb. }
  split; [exact Hearlier |]. split.
  - intros Hzero. unfold later, processResult, processBody.
    rewrite (typed_not_empty env result Timage Hty). cbv zeta.
    fold data. rewrite Hty, Hzero. reflexivity.
  - intros Hcount matched rest Hrows.
    assert (Hlater : w_db later
                     = refreshCreateTime (h_id matched) (h_createTime data)
                         (w_db w)).
    { unfold later.
      assert (Hup := upsert_match env data sqlData Timage w Hty Hsql
                       Hselect matched rest Hupdate Hrows).
      fold data in Hup.
      destruct (visible w data);
        rewrite (processResult_upsert env w result Timage Hty
                   ltac:(fold data; rewrite Hcount; reflexivity) _ _ Hup);
        reflexivity. }
    split; [exact Hlater |]. split.
    + rewrite Hlater. unfold refreshCreateTime. apply length_map.
    + rewrite Hearlier, length_app. simpl. lia.
Qed.

Lemma subtype_path_inv (env : Env) (s : string) :
  getClipboardTextSubtype env s = Some Spath ->
  fs_exists env s = Ok true
  /\ isURL env s = false /\ isEmail env s = false /\ isColor env s = false.
Proof.
  unfold getClipboardTextSubtype.
  destruct (isURL env s); [discriminate |].
  destruct (isEmail env s); [discriminate |].
  destruct (isColor env s); [discriminate |].
  destruct (fs_exists env s) as [[|] | e]; try discriminate.
  repeat split.
Qed.

(** X26.  The subtype of a record describes the value it is stored
    with: a text record, built from the text slot or from the plain
    fallback, has the subtype that [getClipboardTextSubtype] gives for
    its own value, and every other record has none.  The subtype is
    [path] only when [exists] resolved to true for that value after the
    URL, email and color tests all failed. *)
Theorem subtype_describes_the_value (env : Env) (result : ReadClipboard)
    (type : ClipType) :
  wellTyped result ->
  let data := buildRecord env result in
  h_type data = Some type ->
  (type = Ttext ->
   exists s, h_value data = Some (VStr s)
             /\ h_subtype data = getClipboardTextSubtype env s)
  /\ (type <> Ttext -> h_subtype data = None)
  /\ (h_subtype data = Some Spath ->
      exists s, h_value data = Some (VStr s)
                /\ fs_exists env s = Ok true
                /\ isURL env s = false /\ isEmail env s = false
                /\ isColor env s = false).
Proof.
  intros Hwt data Hty.
  assert (Hcases := classify_cases env result Hwt). cbv zeta in Hcases.
  fold data in Hcases.
  assert (Htext : type = Ttext ->
            exists s, h_value data = Some (VStr s)
                      /\ h_subtype data = getClipboardTextSubtype env s).
  { intros ->.
    destruct Hcases as
      [ (f & _ & _ & T) | [ (_ & h & _ & _ & _ & T)
      | [ (_ & _ & r & _ & _ & _ & T) | [ (_ & _ & _ & t & _ & Hd & T)
      | [ (_ & _ & _ & _ & i & _ & _ & T)
      | [ (_ & _ & _ & Hcp & Hsome & Hd & T)
        | (_ & _ & _ & _ & _ & _ & T) ]]]]]];
      try congruence.
    - exists (s_value t). rewrite Hd. split; reflexivity.
    - exists (fallbackValue (initialData env result) result).
      rewrite Hd. unfold branchPlainFallback. rewrite Hcp.
      assert (Hany : isSome (html result) || isSome (rtf result) = true).
      { destruct (html result), (rtf result); try reflexivity.
        destruct Hsome; congruence. }
      rewrite Hany. split; reflexivity. }
  assert (Hother : type <> Ttext -> h_subtype data = None).
  { intros Hne.
    destruct Hcases as
      [ (f & _ & Hd & T) | [ (_ & h & _ & _ & Hd & T)
      | [ (_ & _ & r & _ & _ & Hd & T) | [ (_ & _ & _ & t & _ & Hd & T)
      | [ (_ & _ & _ & _ & i & _ & Hd & T)
      | [ (_ & _ & _ & _ & _ & Hd & T)
        | (_ & _ & _ & _ & _ & _ & T) ]]]]]];
      try congruence; rewrite Hd; reflexivity. }
  split; [exact Htext |]. split; [exact Hother |].
  intros Hpath.
  assert (Etype : type = Ttext).
  { destruct type; try reflexivity;
      (rewrite Hother in Hpath; [discriminate | discriminate]). }
  destruct (Htext Etype) as (s & Hv & Hs).
  exists s. split; [exact Hv |].
  apply subtype_path_inv. rewrite <- Hs. exact Hpath.
Qed.

(* ===================================================================== *)
(** ** The further properties at concrete clipboards *)
(* ===================================================================== *)

Lemma wellTyped_resultHello : wellTyped resultHello.
Proof.
  repeat split; intros e H; try discriminate.
  injection H as <-. reflexivity.
Qed.

Lemma wellTyped_resultImage : wellTyped resultImage.
Proof.
  repeat split; intros e H; try discriminate.
  injection H as <-. reflexivity.
Qed.

Lemma wellTyped_resultFiles : wellTyped resultFiles.
Proof.
  repeat split; intros e H; try discriminate.
  injection H as <-. reflexivity.
Qed.

Lemma wellTyped_resultTextHtml : wellTyped resultTextHtml.
Proof.
  repeat split; intros e H; try discriminate;
    injection H as <-; reflexivity.
Qed.

Lemma reaches_hello (select insert update : option Err) :
  select = None ->
  reachesUpsert (envFaulty clipHello select insert update)
    (fst (readClipboardWithRetry
            (clip (envFaulty clipHello select insert update))))
    dataHello dataHello.
Proof.
  intros ->. exists resultHello, Ttext. repeat split.
Qed.

Lemma heap_ok_worldHello : heap_ok worldHello.
Proof. constructor; [simpl; lia | constructor]. Qed.

(** X1 at text with its HTML rendering: both payloads are in the
    snapshot, and no rich text. *)
Lemma snapshot_holds_what_was_read_witness :
  snd (readAttempt 1 clipTextHtml) = Ok resultTextHtml
  /\ (hasHTML clipTextHtml = Ok true
      /\ readHTML clipTextHtml = Ok "<b>hi</b>")
  /\ (option_map s_value (rtf resultTextHtml) = Some "" <->
      hasRTF clipTextHtml = Ok true /\ readRTF clipTextHtml = Ok "").
Proof.
  assert (H : snd (readAttempt 1 clipTextHtml) = Ok resultTextHtml)
    by reflexivity.
  destruct (snapshot_holds_what_was_read 1 clipTextHtml resultTextHtml H)
    as (_ & Hrtf & Hhtml & _).
  split; [exact H |]. split.
  - apply (proj1 (Hhtml "<b>hi</b>")). reflexivity.
  - exact (Hrtf "").
Defined.

(** X2 at the same clipboard: the HTML slot counts the 2 characters of
    the text, not its own 9. *)
Lemma counts_follow_text_witness :
  snd (readAttempt 1 clipTextHtml) = Ok resultTextHtml
  /\ s_count (mkStr 2 Thtml "<b>hi</b>") = s_count (mkStr 2 Ttext "hi").
Proof.
  assert (H : snd (readAttempt 1 clipTextHtml) = Ok resultTextHtml)
    by reflexivity.
  destruct (counts_follow_text 1 clipTextHtml resultTextHtml H)
    as (_ & _ & Hhtml & _).
  split; [exact H |].
  apply Hhtml; reflexivity.
Defined.

(** X3 at an image that only the fallback sees. *)
Lemma fallback_never_aborts_witness :
  hasImage clipFallback = Ok false
  /\ (exists r', snd (readImageBlock 1 clipFallback emptyResult) = Ok r')
  /\ 0 < i_count (mkImage 512 10 Timage "tmp/dib.png" 20).
Proof.
  assert (H : hasImage clipFallback = Ok false) by reflexivity.
  destruct (fallback_never_aborts 1 clipFallback H) as (Hblock & Himage).
  split; [exact H |]. split.
  - destruct (Hblock emptyResult) as (r' & Hr' & _).
    exists r'. exact Hr'.
  - apply (Himage
             (mkRead None None None
                (Some (mkImage 512 10 Timage "tmp/dib.png" 20)) None));
      reflexivity.
Defined.

(** X4 at a clipboard whose text reads and whose other formats fail. *)
Lemma text_anchors_the_read_witness :
  hasText clipFlaky = Ok true
  /\ readText clipFlaky = Ok "hello"
  /\ exists r,
       snd (readClipboardWithRetry (fun _ => clipFlaky)) = Ok r
       /\ text r = Some (mkStr (strlen "hello") Ttext "hello")
       /\ filter isDelay (fst (readClipboardWithRetry (fun _ => clipFlaky)))
          = [].
Proof.
  split; [reflexivity |]. split; [reflexivity |].
  destruct (text_anchors_the_read (fun _ => clipFlaky) "hello"
              eq_refl eq_refl)
    as (r & Hr & Ht & _ & Hd & _).
  exists r. split; [exact Hr |]. split; [exact Ht | exact Hd].
Defined.

(** X5 at ["hello"]: the text was read, so its probe answered true. *)
Lemma read_only_after_probe_witness :
  existsb (isReadCall CReadText) (fst (readAttempt 1 clipHello)) = true
  /\ ((CReadText = CReadText /\ hasText clipHello = Ok true)
      \/ (CReadText = CReadRTF /\ hasRTF clipHello = Ok true)
      \/ (CReadText = CReadHTML /\ hasHTML clipHello = Ok true)
      \/ (CReadText = CReadImage /\ hasImage clipHello = Ok true)
      \/ (CReadText = CReadFiles /\ hasFiles clipHello = Ok true)).
Proof.
  split; [reflexivity |].
  apply (read_only_after_probe 1 clipHello CReadText). reflexivity.
Defined.

(** X6 at a cleared clipboard. *)
Lemma cleared_clipboard_is_silent_witness :
  hasText (clip (envOf clipCleared false) 1) = Ok false
  /\ snd (fst (processClipboard (envOf clipCleared false) worldHello))
     = worldHello.
Proof.
  split; [reflexivity |].
  rewrite (cleared_clipboard_is_silent (envOf clipCleared false) worldHello);
    reflexivity.
Defined.

(** X7 at an image. *)
Lemma built_record_invariants_witness :
  wellTyped resultImage
  /\ h_group (buildRecord (envOf (clipImage "tmp/new.png" 2048) false)
                resultImage)
     = "image".
Proof.
  split; [exact wellTyped_resultImage |].
  destruct (built_record_invariants
              (envOf (clipImage "tmp/new.png" 2048) false) resultImage
              wellTyped_resultImage)
    as (_ & _ & _ & H).
  exact (proj1 (H Timage eq_refl)).
Defined.

(** X8 at two files: the store gets the JSON string. *)
Lemma stored_value_is_a_string_witness :
  wellTyped resultFiles
  /\ exists sqlData s,
       storageReady (envOf clipHello false)
         (buildRecord (envOf clipHello false) resultFiles)
       = Ok sqlData
       /\ h_value sqlData = Some (VStr s).
Proof.
  split; [exact wellTyped_resultFiles |].
  eexists.
  destruct (stored_value_is_a_string (envOf clipHello false) resultFiles
              _ Tfiles wellTyped_resultFiles eq_refl eq_refl)
    as (_ & s & Hs).
  exists s. split; [reflexivity | exact Hs].
Defined.

(** X9 at a second capture of ["hello"]. *)
Lemma pass_never_rewrites_rows_witness :
  storeStep (w_db worldHello)
    (w_db (snd (fst (processClipboard (envOf clipHello false) worldHello)))).
Proof.
  exact (proj1 (pass_never_rewrites_rows (envOf clipHello false)
                  worldHello)).
Defined.

(** X10 at a locked clipboard: the read-failure warning, once. *)
Lemma one_warning_per_pass_witness :
  filter isUserWarning
    (fst (fst (processClipboard (envOf clipLocked false) worldHello)))
  = [EvMessageWarning "clipboard.hints.clipboard_read_failed"].
Proof.
  exact (proj1 (one_warning_per_pass (envOf clipLocked false) worldHello)).
Defined.

(** X11 at a rejected query. *)
Lemma failure_before_the_list_witness :
  selectFault (envFaulty clipHello (Some (Error "database is locked"))
                 None None)
  = Some (Error "database is locked")
  /\ exists query w',
       processClipboard
         (envFaulty clipHello (Some (Error "database is locked")) None None)
         worldHello
       = (fst (readClipboardWithRetry (fun _ => clipHello)) ++ query
          ++ [EvLogError (ProcessingFailed (Error "database is locked"));
              EvMessageWarning "clipboard.hints.clipboard_process_failed"],
          w', Ok tt)
       /\ w_db w' = w_db worldHello.
Proof.
  split; [reflexivity |].
  destruct (failure_before_the_list
              (envFaulty clipHello (Some (Error "database is locked"))
                 None None)
              worldHello (fst (readClipboardWithRetry (fun _ => clipHello)))
              resultHello Ttext (Error "database is locked")
              eq_refl eq_refl eq_refl
              (or_intror (ex_intro _ dataHello (conj eq_refl eq_refl))))
    as (query & w' & Hpass & _ & _ & Hdb).
  exists query, w'. split; [exact Hpass | exact Hdb].
Defined.

(** X12 at a first capture of ["hello"] whose insert is rejected. *)
Lemma failed_insert_keeps_the_entry_witness :
  insertFault (envFaulty clipHello None (Some (Error "disk full")) None)
  = Some (Error "disk full")
  /\ w_db (snd (fst (processClipboard
                       (envFaulty clipHello None (Some (Error "disk full"))
                          None)
                       worldEmpty)))
     = []
  /\ entries (snd (fst (processClipboard
                          (envFaulty clipHello None
                             (Some (Error "disk full")) None)
                          worldEmpty)))
     = [Some dataHello].
Proof.
  split; [reflexivity |].
  destruct (failed_insert_keeps_the_entry
              (envFaulty clipHello None (Some (Error "disk full")) None)
              worldEmpty _ dataHello dataHello (Error "disk full")
              (reaches_hello None _ None eq_refl) eq_refl eq_refl eq_refl
              (Forall_nil _))
    as (_ & _ & Hdb & Hlist).
  split; [exact Hdb | exact Hlist].
Defined.

(** X13 at a second capture of ["hello"] whose update is rejected. *)
Lemma rejected_update_is_not_caught_witness :
  updateFault (envFaulty clipHello None None (Some (Error "disk full")))
  = Some (Error "disk full")
  /\ snd (processClipboard
            (envFaulty clipHello None None (Some (Error "disk full")))
            worldHello)
     = Throw (Error "disk full")
  /\ filter isUserWarning
       (fst (fst (processClipboard
                    (envFaulty clipHello None None
                       (Some (Error "disk full")))
                    worldHello)))
     = [].
Proof.
  split; [reflexivity |].
  destruct (rejected_update_is_not_caught
              (envFaulty clipHello None None (Some (Error "disk full")))
              worldHello _ dataHello dataHello helloRow []
              (Error "disk full")
              (reaches_hello None None _ eq_refl) eq_refl eq_refl
              heap_ok_worldHello)
    as (Hthrow & Hquiet & _).
  split; [exact Hthrow | exact Hquiet].
Defined.

(** X14 at two captures of ["hello"] on a fresh page. *)
Lemma recapture_is_deduplicated_witness :
  selected dataHello dataHello worldEmpty = []
  /\ w_db (snd (fst (processClipboard
                       (recapture (envFaulty clipHello None None None)
                          "second-id" "2024-05-01 10:00:05")
                       (snd (fst (processClipboard
                                    (envFaulty clipHello None None None)
                                    worldEmpty))))))
     = [with_createTime dataHello "2024-05-01 10:00:05"].
Proof.
  split; [reflexivity |].
  destruct (recapture_is_deduplicated
              (envFaulty clipHello None None None) worldEmpty _
              dataHello dataHello "second-id" "2024-05-01 10:00:05"
              (reaches_hello None None None eq_refl) eq_refl eq_refl
              eq_refl)
    as (_ & Hdb & _).
  rewrite Hdb. reflexivity.
Defined.

(** X15 at a second capture of ["hello"]. *)
Lemma reconcile_leaves_one_entry_witness :
  selected dataHello dataHello worldHello = [helloRow]
  /\ visible worldHello dataHello = true
  /\ filter (entryHasId "old-id")
       (entries (snd (fst (processClipboard
                             (envFaulty clipHello None None None)
                             worldHello))))
     = [Some (with_id dataHello "old-id")].
Proof.
  split; [reflexivity |]. split; [reflexivity |].
  exact (proj1 (reconcile_leaves_one_entry
                  (envFaulty clipHello None None None) worldHello _
                  dataHello dataHello helloRow []
                  (reaches_hello None None None eq_refl) eq_refl
                  heap_ok_worldHello eq_refl eq_refl)).
Defined.

(** X16 at two notifications 400 ms apart. *)
Lemma passes_bounded_by_notifications_witness :
  (invocations (fst (runToQuiescence true (notifications [0; 400]%Z)))
   <= notified (notifications [0; 400]%Z))%nat.
Proof.
  exact (proj1 (passes_bounded_by_notifications true
                  (notifications [0; 400]))).
Defined.

(** X17 at a notification at 0 ms during a pass that settles at 400
    ms. *)
Lemma notification_during_pass_is_dropped_witness :
  singleTimer busy /\ lockHeld busy
  /\ invocations
       (fst (quiesce true busy ([Changed 0; Settled 400] ++ map Settled [])))
     = 0%nat.
Proof.
  assert (Hs : singleTimer busy) by reflexivity.
  assert (Hl : lockHeld busy) by reflexivity.
  split; [exact Hs |]. split; [exact Hl |].
  apply (notification_during_pass_is_dropped true busy 0 400 [] Hs Hl
           eq_refl).
  - intros handle due [].
  - unfold DEBOUNCE_MS. lia.
Defined.


(** X19 at the paste-plain button on an image. *)
Lemma paste_plain_button_writes_text_witness :
  hd_error (fst (handleClick pasteEnvOk dataImage BtnPastePlain))
  = Some UiStopPropagation.
Proof.
  exact (proj1 (paste_plain_button_writes_text pasteEnvOk dataImage)
           BtnPastePlain).
Defined.

(** X20 at two files and at an image. *)
Lemma plain_paste_of_a_capture_witness :
  wellTyped resultFiles /\ wellTyped resultImage
  /\ hd_error
       (fst (pasteToClipboard pasteEnvOk
               (buildRecord (envOf clipHello false) resultFiles)
               (Some true)))
     = Some (ActWrite
               (WriteText
                  (Some (VStr (String.concat newline ["/a.txt"; "/b.txt"])))))
  /\ hd_error
       (fst (pasteToClipboard pasteEnvOk
               (buildRecord (envOf clipHello false) resultImage)
               (Some true)))
     = Some (ActWrite (WriteText None)).
Proof.
  split; [exact wellTyped_resultFiles |].
  split; [exact wellTyped_resultImage |]. split.
  - exact (plain_paste_of_a_capture (envOf clipHello false) pasteEnvOk
             resultFiles Tfiles wellTyped_resultFiles eq_refl).
  - exact (plain_paste_of_a_capture (envOf clipHello false) pasteEnvOk
             resultImage Timage wellTyped_resultImage eq_refl).
Defined.

(** X21 at text with its HTML rendering. *)
Lemma copy_writes_the_capture_witness :
  wellTyped resultTextHtml
  /\ fst (writeToClipboard pasteEnvOk
            (buildRecord (envOf clipTextHtml false) resultTextHtml))
     = [ActWrite (WriteHTML (Some "hi") (Some (VStr "<b>hi</b>")))].
Proof.
  split; [exact wellTyped_resultTextHtml |].
  destruct (copy_writes_the_capture (envOf clipTextHtml false) pasteEnvOk
              resultTextHtml wellTyped_resultTextHtml)
    as (_ & H & _).
  destruct (H eq_refl (VStr "<b>hi</b>") eq_refl) as (_ & Hhtml & _).
  exact (Hhtml eq_refl).
Defined.

(** X22 at two files and at an image. *)
Lemma header_of_a_capture_witness :
  wellTyped resultFiles /\ wellTyped resultImage
  /\ renderType (buildRecord (envOf clipHello false) resultFiles)
     = Ok (Some (Lbl "clipboard.label.n_files" [2]))
  /\ renderPixel (buildRecord (envOf clipHello false) resultImage)
     = Some (Some 100, Some 50).
Proof.
  split; [exact wellTyped_resultFiles |].
  split; [exact wellTyped_resultImage |]. split.
  - destruct (header_of_a_capture (envOf clipHello false) resultFiles
                Tfiles wellTyped_resultFiles eq_refl)
      as (_ & H & _).
    exact (H _ eq_refl).
  - destruct (header_of_a_capture (envOf clipHello false) resultImage
                Timage wellTyped_resultImage eq_refl)
      as (_ & _ & _ & H & _).
    exact (H _ eq_refl eq_refl).
Defined.

(** X23 at an image that only the fallback sees: the earlier reader
    returns an empty snapshot, the later one the image. *)
Lemma fallback_only_adds_an_image_witness :
  hasImage clipFallback = Ok false
  /\ snd (Earlier.readAttempt 1 clipFallback) = Ok emptyResult
  /\ exists r',
       snd (readAttempt 1 clipFallback) = Ok r'
       /\ image r' = Some (mkImage 512 10 Timage "tmp/dib.png" 20).
Proof.
  assert (Hprobe : hasImage clipFallback = Ok false) by reflexivity.
  assert (Hearlier : snd (Earlier.readAttempt 1 clipFallback)
                     = Ok emptyResult) by reflexivity.
  split; [exact Hprobe |]. split; [exact Hearlier |].
  destruct (fallback_only_adds_an_image (fun _ => clipFallback))
    as (_ & _ & H).
  destruct (H 1 emptyResult Hprobe Hearlier)
    as (_ & r' & Hr' & _ & _ & _ & _ & Himage).
  exists r'. split; [exact Hr' | exact Himage].
Defined.

(** X24 at a second capture of ["hello"]. *)
Lemma revisions_differ_on_images_only_witness :
  h_type (buildRecord (envOf clipHello false) resultHello) <> Some Timage
  /\ Earlier.processResult (envOf clipHello false) resultHello worldHello
     = processResult (envOf clipHello false) resultHello worldHello.
Proof.
  assert (Hne : h_type (buildRecord (envOf clipHello false) resultHello)
                <> Some Timage) by discriminate.
  split; [exact Hne |].
  exact (proj1 (revisions_differ_on_images_only (envOf clipHello false)
                  resultHello worldHello) Hne).
Defined.

(** X25 at the image of 100 x 50 and 2048 bytes captured again under
    another path: two rows before, one now. *)
Lemma earlier_revision_stores_more_witness :
  filter (Earlier.dedupWhere sqlImage) (w_db worldImage) = []
  /\ selected sqlImage dataImage worldImage = [imageRow]
  /\ List.length
       (w_db (snd (fst (Earlier.processResult
                          (envOf (clipImage "tmp/new.png" 2048) false)
                          resultImage worldImage))))
     = 2%nat
  /\ List.length
       (w_db (snd (fst (processResult
                          (envOf (clipImage "tmp/new.png" 2048) false)
                          resultImage worldImage))))
     = 1%nat.
Proof.
  assert (Hnone : filter (Earlier.dedupWhere sqlImage) (w_db worldImage)
                  = []) by reflexivity.
  assert (Hrows : selected sqlImage dataImage worldImage = [imageRow])
    by reflexivity.
  destruct (earlier_revision_stores_more
              (envOf (clipImage "tmp/new.png" 2048) false) resultImage
              worldImage sqlImage eq_refl eq_refl eq_refl eq_refl eq_refl
              Hnone)
    as (_ & _ & H).
  destruct (H eq_refl imageRow [] Hrows) as (_ & Hlater & Hearlier).
  split; [exact Hnone |]. split; [exact Hrows |].
  split; [exact Hearlier | exact Hlater].
Defined.

(** X26 at ["hello"]. *)
Lemma subtype_describes_the_value_witness :
  wellTyped resultHello
  /\ exists s,
       h_value (buildRecord (envOf clipHello false) resultHello)
       = Some (VStr s)
       /\ h_subtype (buildRecord (envOf clipHello false) resultHello)
          = getClipboardTextSubtype (envOf clipHello false) s.
Proof.
  split; [exact wellTyped_resultHello |].
  exact (proj1 (subtype_describes_the_value (envOf clipHello false)
                  resultHello Ttext wellTyped_resultHello eq_refl)
           eq_refl).
Defined.
